(** * WhipSmart outbound call flow: a shallow embedding

    The development follows [agent_flow.py] (handlers, node factories,
    flow initialisation), the disconnect hook of [bot.py] and the lead
    status vocabulary of [hubspot_api.py].

    - Python dictionaries ([flow_manager.state], [FlowArgs]) are finite maps
      from strings to dynamically typed values.
    - Handlers run in a small state-and-exception monad over a [Session]:
      the state dictionary, the conversation context kept by the transport,
      and a trace of everything pushed to an external collaborator.
    - The collaborators themselves (HubSpot, the generation API, the JSON
      printer) are parameters: an arbitrary deterministic function of the
      history decides what each call returns or raises. *)

From stdpp Require Import gmap strings list fin_maps pretty.

Open Scope string_scope.

(** ** Python values *)

Module Py.

(** The values that reach the flow: [None], booleans, integers and strings
    (tool-call arguments are JSON scalars, state entries are [None], a
    boolean or a string). *)
Inductive value : Type :=
  | VNone
  | VBool (b : bool)
  | VInt (n : Z)
  | VStr (s : string).

#[global] Instance value_eq_dec : EqDecision value.
Proof. solve_decision. Defined.

(** Truth value testing, as used by [if x:] and [x if x else y]. *)
Definition truthy (v : value) : bool :=
  match v with
  | VNone => false
  | VBool b => b
  | VInt n => negb (n =? 0)%Z
  | VStr s => negb (String.eqb s "")
  end.

(** [str(v)], as used by f-string interpolation. *)
Definition to_str (v : value) : string :=
  match v with
  | VNone => "None"
  | VBool true => "True"
  | VBool false => "False"
  | VInt n => pretty n
  | VStr s => s
  end.

(** [d.get(k, dflt)]. *)
Definition get (d : gmap string value) (k : string) (dflt : value) : value :=
  default dflt (d !! k).

(** [d.update(other)]: the entries of [other] win. *)
Definition update (d other : gmap string value) : gmap string value :=
  other ∪ d.

(** [l[-n:]] for a positive [n]. *)
Definition last_n {A} (n : nat) (l : list A) : list A :=
  drop (length l - n) l.

End Py.

Import Py.

Abbreviation dict := (gmap string value).

(** ** Node descriptors *)

(** Handlers are first-class functions in the source; a node refers to its
    handler by name here and [run_handler] below maps names to code. *)
Inductive handler_id : Type :=
  | h_capture_manager_details
  | h_handle_has_provider_response
  | h_capture_provider_name
  | h_query_knowledge_base
  | h_handle_meeting_response
  | h_handle_email_summary_response
  | h_capture_email_address
  | h_finalize_and_update_crm.

#[global] Instance handler_id_eq_dec : EqDecision handler_id.
Proof. solve_decision. Defined.

(** [FlowsFunctionSchema]; [properties] keeps each parameter's name and JSON
    type (the per-parameter description text is not kept). *)
Record FlowsFunctionSchema : Type := {
  fn_name : string;
  fn_description : string;
  fn_required : list string;
  fn_handler : handler_id;
  fn_properties : list (string * string)
}.

(** [NodeConfig]: the dictionary each factory returns. Absent keys
    ([role_messages], [post_actions]) are empty lists. *)
Record NodeConfig : Type := {
  node_name : string;
  role_messages : list string;
  task_messages : list string;
  functions : list FlowsFunctionSchema;
  post_actions : list string;
  respond_immediately : bool
}.

(** ** Node factories ([agent_flow.py], NODE CREATION FUNCTIONS) *)

(** [create_initial_greeting_node]: Initial greeting and introduction node. *)
Definition create_initial_greeting_node : NodeConfig :=
  let capture_details_func :=
    {| fn_name := "capture_manager_details";
       fn_description := "Capture the manager's name and company name once they've introduced themselves.";
       fn_required := ["manager_name"; "company_name"];
       fn_handler := h_capture_manager_details;
       fn_properties := [("manager_name", "string"); ("company_name", "string")] |} in
  let knowledge_base_func :=
    {| fn_name := "query_knowledge_base";
       fn_description := "Use this when the user asks questions about WhipSmart, novated leasing benefits, or any FAQs. This provides detailed information without changing the conversation flow.";
       fn_required := ["question"];
       fn_handler := h_query_knowledge_base;
       fn_properties := [("question", "string")] |} in
  {| node_name := "initial_greeting";
     role_messages := ["You are Alex, a professional outbound call assistant for WhipSmart in Australia. 
You speak with an Australian professional style - friendly, down-to-earth, and respectful.
Use Australian expressions naturally like 'no worries', 'reckon', 'cheers', 'mate' (when appropriate), 'brilliant', 'ripper' (sparingly).
Keep your responses SHORT and CONVERSATIONAL - you're having a chat, not writing a letter.
Use simple Australian English suitable for text-to-speech.
Never use special characters, emojis, or complex formatting.
Your goal is to have a respectful yarn about novated leasing programs for electric vehicles."];
     task_messages := ["G'day! Greet the person warmly in Australian professional style. Introduce yourself as Alex from WhipSmart.
Say something like: 'G'day, this is Alex calling from WhipSmart. How are you going today?'
Briefly mention you're reaching out to discuss novated leasing programs for electric vehicles.
Ask if you're speaking with the right person who handles employee benefits or fleet management.
Once they confirm and share their name and company, use the capture_manager_details function.
Keep it friendly and brief. If they ask questions about WhipSmart, use the query_knowledge_base function."];
     functions := [capture_details_func; knowledge_base_func];
     post_actions := [];
     respond_immediately := true |}.

(** [create_ask_provider_node]: Ask if they currently have a novated lease provider. *)
Definition create_ask_provider_node : NodeConfig :=
  let provider_response_func :=
    {| fn_name := "handle_has_provider_response";
       fn_description := "Record whether the company currently has a novated lease provider. Use this after they answer yes or no.";
       fn_required := ["has_provider"];
       fn_handler := h_handle_has_provider_response;
       fn_properties := [("has_provider", "boolean")] |} in
  let knowledge_base_func :=
    {| fn_name := "query_knowledge_base";
       fn_description := "Use this when the user asks questions about WhipSmart, novated leasing benefits, or any FAQs.";
       fn_required := ["question"];
       fn_handler := h_query_knowledge_base;
       fn_properties := [("question", "string")] |} in
  {| node_name := "ask_provider";
     role_messages := [];
     task_messages := ["Ask if their company currently offers a novated lease provider to employees.
Keep it casual and direct. Say something like: 'Can I ask, does your mob currently have a novated lease provider for your team?'
Wait for their answer, then use the handle_has_provider_response function.
If they ask questions, use query_knowledge_base."];
     functions := [provider_response_func; knowledge_base_func];
     post_actions := [];
     respond_immediately := true |}.

(** [create_ask_provider_name_node]: Scenario A: They have a provider - ask who it is. *)
Definition create_ask_provider_name_node : NodeConfig :=
  let capture_provider_func :=
    {| fn_name := "capture_provider_name";
       fn_description := "Record the name of their current novated lease provider.";
       fn_required := ["provider_name"];
       fn_handler := h_capture_provider_name;
       fn_properties := [("provider_name", "string")] |} in
  let knowledge_base_func :=
    {| fn_name := "query_knowledge_base";
       fn_description := "Use this when the user asks questions about WhipSmart or novated leasing.";
       fn_required := ["question"];
       fn_handler := h_query_knowledge_base;
       fn_properties := [("question", "string")] |} in
  {| node_name := "ask_provider_name";
     role_messages := [];
     task_messages := ["Ask who their current novated lease provider is.
Keep it conversational: 'That's great. May I ask who you're working with at the moment?'
Once they tell you, use capture_provider_name function.
If they ask questions, use query_knowledge_base."];
     functions := [capture_provider_func; knowledge_base_func];
     post_actions := [];
     respond_immediately := true |}.

(** [create_scenario_a_pitch_node]: Scenario A: Pitch WhipSmart's EV program to companies with existing providers. *)
Definition create_scenario_a_pitch_node : NodeConfig :=
  let meeting_response_func :=
    {| fn_name := "handle_meeting_response";
       fn_description := "Record the user's response to the meeting invitation, including specific date and time if provided.";
       fn_required := ["accepts_meeting"];
       fn_handler := h_handle_meeting_response;
       fn_properties := [("accepts_meeting", "boolean"); ("meeting_date", "string"); ("meeting_time", "string")] |} in
  let knowledge_base_func :=
    {| fn_name := "query_knowledge_base";
       fn_description := "Use this when the user asks questions about WhipSmart or novated leasing.";
       fn_required := ["question"];
       fn_handler := h_query_knowledge_base;
       fn_properties := [("question", "string")] |} in
  {| node_name := "scenario_a_pitch";
     role_messages := [];
     task_messages := ["Acknowledge their current provider positively in Australian style.
Then briefly pitch WhipSmart's all-inclusive EV novated lease program.
Key points: we specialise in electric vehicles, comprehensive package, competitive rates.
Keep it SHORT - 2 or 3 sentences maximum.
Then offer: 'Would you be up for a quick 15-minute chat next week to explore how we could complement what you've already got?'
If they accept, ask: 'What day and time works best for you next week?'
Use handle_meeting_response function after they respond with their availability.
If they ask questions first, use query_knowledge_base."];
     functions := [meeting_response_func; knowledge_base_func];
     post_actions := [];
     respond_immediately := true |}.

(** [create_scenario_b_pitch_node]: Scenario B: Pitch to companies without a provider. *)
Definition create_scenario_b_pitch_node : NodeConfig :=
  let meeting_response_func :=
    {| fn_name := "handle_meeting_response";
       fn_description := "Record the user's response to the meeting invitation, including specific date and time if provided.";
       fn_required := ["accepts_meeting"];
       fn_handler := h_handle_meeting_response;
       fn_properties := [("accepts_meeting", "boolean"); ("meeting_date", "string"); ("meeting_time", "string")] |} in
  let knowledge_base_func :=
    {| fn_name := "query_knowledge_base";
       fn_description := "Use this when the user asks questions about WhipSmart or novated leasing.";
       fn_required := ["question"];
       fn_handler := h_query_knowledge_base;
       fn_properties := [("question", "string")] |} in
  {| node_name := "scenario_b_pitch";
     role_messages := [];
     task_messages := ["Acknowledge respectfully that they don't have a provider in Australian style.
Briefly explain the benefits: novated leasing helps your employees save on tax, get better vehicle deals, and it's a zero-cost benefit for you as the employer.
WhipSmart specialises in electric vehicles with a full-service program.
Keep it SHORT - 2 or 3 sentences.
Then offer: 'Would you be keen for a quick 15-minute chat next week to learn more?'
If they accept, ask: 'What day and time suits you best next week?'
Use handle_meeting_response function after they respond with their availability.
If they ask questions first, use query_knowledge_base."];
     functions := [meeting_response_func; knowledge_base_func];
     post_actions := [];
     respond_immediately := true |}.

(** [create_offer_email_summary_node]: Offer to send a one-page email summary if they declined the meeting. *)
Definition create_offer_email_summary_node : NodeConfig :=
  let email_summary_func :=
    {| fn_name := "handle_email_summary_response";
       fn_description := "Record if they want the email summary.";
       fn_required := ["wants_summary"];
       fn_handler := h_handle_email_summary_response;
       fn_properties := [("wants_summary", "boolean")] |} in
  let knowledge_base_func :=
    {| fn_name := "query_knowledge_base";
       fn_description := "Use this when the user asks questions about WhipSmart or novated leasing.";
       fn_required := ["question"];
       fn_handler := h_query_knowledge_base;
       fn_properties := [("question", "string")] |} in
  {| node_name := "offer_email_summary";
     role_messages := [];
     task_messages := ["Politely acknowledge they're not keen on a meeting in Australian style.
Offer to send them a one-page summary by email instead: 'Would it be helpful if I shot you a brief one-page summary by email instead?'
Keep it light and non-pushy.
Use handle_email_summary_response after they respond.
If they ask questions, use query_knowledge_base."];
     functions := [email_summary_func; knowledge_base_func];
     post_actions := [];
     respond_immediately := true |}.

(** [create_collect_email_node]: Collect email address for meeting confirmation or summary. *)
Definition create_collect_email_node (for_meeting : bool) : NodeConfig :=
  let email_capture_func :=
    {| fn_name := "capture_email_address";
       fn_description := "Record the user's email address.";
       fn_required := ["email"];
       fn_handler := h_capture_email_address;
       fn_properties := [("email", "string")] |} in
  let knowledge_base_func :=
    {| fn_name := "query_knowledge_base";
       fn_description := "Use this when the user asks questions about WhipSmart or novated leasing.";
       fn_required := ["question"];
       fn_handler := h_query_knowledge_base;
       fn_properties := [("question", "string")] |} in
  let purpose :=
    if for_meeting then "send you the meeting invite" else "shoot you that summary" in
  {| node_name := "collect_email";
     role_messages := [];
     task_messages := [("Ask for their email address to " ++ purpose ++ " in Australian style.
Keep it simple: 'What's the best email address to " ++ purpose ++ "?'
Once they provide it, use capture_email_address function.
Confirm the email back to them to make sure it's spot on.
If they ask questions, use query_knowledge_base.")];
     functions := [email_capture_func; knowledge_base_func];
     post_actions := [];
     respond_immediately := true |}.

(** [create_end_call_node]: Gracefully end the conversation in Australian professional style. *)
Definition create_end_call_node : NodeConfig :=
  let finalize_crm_func :=
    {| fn_name := "finalize_and_update_crm";
       fn_description := "Internal function to finalize call and update CRM";
       fn_required := [];
       fn_handler := h_finalize_and_update_crm;
       fn_properties := [] |} in
  {| node_name := "end_call";
     role_messages := [];
     task_messages := ["Thank them professionally in Australian style.
If they accepted a meeting or email: Let them know you'll follow up soon. Say something like: 'I'll get that sorted for you straightaway.'
If they declined: Thank them anyway and wish them well. Say something like: 'Thanks so much for your time today. Have a ripper day!'
Keep it brief and friendly.
After thanking them, use the finalize_and_update_crm function to complete the call."];
     functions := [finalize_crm_func];
     post_actions := ["end_conversation"];
     respond_immediately := true |}.


(** ** External collaborators *)

(** An exception (an instance of [Exception], which is what the handlers
    catch) is identified with its message, [str(e)]. *)
Definition exn : Type := string.

Inductive result (A : Type) : Type :=
  | Ok (a : A)
  | Raise (e : exn).
Arguments Ok {A} a.
Arguments Raise {A} e.

(** [hubspot_api.HUBSPOT_LEAD_STATUS]; the enumeration of the same name that
    [finalize_and_update_crm] imports is taken to be this one. *)
Inductive HUBSPOT_LEAD_STATUS : Type :=
  | NEW
  | OPEN
  | IN_PROGRESS
  | OPEN_DEAL
  | UNQUALIFIED
  | ATTEMPTED_TO_CONTACT
  | CONNECTED
  | BAD_TIMING.

#[global] Instance HUBSPOT_LEAD_STATUS_eq_dec : EqDecision HUBSPOT_LEAD_STATUS.
Proof. solve_decision. Defined.

(** The string each member of the enumeration carries. *)
Definition lead_status_value (s : HUBSPOT_LEAD_STATUS) : string :=
  match s with
  | NEW => "NEW"
  | OPEN => "OPEN"
  | IN_PROGRESS => "IN_PROGRESS"
  | OPEN_DEAL => "OPEN_DEAL"
  | UNQUALIFIED => "UNQUALIFIED"
  | ATTEMPTED_TO_CONTACT => "ATTEMPTED_TO_CONTACT"
  | CONNECTED => "CONNECTED"
  | BAD_TIMING => "BAD_TIMING"
  end.

(** The three CRM operations the flow consumes, with their arguments. The
    notes dictionary is kept as an association list: its order is the order
    of the lines of the note. *)
Inductive crm_call : Type :=
  | add_call_notes (contact_id : value) (notes : list (string * value))
  | update_contact_lead_status (contact_id : value) (new_status : HUBSPOT_LEAD_STATUS)
  | create_deal_for_contact (contact_id : value).

(** One entry of the conversation context: its role (if any), its text and
    the identifiers of the tool calls it carries. *)
Record message : Type := {
  role : option string;
  content : string;
  tool_calls : list string
}.

(** What the session pushed to the outside, oldest first. A CRM or
    generation request is recorded with its outcome. [logger.error] lines are
    recorded; [logger.info] lines touch neither state nor control flow and
    are left out. *)
Inductive event : Type :=
  | EvCrm (c : crm_call) (raised : option exn)
  | EvGenerate (prompt : string) (outcome : result string)
  | EvLogError (msg : string)
  | EvTaskCancel.

(** The collaborators, as functions of the history so far. [RAG_PROMPT] and
    the client come from [utils.funtions]; the three CRM functions from
    [hubspot_api] (in [bot.py]) or, imported on demand, from
    [service.hubspot_service] (in [finalize_and_update_crm]). *)
Record Collaborators : Type := {
  RAG_PROMPT : string;
  json_dumps : list message → string;
  generate_content : list event → string → result string;
  import_hubspot_service : list event → option exn;
  hubspot : list event → crm_call → option exn
}.

(** ** Sessions and the handler monad *)

Record Session : Type := {
  state : dict;
  current_context : list message;
  trace : list event
}.

Definition M (A : Type) : Type := Session → result A * Session.

Definition ret {A} (a : A) : M A := λ s, (Ok a, s).

Definition bind {A B} (m : M A) (k : A → M B) : M B :=
  λ s, match m s with
       | (Ok a, s') => k a s'
       | (Raise e, s') => (Raise e, s')
       end.

Definition raise {A} (e : exn) : M A := λ s, (Raise e, s).

(** [try: body / except Exception as e: handler e]. *)
Definition try_except {A} (body : M A) (handler : exn → M A) : M A :=
  λ s, match body s with
       | (Ok a, s') => (Ok a, s')
       | (Raise e, s') => handler e s'
       end.

(** [try: body / finally: fin]. *)
Definition try_finally {A} (body : M A) (fin : M unit) : M A :=
  λ s, match body s with
       | (r, s') =>
           match fin s' with
           | (Ok _, s'') => (r, s'')
           | (Raise e, s'') => (Raise e, s'')
           end
       end.

Declare Scope flow_scope.
Delimit Scope flow_scope with flow.
Notation "'let!' x ':=' m 'in' k" := (bind m (λ x, k))
  (at level 10, x pattern, m at level 100, k at level 200) : flow_scope.
Notation "m '>>' k" := (bind m (λ _, k))
  (at level 65, right associativity) : flow_scope.
Open Scope flow_scope.

(** [flow_manager.state] (the dictionary itself, not a copy). *)
Definition read_state : M dict := λ s, (Ok (state s), s).

(** [flow_manager.state[k] = v]. *)
Definition set_state (k : string) (v : value) : M unit :=
  λ s, (Ok tt, {| state := <[k:=v]> (state s);
                  current_context := current_context s;
                  trace := trace s |}).

(** [flow_manager.get_current_context()]. *)
Definition get_current_context : M (list message) :=
  λ s, (Ok (current_context s), s).

Definition emit (ev : event) : M unit :=
  λ s, (Ok tt, {| state := state s;
                  current_context := current_context s;
                  trace := trace s ++ [ev] |}).

Definition logger_error (msg : string) : M unit := emit (EvLogError msg).

(** [await task.cancel()]. *)
Definition task_cancel : M unit := emit EvTaskCancel.

(** ** Handlers ([agent_flow.py], FUNCTION HANDLERS) *)

(** The line feed of ["\n"]. *)
Definition NL : string := String (Ascii.ascii_of_nat 10) EmptyString.

Section Flow.

Context (env : Collaborators).

(** A call to one of the three CRM functions: it returns, or it raises. *)
Definition crm (c : crm_call) : M unit :=
  λ s, let raised := hubspot env (trace s) c in
       (match raised with None => Ok tt | Some e => Raise e end,
        {| state := state s;
           current_context := current_context s;
           trace := trace s ++ [EvCrm c raised] |}).

(** [from service.hubspot_service import ...]. *)
Definition import_service : M unit :=
  λ s, match import_hubspot_service env (trace s) with
       | None => (Ok tt, s)
       | Some e => (Raise e, s)
       end.

(** [await client.aio.models.generate_content(...)], then [response.text]. *)
Definition generate (full_prompt : string) : M string :=
  λ s, let r := generate_content env (trace s) full_prompt in
       (r, {| state := state s;
              current_context := current_context s;
              trace := trace s ++ [EvGenerate full_prompt r] |}).

Definition capture_manager_details (args : dict) : M (string * option NodeConfig) :=
  let manager_name := Py.get args "manager_name" (VStr "Not provided") in
  let company_name := Py.get args "company_name" (VStr "Not provided") in
  set_state "manager_name" manager_name >>
  set_state "company_name" company_name >>
  ret ("Lovely to speak with you, " ++ to_str manager_name ++ "!",
       Some create_ask_provider_node).

Definition handle_has_provider_response (args : dict) : M (string * option NodeConfig) :=
  let has_provider := Py.get args "has_provider" (VBool false) in
  set_state "has_existing_provider" has_provider >>
  if truthy has_provider then
    ret ("Right, I see.", Some create_ask_provider_name_node)
  else
    set_state "current_provider" (VStr "None") >>
    ret ("No worries, I understand.", Some create_scenario_b_pitch_node).

Definition capture_provider_name (args : dict) : M (string * option NodeConfig) :=
  let provider_name := Py.get args "provider_name" (VStr "Not specified") in
  set_state "current_provider" provider_name >>
  ret ("Thanks for that. " ++ to_str provider_name ++ " is a solid choice.",
       Some create_scenario_a_pitch_node).

Definition _is_tool_call (turn : message) : bool :=
  if decide (role turn = Some "tool") then true
  else if decide (tool_calls turn ≠ []) then true
  else false.

Definition fallback_response : string :=
  "Sorry mate, I'm having a bit of trouble accessing that information right now. Let me continue with our chat about WhipSmart's novated leasing program.".

Definition query_knowledge_base (args : dict) : M (string * option NodeConfig) :=
  let question := Py.get args "question" (VStr "") in
  let! all_messages := get_current_context in
  let conversation_turns :=
    List.filter (λ msg, bool_decide (role msg ∈ [Some "user"; Some "assistant"]))
                all_messages in
  let messages := List.filter (λ turn, negb (_is_tool_call turn)) conversation_turns in
  let messages := last_n 3 messages in
  let messages_json := json_dumps env messages in
  let full_prompt :=
    "System: " ++ RAG_PROMPT env ++ NL ++ NL ++
    "Conversation History: " ++ messages_json ++ NL ++ NL ++
    "User Question: " ++ to_str question in
  try_except
    (let! response_text := generate full_prompt in
     ret (response_text, None))
    (λ e,
     logger_error ("Error querying knowledge base: " ++ e) >>
     ret (fallback_response, None)).

Definition handle_meeting_response (args : dict) : M (string * option NodeConfig) :=
  let accepts_meeting := Py.get args "accepts_meeting" (VBool false) in
  let meeting_date := Py.get args "meeting_date" VNone in
  let meeting_time := Py.get args "meeting_time" VNone in
  if truthy accepts_meeting then
    set_state "meeting_status" (VStr "Interested - To Be Scheduled") >>
    set_state "meeting_date"
      (if truthy meeting_date then meeting_date else VStr "To be confirmed") >>
    set_state "meeting_time"
      (if truthy meeting_time then meeting_time else VStr "To be confirmed") >>
    (if truthy meeting_date && truthy meeting_time then
       set_state "meeting_day_time"
         (VStr (to_str meeting_date ++ " at " ++ to_str meeting_time))
     else if truthy meeting_date then
       set_state "meeting_day_time" meeting_date
     else
       set_state "meeting_day_time" (VStr "To be confirmed")) >>
    set_state "interested_in_novated_leasing" (VBool true) >>
    ret ("Brilliant! I'll get that sorted for you.",
         Some (create_collect_email_node true))
  else
    set_state "meeting_status" (VStr "Declined") >>
    set_state "interested_in_novated_leasing" (VBool false) >>
    ret ("No worries at all, mate.", Some create_offer_email_summary_node).

Definition handle_email_summary_response (args : dict) : M (string * option NodeConfig) :=
  let wants_summary := Py.get args "wants_summary" (VBool false) in
  if truthy wants_summary then
    set_state "send_summary_email" (VBool true) >>
    ret ("Ripper!", Some (create_collect_email_node false))
  else
    set_state "send_summary_email" (VBool false) >>
    set_state "interested_in_novated_leasing" (VBool false) >>
    ret ("Fair enough, I completely understand.", Some create_end_call_node).

(** [log_lead_data]: the dictionary it builds and returns (it also logs it). *)
Definition log_lead_data : M (list (string * value)) :=
  let! st := read_state in
  ret [("manager_name", Py.get st "manager_name" (VStr "None"));
       ("company_name", Py.get st "company_name" (VStr "None"));
       ("current_provider", Py.get st "current_provider" (VStr "None"));
       ("meeting_status", Py.get st "meeting_status" (VStr "Not Discussed"));
       ("meeting_date", Py.get st "meeting_date" (VStr "None"));
       ("meeting_time", Py.get st "meeting_time" (VStr "None"));
       ("meeting_day_time", Py.get st "meeting_day_time" (VStr "None"));
       ("email_address", Py.get st "email_address" (VStr "None"));
       ("interested_in_novated_leasing",
        Py.get st "interested_in_novated_leasing" (VBool false));
       ("send_summary_email", Py.get st "send_summary_email" (VBool false))].

Definition capture_email_address (args : dict) : M (string * option NodeConfig) :=
  let email := Py.get args "email" (VStr "Not provided") in
  set_state "email_address" email >>
  log_lead_data >>
  ret ("Perfect, I've got that down as " ++ to_str email ++ ".",
       Some create_end_call_node).

Definition finalize_and_update_crm (args : dict) : M (string * option NodeConfig) :=
  let! outcome := read_state in
  let contact_id := Py.get outcome "contact_id" VNone in
  (if truthy contact_id then
     try_except
       (import_service >>
        crm (add_call_notes contact_id
               [("Manager Name", Py.get outcome "manager_name" VNone);
                ("Company Name", Py.get outcome "company_name" VNone);
                ("Current Provider", Py.get outcome "current_provider" VNone);
                ("Meeting Status", Py.get outcome "meeting_status" VNone);
                ("Meeting Date", Py.get outcome "meeting_date" VNone);
                ("Meeting Time", Py.get outcome "meeting_time" VNone);
                ("Meeting Day/Time", Py.get outcome "meeting_day_time" VNone);
                ("Email Address", Py.get outcome "email_address" VNone);
                ("Interested", Py.get outcome "interested_in_novated_leasing" VNone);
                ("Has Existing Provider", Py.get outcome "has_existing_provider" VNone)]) >>
        if truthy (Py.get outcome "interested_in_novated_leasing" VNone) then
          crm (update_contact_lead_status contact_id OPEN_DEAL) >>
          crm (create_deal_for_contact contact_id)
        else
          crm (update_contact_lead_status contact_id CONNECTED))
       (λ e, logger_error ("Error updating CRM: " ++ e))
   else ret tt) >>
  ret ("Cheers for your time!", None).

(** ** Flow initialisation and the disconnect hook *)

Definition initial_state (contact_id : value) : dict :=
  list_to_map
    [("contact_id", contact_id);
     ("manager_name", VNone);
     ("company_name", VNone);
     ("current_provider", VNone);
     ("meeting_status", VStr "Not Discussed");
     ("meeting_date", VNone);
     ("meeting_time", VNone);
     ("meeting_day_time", VNone);
     ("email_address", VNone);
     ("interested_in_novated_leasing", VBool false);
     ("send_summary_email", VBool false);
     ("has_existing_provider", VNone)].

(** [initialize_whipsmart_flow]: a fresh flow manager (empty state, nothing
    said, nothing sent yet) whose state is updated with the initial one. *)
Definition initialize_whipsmart_flow (contact_id : value) : Session :=
  {| state := Py.update ∅ (initial_state contact_id);
     current_context := [];
     trace := [] |}.

(** [bot.py], [on_client_disconnected], closed over [contactId]. *)
Definition on_client_disconnected (contactId : value) : M unit :=
  try_finally
    (try_except
       (let! outcome := read_state in
        crm (add_call_notes contactId
               [("Manager Name", Py.get outcome "manager_name" VNone);
                ("Company Name", Py.get outcome "company_name" VNone);
                ("Current Provider", Py.get outcome "current_provider" VNone);
                ("Meeting Status", Py.get outcome "meeting_status" VNone);
                ("Meeting Day/Time", Py.get outcome "meeting_day_time" VNone);
                ("Email Address", Py.get outcome "email_address" VNone);
                ("Interested", Py.get outcome "interested_in_novated_leasing" VNone);
                ("Has Existing Provider", Py.get outcome "has_existing_provider" VNone)]) >>
        if truthy (Py.get outcome "interested_in_novated_leasing" VNone) then
          crm (update_contact_lead_status contactId OPEN_DEAL) >>
          crm (create_deal_for_contact contactId)
        else
          crm (update_contact_lead_status contactId CONNECTED))
       (λ e, logger_error ("Error processing lead data on disconnect: " ++ e)))
    task_cancel.

(** ** Dispatch *)

Definition run_handler (h : handler_id) : dict → M (string * option NodeConfig) :=
  match h with
  | h_capture_manager_details => capture_manager_details
  | h_handle_has_provider_response => handle_has_provider_response
  | h_capture_provider_name => capture_provider_name
  | h_query_knowledge_base => query_knowledge_base
  | h_handle_meeting_response => handle_meeting_response
  | h_handle_email_summary_response => handle_email_summary_response
  | h_capture_email_address => capture_email_address
  | h_finalize_and_update_crm => finalize_and_update_crm
  end.

End Flow.

(** ** The graph and the flow engine *)

(** The eight nodes of the graph; [CollectEmail] is built for a meeting
    invite or for a summary. *)
Inductive node_kind : Type :=
  | InitialGreeting
  | AskProvider
  | AskProviderName
  | ScenarioAPitch
  | ScenarioBPitch
  | OfferEmailSummary
  | CollectEmail (for_meeting : bool)
  | EndCall.

#[global] Instance node_kind_eq_dec : EqDecision node_kind.
Proof. solve_decision. Defined.

(** The factory of each node. *)
Definition create_node (k : node_kind) : NodeConfig :=
  match k with
  | InitialGreeting => create_initial_greeting_node
  | AskProvider => create_ask_provider_node
  | AskProviderName => create_ask_provider_name_node
  | ScenarioAPitch => create_scenario_a_pitch_node
  | ScenarioBPitch => create_scenario_b_pitch_node
  | OfferEmailSummary => create_offer_email_summary_node
  | CollectEmail for_meeting => create_collect_email_node for_meeting
  | EndCall => create_end_call_node
  end.

(** A node's action set contains the knowledge-base action: a function
    named [query_knowledge_base] bound to that handler. *)
Definition is_knowledge_base_func (f : FlowsFunctionSchema) : bool :=
  String.eqb (fn_name f) "query_knowledge_base"
  && bool_decide (fn_handler f = h_query_knowledge_base).

Definition offers_knowledge_base (n : NodeConfig) : bool :=
  existsb is_knowledge_base_func (functions n).

(** What the flow manager does with a handler's return value: the returned
    node becomes current; [None] keeps the current one. *)
Definition install (current : NodeConfig) (r : string * option NodeConfig) : NodeConfig :=
  default current r.2.

(** One tool call: the handler of function [f] runs on [args]. *)
Definition dispatch (env : Collaborators) (current : NodeConfig)
    (f : FlowsFunctionSchema) (args : dict) : M NodeConfig :=
  let! r := run_handler env (fn_handler f) args in
  ret (install current r).

(** The transport appends to the conversation between tool calls; seen from
    the flow, the context is replaced by a longer or different one. *)
Definition transport_turn (ctx : list message) : M unit :=
  λ s, (Ok tt, {| state := state s; current_context := ctx; trace := trace s |}).

(** Sessions reachable from [on_client_connected] by tool calls that respect
    the graph: only a function of the current node can be called. *)
Inductive reachable (env : Collaborators) (contactId : value) :
    NodeConfig → Session → Prop :=
  | reach_connected :
      reachable env contactId create_initial_greeting_node
                (initialize_whipsmart_flow contactId)
  | reach_turn n s ctx s' :
      reachable env contactId n s →
      transport_turn ctx s = (Ok tt, s') →
      reachable env contactId n s'
  | reach_call n s f args n' s' :
      reachable env contactId n s →
      f ∈ functions n →
      dispatch env n f args s = (Ok n', s') →
      reachable env contactId n' s'.

(** The knowledge base asked several times in a row from node [n], the
    conversation moving on before each question. *)
Fixpoint ask_repeatedly (env : Collaborators) (n : NodeConfig)
    (questions : list (list message * dict)) : M NodeConfig :=
  match questions with
  | [] => ret n
  | (ctx, args) :: rest =>
      transport_turn ctx >>
      let! r := query_knowledge_base env args in
      ask_repeatedly env (install n r) rest
  end.

(** ** Session end *)

(** The two places that flush the session to the CRM: the transport's
    disconnect hook and the finalize action of the end-call node. *)
Inductive teardown_path : Type :=
  | ViaDisconnect
  | ViaFinalize.

Definition session_end (env : Collaborators) (contactId : value)
    (p : teardown_path) : M unit :=
  match p with
  | ViaDisconnect => on_client_disconnected env contactId
  | ViaFinalize => finalize_and_update_crm env ∅ >> ret tt
  end.

(** The events a computation adds to the trace of [s]. *)
Definition events_of {A} (m : M A) (s : Session) : list event :=
  drop (length (trace s)) (trace (m s).2).

(** Observers of a trace: the note syncs, the lead statuses and the deal
    requests sent to the CRM (whether or not the call came back). *)
Definition note_syncs (tr : list event) : list (value * list (string * value)) :=
  omap (λ ev, match ev with
              | EvCrm (add_call_notes c notes) _ => Some (c, notes)
              | _ => None
              end) tr.

Definition status_updates (tr : list event) : list HUBSPOT_LEAD_STATUS :=
  omap (λ ev, match ev with
              | EvCrm (update_contact_lead_status _ st) _ => Some st
              | _ => None
              end) tr.

Definition deal_requests (tr : list event) : list value :=
  omap (λ ev, match ev with
              | EvCrm (create_deal_for_contact c) _ => Some c
              | _ => None
              end) tr.

Definition crm_events (tr : list event) : list event :=
  List.filter (λ ev, match ev with EvCrm _ _ => true | _ => false end) tr.

(** The lead status the teardown chooses for a state. *)
Definition interested (st : dict) : bool :=
  truthy (Py.get st "interested_in_novated_leasing" VNone).

(** A CRM that always answers. *)
Definition crm_answers (env : Collaborators) : Prop :=
  (∀ tr, import_hubspot_service env tr = None) ∧ (∀ tr c, hubspot env tr c = None).

(** ** A concrete session, used in the examples *)

Definition env_ok : Collaborators :=
  {| RAG_PROMPT := "Answer from the WhipSmart knowledge base.";
     json_dumps := λ msgs, String.concat NL (content <$> msgs);
     generate_content := λ _ _, Ok "Novated leasing is a salary packaging arrangement.";
     import_hubspot_service := λ _, None;
     hubspot := λ _ _, None |}.

(** A CRM whose every call raises. *)
Definition env_down : Collaborators :=
  {| RAG_PROMPT := "Answer from the WhipSmart knowledge base.";
     json_dumps := λ msgs, String.concat NL (content <$> msgs);
     generate_content := λ _ _, Raise "503";
     import_hubspot_service := λ _, None;
     hubspot := λ _ _, Some "HubSpot unavailable" |}.

(** The scenario B decline path, up to the end-call node. *)
Definition decline_path : M NodeConfig :=
  let! r := capture_manager_details
              {[ "manager_name" := VStr "Sam"; "company_name" := VStr "Acme" ]} in
  let! r := handle_has_provider_response {[ "has_provider" := VBool false ]} in
  let! r := handle_meeting_response {[ "accepts_meeting" := VBool false ]} in
  let! r := handle_email_summary_response {[ "wants_summary" := VBool false ]} in
  ret (install create_offer_email_summary_node r).

(** The scenario A path with a booked meeting, up to the end-call node. *)
Definition booked_path : M NodeConfig :=
  let! r := capture_manager_details
              {[ "manager_name" := VStr "Sam"; "company_name" := VStr "Acme" ]} in
  let! r := handle_has_provider_response {[ "has_provider" := VBool true ]} in
  let! r := capture_provider_name {[ "provider_name" := VStr "Fleetcare" ]} in
  let! r := handle_meeting_response
              {[ "accepts_meeting" := VBool true;
                 "meeting_date" := VStr "next Tuesday";
                 "meeting_time" := VStr "10am" ]} in
  let! r := capture_email_address {[ "email" := VStr "sam@acme.com" ]} in
  ret (install (create_collect_email_node true) r).

(** ** Scripted conversations *)

(** The [i]-th function of the current node is called on [args]; a node
    without such a function stays as it is. *)
Definition call_nth (env : Collaborators) (i : nat) (args : dict) (n : NodeConfig) :
    M NodeConfig :=
  match functions n !! i with
  | Some f => dispatch env n f args
  | None => ret n
  end.

Fixpoint run_script (env : Collaborators) (calls : list (nat * dict)) (n : NodeConfig) :
    M NodeConfig :=
  match calls with
  | [] => ret n
  | (i, args) :: rest =>
      let! n' := call_nth env i args n in
      run_script env rest n'
  end.

(** Up to the email-summary offer: no provider, meeting declined. *)
Definition offer_script : list (nat * dict) :=
  [(0, {[ "manager_name" := VStr "Sam"; "company_name" := VStr "Acme" ]});
   (0, {[ "has_provider" := VBool false ]});
   (1, {[ "question" := VStr "What is a novated lease?" ]});
   (0, {[ "accepts_meeting" := VBool false ]})].

(** Up to the email collection: a provider, meeting accepted. *)
Definition accepted_script : list (nat * dict) :=
  [(0, {[ "manager_name" := VStr "Sam"; "company_name" := VStr "Acme" ]});
   (0, {[ "has_provider" := VBool true ]});
   (0, {[ "provider_name" := VStr "Fleetcare" ]});
   (0, {[ "accepts_meeting" := VBool true;
          "meeting_date" := VStr "next Tuesday";
          "meeting_time" := VStr "10am" ]})].

(** ** The CRM sync as a sequence of calls *)

(** Both teardown paths make their CRM calls one after the other inside one
    [try] block: the first call that raises ends the sequence. [attempt]
    gives the events of such a sequence and the exception that ended it. *)
Fixpoint attempt (env : Collaborators) (tr : list event) (calls : list crm_call) :
    list event * option exn :=
  match calls with
  | [] => ([], None)
  | c :: rest =>
      match hubspot env tr c with
      | Some e => ([EvCrm c (Some e)], Some e)
      | None =>
          let '(evs, raised) := attempt env (tr ++ [EvCrm c None]) rest in
          (EvCrm c None :: evs, raised)
      end
  end.

(** The events of a guarded sequence: the calls, then the error line of the
    [except] branch if one of them raised. *)
Definition guarded_sync (env : Collaborators) (tr : list event) (error_prefix : string)
    (calls : list crm_call) : list event :=
  let '(evs, raised) := attempt env tr calls in
  evs ++ match raised with
         | Some e => [EvLogError (error_prefix ++ e)]
         | None => []
         end.

(** The calls of a sync: the notes, then the lead status with, for an
    interested lead, the deal. *)
Definition sync_calls (cid : value) (notes : list (string * value)) (st : dict) :
    list crm_call :=
  add_call_notes cid notes ::
  if interested st then
    [update_contact_lead_status cid OPEN_DEAL; create_deal_for_contact cid]
  else
    [update_contact_lead_status cid CONNECTED].

(** The notes of the finalize action and those of the disconnect hook. *)
Definition finalize_notes (outcome : dict) : list (string * value) :=
  [("Manager Name", Py.get outcome "manager_name" VNone);
   ("Company Name", Py.get outcome "company_name" VNone);
   ("Current Provider", Py.get outcome "current_provider" VNone);
   ("Meeting Status", Py.get outcome "meeting_status" VNone);
   ("Meeting Date", Py.get outcome "meeting_date" VNone);
   ("Meeting Time", Py.get outcome "meeting_time" VNone);
   ("Meeting Day/Time", Py.get outcome "meeting_day_time" VNone);
   ("Email Address", Py.get outcome "email_address" VNone);
   ("Interested", Py.get outcome "interested_in_novated_leasing" VNone);
   ("Has Existing Provider", Py.get outcome "has_existing_provider" VNone)].

Definition disconnect_notes (outcome : dict) : list (string * value) :=
  [("Manager Name", Py.get outcome "manager_name" VNone);
   ("Company Name", Py.get outcome "company_name" VNone);
   ("Current Provider", Py.get outcome "current_provider" VNone);
   ("Meeting Status", Py.get outcome "meeting_status" VNone);
   ("Meeting Day/Time", Py.get outcome "meeting_day_time" VNone);
   ("Email Address", Py.get outcome "email_address" VNone);
   ("Interested", Py.get outcome "interested_in_novated_leasing" VNone);
   ("Has Existing Provider", Py.get outcome "has_existing_provider" VNone)].

(** What [finalize_and_update_crm] adds to the trace of [s]. *)
Definition finalize_events (env : Collaborators) (s : Session) : list event :=
  let cid := Py.get (state s) "contact_id" VNone in
  if truthy cid then
    match import_hubspot_service env (trace s) with
    | Some e => [EvLogError ("Error updating CRM: " ++ e)]
    | None =>
        guarded_sync env (trace s) "Error updating CRM: "
          (sync_calls cid (finalize_notes (state s)) (state s))
    end
  else [].

(** What [on_client_disconnected] adds to the trace of [s]. *)
Definition disconnect_events (env : Collaborators) (contactId : value) (s : Session) :
    list event :=
  guarded_sync env (trace s) "Error processing lead data on disconnect: "
    (sync_calls contactId (disconnect_notes (state s)) (state s))
  ++ [EvTaskCancel].

(** What either path adds to the trace of [s]. *)
Definition session_end_events (env : Collaborators) (contactId : value)
    (p : teardown_path) (s : Session) : list event :=
  match p with
  | ViaDisconnect => disconnect_events env contactId s
  | ViaFinalize => finalize_events env s
  end.

(** ** Invariants of the flow *)

(** Once the meeting status says the lead is interested, the interest flag
    is set. *)
Definition meeting_implies_interested (st : dict) : Prop :=
  Py.get st "meeting_status" VNone = VStr "Interested - To Be Scheduled" →
  Py.get st "interested_in_novated_leasing" VNone = VBool true.

(** What holds of the state while node [k] is current: the contact id is the
    one the call started with, the implication above, and at the
    email-summary offer the meeting has just been declined. *)
Definition flow_inv (contactId : value) (k : node_kind) (st : dict) : Prop :=
  st !! "contact_id" = Some contactId
  ∧ meeting_implies_interested st
  ∧ (k = OfferEmailSummary →
     st !! "meeting_status" = Some (VStr "Declined")
     ∧ st !! "interested_in_novated_leasing" = Some (VBool false)).

(** ** What the handlers write, and how the graph advances *)

(** The keys of the session state each handler assigns. *)
Definition written_keys (h : handler_id) : list string :=
  match h with
  | h_capture_manager_details => ["manager_name"; "company_name"]
  | h_handle_has_provider_response => ["has_existing_provider"; "current_provider"]
  | h_capture_provider_name => ["current_provider"]
  | h_query_knowledge_base => []
  | h_handle_meeting_response =>
      ["meeting_status"; "meeting_date"; "meeting_time"; "meeting_day_time";
       "interested_in_novated_leasing"]
  | h_handle_email_summary_response =>
      ["send_summary_email"; "interested_in_novated_leasing"]
  | h_capture_email_address => ["email_address"]
  | h_finalize_and_update_crm => []
  end.

(** The depth of a node in the graph. *)
Definition rank (k : node_kind) : nat :=
  match k with
  | InitialGreeting => 0
  | AskProvider => 1
  | AskProviderName => 2
  | ScenarioAPitch | ScenarioBPitch => 3
  | OfferEmailSummary => 4
  | CollectEmail _ => 5
  | EndCall => 6
  end.

(** The contact a CRM call is about. *)
Definition crm_contact (c : crm_call) : value :=
  match c with
  | add_call_notes cid _ => cid
  | update_contact_lead_status cid _ => cid
  | create_deal_for_contact cid => cid
  end.

(** The keys [initialize_whipsmart_flow] puts in the state. *)
Definition state_keys : list string :=
  ["contact_id"; "manager_name"; "company_name"; "current_provider";
   "meeting_status"; "meeting_date"; "meeting_time"; "meeting_day_time";
   "email_address"; "interested_in_novated_leasing"; "send_summary_email";
   "has_existing_provider"].

(** The three meeting outcomes a state can record. *)
Definition not_discussed (st : dict) : Prop :=
  st !! "meeting_status" = Some (VStr "Not Discussed")
  ∧ st !! "interested_in_novated_leasing" = Some (VBool false).

Definition meeting_declined (st : dict) : Prop :=
  st !! "meeting_status" = Some (VStr "Declined")
  ∧ st !! "interested_in_novated_leasing" = Some (VBool false).

Definition meeting_accepted (st : dict) : Prop :=
  st !! "meeting_status" = Some (VStr "Interested - To Be Scheduled")
  ∧ st !! "interested_in_novated_leasing" = Some (VBool true)
  ∧ truthy (Py.get st "meeting_date" VNone) = true
  ∧ truthy (Py.get st "meeting_time" VNone) = true
  ∧ truthy (Py.get st "meeting_day_time" VNone) = true.

(** What the state records while node [k] is current. *)
Definition node_facts (k : node_kind) (st : dict) : Prop :=
  match k with
  | InitialGreeting | AskProvider => not_discussed st
  | AskProviderName | ScenarioAPitch =>
      not_discussed st
      ∧ truthy (Py.get st "has_existing_provider" VNone) = true
  | ScenarioBPitch =>
      not_discussed st
      ∧ truthy (Py.get st "has_existing_provider" VNone) = false
      ∧ st !! "current_provider" = Some (VStr "None")
  | OfferEmailSummary => meeting_declined st
  | CollectEmail true => meeting_accepted st
  | CollectEmail false =>
      meeting_declined st ∧ st !! "send_summary_email" = Some (VBool true)
  | EndCall =>
      meeting_accepted st
      ∨ (meeting_declined st ∧ ∃ b, st !! "send_summary_email" = Some (VBool b))
  end.

Definition flow_facts (contactId : value) (k : node_kind) (st : dict) : Prop :=
  (∀ key, key ∈ state_keys → is_Some (st !! key))
  ∧ st !! "contact_id" = Some contactId
  ∧ node_facts k st.

(** ** The websocket entry point ([bot.py]) *)

(** [call_data] as [parse_telephony_websocket] returns it: the entry under
    ["body"], if any, and the two identifiers the serializer needs. *)
Record CallData : Type := {
  cd_body : option dict;
  cd_stream_id : option value;
  cd_call_id : option value
}.

(** What [bot] does that can be seen from outside: its [logger.error] lines
    and the call of [run_bot], with the contact id and the two identifiers of
    the serializer it builds for the transport. *)
Inductive bot_event : Type :=
  | BotLogError (msg : string)
  | BotRunBot (stream_sid call_sid : value) (contact_id : value).

(** [bot]: [parsed] is what [parse_telephony_websocket] returns or raises,
    [run_bot] tells whether the pipeline run for a contact raises. *)
Definition bot (parsed : result CallData) (run_bot : value → option exn) :
    result unit * list bot_event :=
  let body : result unit * list bot_event :=
    match parsed with
    | Raise e => (Raise e, [])
    | Ok call_data =>
        let body_data := default ∅ (cd_body call_data) in
        if bool_decide (body_data = ∅) then
          (Ok tt, [BotLogError "No body data found in call_data"])
        else
          let contact_id := Py.get body_data "contactId" VNone in
          if negb (truthy contact_id) then
            (Ok tt, [BotLogError "No contactId found in body_data"])
          else
            match cd_stream_id call_data with
            | None => (Raise "'stream_id'", [])
            | Some stream_sid =>
                match cd_call_id call_data with
                | None => (Raise "'call_id'", [])
                | Some call_sid =>
                    (match run_bot contact_id with
                     | None => Ok tt
                     | Some e => Raise e
                     end,
                     [BotRunBot stream_sid call_sid contact_id])
                end
            end
    end in
  match body with
  | (Ok tt, evs) => (Ok tt, evs)
  | (Raise e, evs) =>
      (Raise e, (evs ++ [BotLogError ("Error in bot processing: " ++ e)])%list)
  end.

(** [on_function_calls_started]: the acknowledgements it can speak. *)
Definition ACKNOWLEDGEMENTS_CONTEXTUAL : list string :=
  ["Thank you for your question. I’ll check the details and provide you with the most accurate information.";
   "I appreciate your query. Let me review the information and get back to you shortly.";
   "That’s a great question. I’ll look into the knowledgebase and provide a detailed answer.";
   "Thanks for asking. I’m retrieving the relevant information for you now.";
   "I’ll check the knowledgebase and ensure you get the most accurate response.";
   "Thank you — I’ll take a moment to gather the correct details for you.";
   "I appreciate you asking that. Let me confirm the information before answering.";
   "Good question. I’ll review the relevant information and get back to you promptly.";
   "I’ll check the knowledgebase now to provide a precise and helpful answer.";
   "Thanks for your query. I’m retrieving the details to answer accurately."].

(** [random.choice(seq)] for the draw [r]: an element of a non-empty
    sequence, [IndexError] on an empty one. *)
Definition random_choice {A} (r : nat) (seq : list A) : result A :=
  match seq !! (r mod length seq) with
  | Some x => Ok x
  | None => Raise "Cannot choose from an empty sequence"
  end.

(** [on_function_calls_started]: the texts of the [TTSSpeakFrame]s pushed
    for the function names of [function_calls]; [draws] are the random
    draws, one used per knowledge-base call. *)
Fixpoint on_function_calls_started (draws : list nat) (function_calls : list string) :
    result (list string) :=
  match function_calls with
  | [] => Ok []
  | function_name :: rest =>
      if String.eqb function_name "query_knowledge_base" then
        match random_choice (default 0 (head draws)) ACKNOWLEDGEMENTS_CONTEXTUAL with
        | Raise e => Raise e
        | Ok message =>
            match on_function_calls_started (tail draws) rest with
            | Ok frames => Ok (message :: frames)
            | Raise e => Raise e
            end
        end
      else on_function_calls_started draws rest
  end.

(** ** More scripted conversations and collaborators, used in the examples *)

(** Up to the scenario B pitch. *)
Definition pitch_b_script : list (nat * dict) :=
  [(0, {[ "manager_name" := VStr "Sam"; "company_name" := VStr "Acme" ]});
   (0, {[ "has_provider" := VBool false ]})].

(** The whole decline path: no provider, no meeting, no summary. *)
Definition declined_script : list (nat * dict) :=
  offer_script ++ [(0, {[ "wants_summary" := VBool false ]})].

(** A deployment without the [service.hubspot_service] module. *)
Definition env_no_module : Collaborators :=
  {| RAG_PROMPT := "Answer from the WhipSmart knowledge base.";
     json_dumps := λ msgs, String.concat NL (content <$> msgs);
     generate_content := λ _ _, Ok "Novated leasing is a salary packaging arrangement.";
     import_hubspot_service := λ _, Some "No module named 'service.hubspot_service'";
     hubspot := λ _ _, None |}.

(** The call data of a call placed for contact ["c-1"]. *)
Definition call_data_c1 : CallData :=
  {| cd_body := Some {[ "contactId" := VStr "c-1"; "leadStatus" := VStr "NEW" ]};
     cd_stream_id := Some (VStr "MZ1");
     cd_call_id := Some (VStr "CA1") |}.

(** ** The campaign server ([server.py], [service/twilio_service.py]) *)

(** [server.py] and [campaign_manager.py] import [batch_outbound_call] and
    [generate_twiml] from a module [twilio_manager]; the repository defines
    the two functions in [service/twilio_service.py] only, and they are
    modelled from there. *)

(** A dictionary literal whose order of insertion matters (its [items()] are
    iterated): the list of its entries, keys distinct. *)
Abbreviation odict := (list (string * value)).

Module Odict.

(** [d.get(k, dflt)]. *)
Fixpoint get (d : odict) (k : string) (dflt : value) : value :=
  match d with
  | [] => dflt
  | (k', v) :: rest => if String.eqb k' k then v else get rest k dflt
  end.

(** [k in d]. *)
Definition mem (k : string) (d : odict) : bool :=
  existsb (λ entry, String.eqb entry.1 k) d.

End Odict.

(** A HubSpot contact as the search returns it. *)
Record Contact : Type := {
  c_id : string;
  c_properties : dict
}.

(** The body of [POST /api/campaign/start] as pydantic hands it over: a
    field left out already has its default, [None] is an explicit [null]. *)
Record CampaignRequest : Type := {
  lead_statuses : list string;
  update_status_after_call : option bool;
  max_contacts : option Z
}.

(** One entry of the list given to [batch_outbound_call]:
    [call.get("phone_number")] and [call.get("body", None)]. *)
Record CallSpec : Type := {
  phone_number : value;
  body : option odict
}.

(** One entry of the list [batch_outbound_call] returns, by its
    ["status"]: ["call_initiated"] or ["failed"]. *)
Inductive CallResult : Type :=
  | call_initiated (phonenumber : value) (callsid : string) (body : option odict)
  | call_failed (phonenumber : value) (error : string).

(** The arguments of [client.calls.create] that vary (the methods and the
    list of status events are constants). *)
Record TwilioRequest : Type := {
  tw_to : value;
  tw_from : value;
  tw_url : string;
  tw_status_callback : string
}.

(** An entry of [call_results]. *)
Record CallRecord : Type := {
  r_contact_id : value;
  r_body_data : odict;
  r_twilio_status : value;
  r_call_duration : value
}.

(** What the server sent out, oldest first. *)
Inductive server_event : Type :=
  | SvTwilio (request : TwilioRequest) (outcome : result string)
  | SvCrm (c : crm_call) (raised : option exn).

(** The server's two module-level dictionaries and what it sent out. *)
Record Server : Type := {
  call_body_data : gmap string odict;
  call_results : gmap (option string) CallRecord;
  outbox : list server_event
}.

(** The surroundings of the server: the process environment, Twilio's
    [calls.create] (the call sid or an exception), the functions of
    [hubspot_api] and the clock. *)
Record ServerEnv : Type := {
  environ : gmap string string;
  calls_create : list server_event → TwilioRequest → result string;
  fetch_contacts_by_lead_status : list server_event → list string → result (list Contact);
  crm_function : list server_event → crm_call → option exn;
  now : string
}.

Definition SM (A : Type) : Type := Server → result A * Server.

Definition sret {A} (a : A) : SM A := λ sv, (Ok a, sv).

Definition sbind {A B} (m : SM A) (k : A → SM B) : SM B :=
  λ sv, match m sv with
        | (Ok a, sv') => k a sv'
        | (Raise e, sv') => (Raise e, sv')
        end.

Definition sraise {A} (e : exn) : SM A := λ sv, (Raise e, sv).

(** [try: body / except Exception as e: handler e]. *)
Definition stry {A} (body : SM A) (handler : exn → SM A) : SM A :=
  λ sv, match body sv with
        | (Ok a, sv') => (Ok a, sv')
        | (Raise e, sv') => handler e sv'
        end.

Notation "'do!' x ':=' m 'in' k" := (sbind m (λ x, k))
  (at level 10, x pattern, m at level 100, k at level 200) : flow_scope.

(** [for x in xs: acc = body x acc]. *)
Fixpoint sfor {A B} (xs : list A) (acc : B) (body : A → B → SM B) : SM B :=
  match xs with
  | [] => sret acc
  | x :: rest => do! acc' := body x acc in sfor rest acc' body
  end.

(** Truth value of [os.getenv(k)]: set and not empty. *)
Definition env_truthy (v : option string) : bool :=
  match v with
  | Some s => negb (String.eqb s "")
  | None => false
  end.

(** An environment variable as a Python value. *)
Definition env_value (v : option string) : value :=
  match v with
  | Some s => VStr s
  | None => VNone
  end.

(** [str(e)] of the [UnboundLocalError] for [host] (CPython 3.11 and later). *)
Definition unbound_host : exn :=
  "cannot access local variable 'host' where it is not associated with a value".

(** What [generate_twiml] builds before the Twilio SDK prints it: a
    [Connect] with one [Stream] (its URL and parameters), then a pause. *)
Record TwiML : Type := {
  stream_url : string;
  stream_parameters : list (string * value);
  pause_length : nat
}.

(** The fields of a Twilio form the server reads. *)
Record Form : Type := {
  f_CallSid : option string;
  f_CallStatus : option string;
  f_CallDuration : option string
}.

(** An HTTP answer: the content of a 200, or an error status with its
    detail. *)
Inductive Http (A : Type) : Type :=
  | Http200 (content : A)
  | HttpError (status_code : nat) (detail : string).
Arguments Http200 {A} content.
Arguments HttpError {A} status_code detail.

(** The content of the three JSON answers of [start_campaign]; the
    ["summary"] of the last one (a formatted rate and the time) is left
    out. *)
Inductive CampaignResponse : Type :=
  | NoContactsFound
  | NoValidPhoneNumbers (total_contacts : nat)
  | CampaignStarted (total_contacts_found contacts_with_phone : nat)
      (calls_initiated calls_failed : nat) (hubspot_updated : option bool)
      (contacts_data : list odict) (call_results : list CallResult).

Section Server.

Context (senv : ServerEnv).

Definition twilio_calls_create (request : TwilioRequest) : SM string :=
  λ sv, let r := calls_create senv (outbox sv) request in
        (r, {| call_body_data := call_body_data sv;
               call_results := call_results sv;
               outbox := outbox sv ++ [SvTwilio request r] |}).

(** A call of [update_contact_lead_status] or [add_call_notes]. *)
Definition server_crm (c : crm_call) : SM unit :=
  λ sv, let raised := crm_function senv (outbox sv) c in
        (match raised with None => Ok tt | Some e => Raise e end,
         {| call_body_data := call_body_data sv;
            call_results := call_results sv;
            outbox := outbox sv ++ [SvCrm c raised] |}).

(** [make_twilio_call]; it returns [{"sid": call.sid}], here the sid. *)
Definition make_twilio_call (to_number from_number : value) (twiml_url : string) :
    SM string :=
  let account_sid := environ senv !! "TWILIO_ACCOUNT_SID" in
  let auth_token := environ senv !! "TWILIO_AUTH_TOKEN" in
  if negb (env_truthy account_sid) || negb (env_truthy auth_token) then
    sraise "Missing Twilio credentials"
  else
    let host := default "localhost:7860" (environ senv !! "API_BASE_URL") in
    let status_callback_url := host ++ "/call_status" in
    twilio_calls_create
      {| tw_to := to_number;
         tw_from := from_number;
         tw_url := twiml_url;
         tw_status_callback := status_callback_url |}.

(** [batch_outbound_call]. [host] is assigned only when [API_BASE_URL] is
    set and not empty; the f-string that follows reads it. *)
Definition batch_outbound_call (calls : list CallSpec) : SM (list CallResult) :=
  let host :=
    if env_truthy (environ senv !! "API_BASE_URL")
    then environ senv !! "API_BASE_URL" else None in
  match host with
  | None => sraise unbound_host
  | Some host =>
      let twimlurl := host ++ "/twiml" in
      sfor calls ([] : list CallResult)
        (λ call results,
         let phonenumber := phone_number call in
         let bodydata := body call in
         stry
           (do! callsid := make_twilio_call phonenumber
                             (env_value (environ senv !! "TWILIO_PHONE_NUMBER"))
                             twimlurl in
            sret (results ++ [call_initiated phonenumber callsid bodydata])%list)
           (λ e, sret (results ++ [call_failed phonenumber e])%list))
  end.

(** [env.lower()], on the ASCII letters: enough to compare with
    ["production"], which no other character lower-cases into. *)
Definition ascii_lower (c : Ascii.ascii) : Ascii.ascii :=
  let n := Ascii.nat_of_ascii c in
  if (65 <=? n)%nat && (n <=? 90)%nat then Ascii.ascii_of_nat (n + 32) else c.

Fixpoint lower (s : string) : string :=
  match s with
  | EmptyString => EmptyString
  | String c rest => String (ascii_lower c) (lower rest)
  end.

Definition get_websocket_url (host : string) : string :=
  let env := lower (default "local" (environ senv !! "ENV")) in
  if String.eqb env "production" then "wss://api.pipecat.daily.co/ws/twilio"
  else "wss://" ++ host ++ "/ws".

(** Truth value of a dictionary: not empty. *)
Definition odict_truthy (d : odict) : bool :=
  match d with
  | [] => false
  | _ :: _ => true
  end.

Definition generate_twiml (host : string) (body_data : option odict) : result TwiML :=
  let websocket_url := get_websocket_url host in
  match body_data with
  | None => Raise "'NoneType' object is not subscriptable"
  | Some d =>
      if negb (Odict.mem "contactId" d) then Raise "'contactId'"
      else
        let url := websocket_url ++ "?contactId=" ++ to_str (Odict.get d "contactId" VNone) in
        let callsid_parameter :=
          if odict_truthy d && Odict.mem "CallSid" d
          then [("CallSid", Odict.get d "CallSid" VNone)] else [] in
        let other_parameters :=
          if odict_truthy d
          then List.filter (λ entry, negb (String.eqb entry.1 "CallSid")) d else [] in
        Ok {| stream_url := url;
              stream_parameters := callsid_parameter ++ other_parameters;
              pause_length := 20 |}
  end.

(** [POST /twiml]; the host is the constant of the source. *)
Definition get_twiml (form : result Form) (sv : Server) : Http TwiML :=
  match form with
  | Raise e => HttpError 500 e
  | Ok form_data =>
      let call_sid := default "" (f_CallSid form_data) in
      let body_data := default [] (call_body_data sv !! call_sid) in
      let host := "zvjk3c9x-7860.inc1.devtunnels.ms" in
      match generate_twiml host (Some body_data) with
      | Ok twiml_content => Http200 twiml_content
      | Raise e => HttpError 500 e
      end
  end.

(** [POST /call_status]. *)
Definition twilio_call_status_webhook (form : result Form) : SM (Http string) :=
  stry
    (do! form_data := (λ sv, (form, sv)) in
     let call_sid := f_CallSid form_data in
     let call_status := f_CallStatus form_data in
     let call_duration := default "0" (f_CallDuration form_data) in
     do! body_data :=
       (λ sv, (Ok (match call_sid with
                   | Some sid => default [] (call_body_data sv !! sid)
                   | None => []
                   end), sv)) in
     let contact_id := Odict.get body_data "contactId" VNone in
     do! _ :=
       (λ sv,
        let entry :=
          default {| r_contact_id := contact_id;
                     r_body_data := body_data;
                     r_twilio_status := VNone;
                     r_call_duration := VNone |}
                  (call_results sv !! call_sid) in
        (Ok tt,
         {| call_body_data := call_body_data sv;
            call_results :=
              <[call_sid :=
                  {| r_contact_id := r_contact_id entry;
                     r_body_data := r_body_data entry;
                     r_twilio_status := env_value call_status;
                     r_call_duration := VStr call_duration |}]>
                (call_results sv);
            outbox := outbox sv |})) in
     do! _ :=
       (if truthy contact_id then
          if bool_decide (call_status = Some "completed") then sret tt
          else if bool_decide (call_status ∈ [Some "no-answer"; Some "busy"; Some "failed"])
          then
            do! _ := server_crm (update_contact_lead_status contact_id ATTEMPTED_TO_CONTACT) in
            server_crm
              (add_call_notes contact_id
                 [("Call Status", env_value call_status);
                  ("Call SID", env_value call_sid);
                  ("Timestamp", VStr (now senv));
                  ("Note", VStr ("Outbound call " ++ to_str (env_value call_status)))])
          else sret tt
        else sret tt) in
     sret (Http200 "received"))
    (λ e, sret (HttpError 500 e)).

(** The two dictionaries [start_campaign] builds for a contact with a phone
    number: its entry of ["contacts_data"] and its entry of the payload. *)
Definition contact_data_of (contact : Contact) : odict :=
  [("contact_id", VStr (c_id contact));
   ("phone_number", Py.get (c_properties contact) "phone" VNone);
   ("firstname", Py.get (c_properties contact) "firstname" (VStr ""));
   ("lastname", Py.get (c_properties contact) "lastname" (VStr ""));
   ("email", Py.get (c_properties contact) "email" (VStr ""));
   ("lead_status", Py.get (c_properties contact) "hs_lead_status" VNone)].

Definition call_of (contact : Contact) : CallSpec :=
  {| phone_number := Py.get (c_properties contact) "phone" VNone;
     body := Some
       [("contactId", VStr (c_id contact));
        ("leadStatus", Py.get (c_properties contact) "hs_lead_status" VNone);
        ("firstname", Py.get (c_properties contact) "firstname" (VStr ""));
        ("lastname", Py.get (c_properties contact) "lastname" (VStr ""));
        ("email", Py.get (c_properties contact) "email" (VStr ""))] |}.

(** The loop of [start_campaign] over the contacts: those with a phone
    number are added to the payload until [max_contacts], if set and not
    zero, is reached. *)
Fixpoint collect_calls (max_contacts : option Z) (contacts : list Contact)
    (calls_payload : list CallSpec) (contacts_data : list odict) :
    list CallSpec * list odict :=
  match contacts with
  | [] => (calls_payload, contacts_data)
  | contact :: rest =>
      let phone_number := Py.get (c_properties contact) "phone" VNone in
      if truthy phone_number then
        let contacts_data := (contacts_data ++ [contact_data_of contact])%list in
        let calls_payload := (calls_payload ++ [call_of contact])%list in
        if match max_contacts with
           | Some m => negb (m =? 0)%Z && (m <=? Z.of_nat (length calls_payload))%Z
           | None => false
           end
        then (calls_payload, contacts_data)
        else collect_calls max_contacts rest calls_payload contacts_data
      else collect_calls max_contacts rest calls_payload contacts_data
  end.

(** Step 4 of [start_campaign]: the body of each initiated call is stored
    under its sid, and the results are counted. *)
Definition store_and_count (results : list CallResult) : SM (nat * nat) :=
  sfor results (0, 0)
    (λ result counts,
     let '(calls_initiated, calls_failed) := counts in
     match result with
     | call_initiated _ call_sid body =>
         do! _ :=
           (if negb (String.eqb call_sid "") && odict_truthy (default [] body) then
              λ sv, (Ok tt,
                     {| call_body_data :=
                          <[call_sid := default [] body]> (call_body_data sv);
                        call_results := call_results sv;
                        outbox := outbox sv |})
            else sret tt) in
         sret (calls_initiated + 1, calls_failed)
     | call_failed _ _ => sret (calls_initiated, calls_failed + 1)
     end).

(** Step 5 of [start_campaign]: the lead status of the contact of each
    initiated call is set; the count of updates is only printed. *)
Definition update_statuses (results : list CallResult) : SM nat :=
  sfor results 0
    (λ result updated_count,
     match result with
     | call_initiated _ _ body =>
         match body with
         | None => sraise "'NoneType' object has no attribute 'get'"
         | Some body =>
             let contact_id := Odict.get body "contactId" VNone in
             if truthy contact_id then
               stry
                 (do! _ := server_crm
                             (update_contact_lead_status contact_id ATTEMPTED_TO_CONTACT) in
                  sret (updated_count + 1))
                 (λ e, sret updated_count)
             else sret updated_count
         end
     | call_failed _ _ => sret updated_count
     end).

(** [POST /api/campaign/start]; an exception is the 500 it is turned into,
    with its detail. *)
Definition start_campaign (campaign_request : CampaignRequest) : SM CampaignResponse :=
  stry
    (do! contacts :=
       (λ sv, (fetch_contacts_by_lead_status senv (outbox sv)
                 (lead_statuses campaign_request), sv)) in
     match contacts with
     | [] => sret NoContactsFound
     | _ :: _ =>
         let '(calls_payload, contacts_data) :=
           collect_calls (max_contacts campaign_request) contacts [] [] in
         match calls_payload with
         | [] => sret (NoValidPhoneNumbers (length contacts))
         | _ :: _ =>
             do! results := batch_outbound_call calls_payload in
             do! counts := store_and_count results in
             do! _ :=
               (if default false (update_status_after_call campaign_request)
                then do! _ := update_statuses results in sret tt
                else sret tt) in
             sret (CampaignStarted (length contacts) (length calls_payload)
                     counts.1 counts.2
                     (update_status_after_call campaign_request)
                     contacts_data results)
         end
     end)
    (λ e, sraise ("Campaign failed: " ++ e)).

End Server.

(** Observers of what the server sent. *)
Definition twilio_requests (evs : list server_event) : list TwilioRequest :=
  omap (λ ev, match ev with SvTwilio request _ => Some request | _ => None end) evs.

Definition server_crm_calls (evs : list server_event) : list crm_call :=
  omap (λ ev, match ev with SvCrm c _ => Some c | _ => None end) evs.

(** The events a server computation adds to the outbox of [sv]. *)
Definition sent_by {A} (m : SM A) (sv : Server) : list server_event :=
  drop (length (outbox sv)) (outbox (m sv).2).

(** The contacts [start_campaign] calls: those with a phone number, in
    order, cut at [max_contacts]; a limit of zero is no limit, and a
    negative one lets one call through. *)
Definition has_phone (contact : Contact) : bool :=
  truthy (Py.get (c_properties contact) "phone" VNone).

Definition called_contacts (max_contacts : option Z) (contacts : list Contact) :
    list Contact :=
  let with_phone := List.filter has_phone contacts in
  match max_contacts with
  | Some m =>
      if (m =? 0)%Z then with_phone
      else take (Z.to_nat (Z.max 1 m)) with_phone
  | None => with_phone
  end.

(** The lead-status updates of step 5 for a list of results. *)
Definition status_updates_for (results : list CallResult) : list crm_call :=
  omap (λ result,
        match result with
        | call_initiated _ _ (Some body) =>
            let contact_id := Odict.get body "contactId" VNone in
            if truthy contact_id
            then Some (update_contact_lead_status contact_id ATTEMPTED_TO_CONTACT)
            else None
        | _ => None
        end) results.

Definition is_initiated (result : CallResult) : bool :=
  match result with
  | call_initiated _ _ _ => true
  | call_failed _ _ => false
  end.

(** The request [make_twilio_call] sends for a call of the batch. *)
Definition request_for (senv : ServerEnv) (call : CallSpec) : TwilioRequest :=
  {| tw_to := phone_number call;
     tw_from := env_value (environ senv !! "TWILIO_PHONE_NUMBER");
     tw_url := default "" (environ senv !! "API_BASE_URL") ++ "/twiml";
     tw_status_callback := default "" (environ senv !! "API_BASE_URL") ++ "/call_status" |}.

(** [call_body_data] after step 4 of [start_campaign]. *)
Definition store_bodies (results : list CallResult) (stored : gmap string odict) :
    gmap string odict :=
  foldl (λ stored result,
         match result with
         | call_initiated _ call_sid body =>
             if negb (String.eqb call_sid "") && odict_truthy (default [] body)
             then <[call_sid := default [] body]> stored else stored
         | call_failed _ _ => stored
         end) stored results.

(** The ["results"] or ["call_results"] of an answer of [start_campaign]. *)
Definition results_of (response : CampaignResponse) : list CallResult :=
  match response with
  | CampaignStarted _ _ _ _ _ _ results => results
  | _ => []
  end.

(** The lead-status updates of step 5 by the contacts called: one for each
    contact whose call was initiated and whose id is not empty. *)
Definition updates_of (called : list Contact) (results : list CallResult) :
    list crm_call :=
  omap (λ pair,
        if is_initiated pair.2 && negb (String.eqb (c_id pair.1) "")
        then Some (update_contact_lead_status (VStr (c_id pair.1)) ATTEMPTED_TO_CONTACT)
        else None) (zip called results).

(** ** The campaign script ([campaign_manager.py]) *)

Module CampaignManager.

(** What [start_campaign] returns: the list of [batch_outbound_call], or
    [{"message": "No contacts to call"}]. *)
Inductive Outcome : Type :=
  | Results (response : list CallResult)
  | NoContactsToCall.

Definition call_of (contact : Contact) : CallSpec :=
  {| phone_number := Py.get (c_properties contact) "phone" VNone;
     body := Some
       [("contactId", VStr (c_id contact));
        ("leadStatus", Py.get (c_properties contact) "hs_lead_status" VNone)] |}.

(** The loop over the contacts. *)
Fixpoint collect_calls (contacts : list Contact) (calls_payload : list CallSpec) :
    list CallSpec :=
  match contacts with
  | [] => calls_payload
  | contact :: rest =>
      let phonenumber := Py.get (c_properties contact) "phone" VNone in
      if truthy phonenumber
      then collect_calls rest (calls_payload ++ [call_of contact])%list
      else collect_calls rest calls_payload
  end.

(** [start_campaign]; the module's own [API_BASE_URL] is read nowhere. *)
Definition start_campaign (senv : ServerEnv) : SM Outcome :=
  let lead_statuses := ["NEW"; "OPEN"; "ATTEMPTED_TO_CONTACT"] in
  do! contacts :=
    (λ sv, (fetch_contacts_by_lead_status senv (outbox sv) lead_statuses, sv)) in
  let calls_payload := collect_calls contacts [] in
  match calls_payload with
  | [] => sret NoContactsToCall
  | _ :: _ =>
      do! response := batch_outbound_call senv calls_payload in
      sret (Results response)
  end.

End CampaignManager.

(** ** Sample surroundings of the server *)

Definition contact_a : Contact :=
  {| c_id := "101";
     c_properties := {[ "phone" := VStr "+61400000001";
                        "firstname" := VStr "Ada";
                        "hs_lead_status" := VStr "NEW" ]} |}.

(** A contact without a phone number. *)
Definition contact_b : Contact :=
  {| c_id := "102";
     c_properties := {[ "firstname" := VStr "Bo";
                        "hs_lead_status" := VStr "OPEN" ]} |}.

Definition contact_c : Contact :=
  {| c_id := "103";
     c_properties := {[ "phone" := VStr "+61400000003";
                        "hs_lead_status" := VStr "NEW" ]} |}.

(** Everything answers: Twilio gives each call a sid of its own. *)
Definition senv_ok : ServerEnv :=
  {| environ := {[ "API_BASE_URL" := "https://campaign.example";
                   "TWILIO_ACCOUNT_SID" := "AC0";
                   "TWILIO_AUTH_TOKEN" := "secret";
                   "TWILIO_PHONE_NUMBER" := "+61200000000" ]};
     calls_create := λ _ request, Ok ("CA" ++ to_str (tw_to request));
     fetch_contacts_by_lead_status := λ _ _, Ok [contact_a; contact_b; contact_c];
     crm_function := λ _ _, None;
     now := "2025-01-01 09:00:00" |}.

(** The same without the Twilio credentials. *)
Definition senv_no_credentials : ServerEnv :=
  {| environ := {[ "API_BASE_URL" := "https://campaign.example" ]};
     calls_create := calls_create senv_ok;
     fetch_contacts_by_lead_status := fetch_contacts_by_lead_status senv_ok;
     crm_function := crm_function senv_ok;
     now := now senv_ok |}.

(** The same without [API_BASE_URL]. *)
Definition senv_no_base_url : ServerEnv :=
  {| environ := {[ "TWILIO_ACCOUNT_SID" := "AC0";
                   "TWILIO_AUTH_TOKEN" := "secret";
                   "TWILIO_PHONE_NUMBER" := "+61200000000" ]};
     calls_create := calls_create senv_ok;
     fetch_contacts_by_lead_status := fetch_contacts_by_lead_status senv_ok;
     crm_function := crm_function senv_ok;
     now := now senv_ok |}.

(** The server as it starts. *)
Definition server0 : Server :=
  {| call_body_data := ∅; call_results := ∅; outbox := [] |}.

(** The request with the defaults of [CampaignRequest]. *)
Definition request_default : CampaignRequest :=
  {| lead_statuses := ["NEW"; "OPEN"; "ATTEMPTED_TO_CONTACT"];
     update_status_after_call := Some true;
     max_contacts := None |}.

(** * Properties *)

(** The node factories are never unfolded by simplification: handlers are
    reasoned about with the nodes as constants. *)
Arguments create_initial_greeting_node : simpl never.
Arguments create_ask_provider_node : simpl never.
Arguments create_ask_provider_name_node : simpl never.
Arguments create_scenario_a_pitch_node : simpl never.
Arguments create_scenario_b_pitch_node : simpl never.
Arguments create_offer_email_summary_node : simpl never.
Arguments create_collect_email_node : simpl never.
Arguments create_end_call_node : simpl never.

(** Unfold the monad down to session transformers. *)
Ltac run_flow :=
  unfold bind, ret, raise, try_except, try_finally, read_state, set_state,
    get_current_context, emit, logger_error, task_cancel, transport_turn;
  simpl.

(** Read a key of a state built by assignments. *)
Ltac read_key :=
  repeat first
    [ rewrite lookup_insert_eq
    | rewrite lookup_insert_ne by (intros ?; discriminate) ];
  try reflexivity.

(** ** Tests on concrete sessions *)

Example scenario_b_decline_end :
  decline_path (initialize_whipsmart_flow (VStr "c-1")) =
  (Ok create_end_call_node,
   {| state := list_to_map
        [("contact_id", VStr "c-1");
         ("manager_name", VStr "Sam");
         ("company_name", VStr "Acme");
         ("current_provider", VStr "None");
         ("meeting_status", VStr "Declined");
         ("meeting_date", VNone);
         ("meeting_time", VNone);
         ("meeting_day_time", VNone);
         ("email_address", VNone);
         ("interested_in_novated_leasing", VBool false);
         ("send_summary_email", VBool false);
         ("has_existing_provider", VBool false)];
      current_context := [];
      trace := [] |}).
Proof. vm_compute. reflexivity. Qed.

Example scenario_a_booked_end :
  booked_path (initialize_whipsmart_flow (VStr "c-1")) =
  (Ok create_end_call_node,
   {| state := list_to_map
        [("contact_id", VStr "c-1");
         ("manager_name", VStr "Sam");
         ("company_name", VStr "Acme");
         ("current_provider", VStr "Fleetcare");
         ("meeting_status", VStr "Interested - To Be Scheduled");
         ("meeting_date", VStr "next Tuesday");
         ("meeting_time", VStr "10am");
         ("meeting_day_time", VStr "next Tuesday at 10am");
         ("email_address", VStr "sam@acme.com");
         ("interested_in_novated_leasing", VBool true);
         ("send_summary_email", VBool false);
         ("has_existing_provider", VBool true)];
      current_context := [];
      trace := [] |}).
Proof. vm_compute. reflexivity. Qed.

Example booked_then_finalize_trace :
  events_of (booked_path >> finalize_and_update_crm env_ok ∅)
            (initialize_whipsmart_flow (VStr "c-1")) =
  [EvCrm (add_call_notes (VStr "c-1")
            [("Manager Name", VStr "Sam");
             ("Company Name", VStr "Acme");
             ("Current Provider", VStr "Fleetcare");
             ("Meeting Status", VStr "Interested - To Be Scheduled");
             ("Meeting Date", VStr "next Tuesday");
             ("Meeting Time", VStr "10am");
             ("Meeting Day/Time", VStr "next Tuesday at 10am");
             ("Email Address", VStr "sam@acme.com");
             ("Interested", VBool true);
             ("Has Existing Provider", VBool true)]) None;
   EvCrm (update_contact_lead_status (VStr "c-1") OPEN_DEAL) None;
   EvCrm (create_deal_for_contact (VStr "c-1")) None].
Proof. vm_compute. reflexivity. Qed.

Example finalize_with_crm_down :
  finalize_and_update_crm env_down ∅ (initialize_whipsmart_flow (VStr "c-1")) =
  (Ok ("Cheers for your time!", None),
   {| state := state (initialize_whipsmart_flow (VStr "c-1"));
      current_context := [];
      trace :=
        [EvCrm (add_call_notes (VStr "c-1")
                  [("Manager Name", VNone);
                   ("Company Name", VNone);
                   ("Current Provider", VNone);
                   ("Meeting Status", VStr "Not Discussed");
                   ("Meeting Date", VNone);
                   ("Meeting Time", VNone);
                   ("Meeting Day/Time", VNone);
                   ("Email Address", VNone);
                   ("Interested", VBool false);
                   ("Has Existing Provider", VNone)])
               (Some "HubSpot unavailable");
         EvLogError "Error updating CRM: HubSpot unavailable"] |}).
Proof. vm_compute. reflexivity. Qed.

(** ** Node registry *)

Lemma create_node_name (k : node_kind) :
  node_name (create_node k) =
  match k with
  | InitialGreeting => "initial_greeting"
  | AskProvider => "ask_provider"
  | AskProviderName => "ask_provider_name"
  | ScenarioAPitch => "scenario_a_pitch"
  | ScenarioBPitch => "scenario_b_pitch"
  | OfferEmailSummary => "offer_email_summary"
  | CollectEmail _ => "collect_email"
  | EndCall => "end_call"
  end.
Proof. destruct k as [| | | | | | [] |]; reflexivity. Qed.

(** The handlers a node offers, in the order of its [functions]. *)
Lemma create_node_handlers (k : node_kind) :
  fn_handler <$> functions (create_node k) =
  match k with
  | InitialGreeting => [h_capture_manager_details; h_query_knowledge_base]
  | AskProvider => [h_handle_has_provider_response; h_query_knowledge_base]
  | AskProviderName => [h_capture_provider_name; h_query_knowledge_base]
  | ScenarioAPitch | ScenarioBPitch => [h_handle_meeting_response; h_query_knowledge_base]
  | OfferEmailSummary => [h_handle_email_summary_response; h_query_knowledge_base]
  | CollectEmail _ => [h_capture_email_address; h_query_knowledge_base]
  | EndCall => [h_finalize_and_update_crm]
  end.
Proof. destruct k as [| | | | | | [] |]; reflexivity. Qed.

(** C2, as the code has it. Every node but the end-call node offers the
    knowledge-base action: a node's action set contains it exactly when the
    node is not [EndCall], whose only action is [finalize_and_update_crm]. *)
Theorem knowledge_base_on_all_but_end_call (k : node_kind) :
  (offers_knowledge_base (create_node k) = true ↔ k ≠ EndCall)
  ∧ fn_name <$> functions (create_node EndCall) = ["finalize_and_update_crm"].
Proof.
  split; [|reflexivity].
  destruct k as [| | | | | | [] |]; vm_compute; split; congruence.
Qed.

(** C2, as stated, fails at the end-call node: its action set, built by
    [create_end_call_node], has no knowledge-base action. *)
Lemma end_call_has_no_knowledge_base :
  offers_knowledge_base (create_node EndCall) = false
  ∧ ¬ (∀ k, offers_knowledge_base (create_node k) = true).
Proof.
  split; [reflexivity|].
  intros H. specialize (H EndCall). vm_compute in H. discriminate.
Qed.

(** ** Handlers that record an answer *)

(** [handle_has_provider_response], by cases on the truth value of the
    argument (absent counts as [False]). *)
Lemma handle_has_provider_response_run (args : dict) (s : Session) :
  let has_provider := Py.get args "has_provider" (VBool false) in
  handle_has_provider_response args s =
  if truthy has_provider then
    (Ok ("Right, I see.", Some create_ask_provider_name_node),
     {| state := <["has_existing_provider" := has_provider]> (state s);
        current_context := current_context s;
        trace := trace s |})
  else
    (Ok ("No worries, I understand.", Some create_scenario_b_pitch_node),
     {| state := <["current_provider" := VStr "None"]>
                   (<["has_existing_provider" := has_provider]> (state s));
        current_context := current_context s;
        trace := trace s |}).
Proof.
  unfold handle_has_provider_response. simpl.
  destruct (truthy _); reflexivity.
Qed.

(** C3, as the code has it. With [has_provider = false] the handler sets the
    flag to false, sets the current provider to the string ["None"] and
    moves to the scenario B pitch; with [has_provider = true] it sets the
    flag, leaves the current provider as it was and moves to the
    ask-provider-name node. *)
Theorem record_has_provider (args : dict) (s : Session) (b : bool) :
  args !! "has_provider" = Some (VBool b) →
  let r := handle_has_provider_response args s in
  state r.2 !! "has_existing_provider" = Some (VBool b)
  ∧ (if b then
       state r.2 !! "current_provider" = state s !! "current_provider"
       ∧ ∃ ack, r.1 = Ok (ack, Some (create_node AskProviderName))
     else
       state r.2 !! "current_provider" = Some (VStr "None")
       ∧ ∃ ack, r.1 = Ok (ack, Some (create_node ScenarioBPitch))).
Proof.
  intros Harg r. subst r.
  rewrite handle_has_provider_response_run.
  unfold Py.get. rewrite Harg. simpl.
  destruct b; simpl.
  - split; [read_key|]. split; [read_key | eauto].
  - split; [read_key|]. split; [read_key | eauto].
Qed.

Lemma record_has_provider_witness :
  let s := initialize_whipsmart_flow (VStr "c-1") in
  let r := handle_has_provider_response {[ "has_provider" := VBool false ]} s in
  state r.2 !! "has_existing_provider" = Some (VBool false)
  ∧ state r.2 !! "current_provider" = Some (VStr "None")
  ∧ ∃ ack, r.1 = Ok (ack, Some (create_node ScenarioBPitch)).
Proof.
  intros s r.
  exact (record_has_provider {[ "has_provider" := VBool false ]} s false eq_refl).
Defined.

(** C3, as stated, fails on the sentinel: after [has_provider = false] the
    current provider is the string ["None"], not ["none"]. *)
Lemma current_provider_sentinel_is_None :
  let s := initialize_whipsmart_flow (VStr "c-1") in
  let r := handle_has_provider_response {[ "has_provider" := VBool false ]} s in
  state r.2 !! "current_provider" = Some (VStr "None")
  ∧ state r.2 !! "current_provider" ≠ Some (VStr "none").
Proof. split; [reflexivity | discriminate]. Qed.

(** [handle_meeting_response] when the meeting is accepted. *)
Lemma handle_meeting_response_accepts (args : dict) (s : Session) :
  truthy (Py.get args "accepts_meeting" (VBool false)) = true →
  let meeting_date := Py.get args "meeting_date" VNone in
  let meeting_time := Py.get args "meeting_time" VNone in
  handle_meeting_response args s =
  (Ok ("Brilliant! I'll get that sorted for you.", Some (create_collect_email_node true)),
   {| state :=
        <["interested_in_novated_leasing" := VBool true]>
        (<["meeting_day_time" :=
             if truthy meeting_date && truthy meeting_time then
               VStr (to_str meeting_date ++ " at " ++ to_str meeting_time)
             else if truthy meeting_date then meeting_date
             else VStr "To be confirmed"]>
        (<["meeting_time" :=
             if truthy meeting_time then meeting_time else VStr "To be confirmed"]>
        (<["meeting_date" :=
             if truthy meeting_date then meeting_date else VStr "To be confirmed"]>
        (<["meeting_status" := VStr "Interested - To Be Scheduled"]> (state s)))));
      current_context := current_context s;
      trace := trace s |}).
Proof.
  intros Hacc. unfold handle_meeting_response. rewrite Hacc. simpl.
  destruct (truthy (Py.get args "meeting_date" VNone)),
           (truthy (Py.get args "meeting_time" VNone)); reflexivity.
Qed.

(** [handle_meeting_response] when the meeting is declined. *)
Lemma handle_meeting_response_declines (args : dict) (s : Session) :
  truthy (Py.get args "accepts_meeting" (VBool false)) = false →
  handle_meeting_response args s =
  (Ok ("No worries at all, mate.", Some create_offer_email_summary_node),
   {| state :=
        <["interested_in_novated_leasing" := VBool false]>
        (<["meeting_status" := VStr "Declined"]> (state s));
      current_context := current_context s;
      trace := trace s |}).
Proof.
  intros Hacc. unfold handle_meeting_response. rewrite Hacc. reflexivity.
Qed.

(** C4. Accepting a meeting with neither a date nor a time stores
    ["To be confirmed"] as the meeting date, as the meeting time and as the
    combined field. *)
Theorem meeting_accepted_default_sentinels (args : dict) (s : Session) :
  args !! "accepts_meeting" = Some (VBool true) →
  args !! "meeting_date" = None →
  args !! "meeting_time" = None →
  let s' := (handle_meeting_response args s).2 in
  state s' !! "meeting_date" = Some (VStr "To be confirmed")
  ∧ state s' !! "meeting_time" = Some (VStr "To be confirmed")
  ∧ state s' !! "meeting_day_time" = Some (VStr "To be confirmed").
Proof.
  intros Hacc Hdate Htime s'. subst s'.
  rewrite handle_meeting_response_accepts
    by (unfold Py.get; rewrite Hacc; reflexivity).
  unfold Py.get. rewrite Hdate, Htime. simpl.
  repeat split; read_key.
Qed.

Lemma meeting_accepted_default_sentinels_witness :
  let s' := (handle_meeting_response {[ "accepts_meeting" := VBool true ]}
               (initialize_whipsmart_flow (VStr "c-1"))).2 in
  state s' !! "meeting_date" = Some (VStr "To be confirmed")
  ∧ state s' !! "meeting_time" = Some (VStr "To be confirmed")
  ∧ state s' !! "meeting_day_time" = Some (VStr "To be confirmed").
Proof.
  exact (meeting_accepted_default_sentinels {[ "accepts_meeting" := VBool true ]}
           (initialize_whipsmart_flow (VStr "c-1")) eq_refl eq_refl eq_refl).
Defined.

(** C10. Accepting with a time but no date stores the time and leaves the
    combined field at ["To be confirmed"]; accepting with a date but no time
    stores the date alone as the combined field. *)
Theorem meeting_accepted_partial_date_time (args : dict) (s : Session) (given : string) :
  args !! "accepts_meeting" = Some (VBool true) →
  given ≠ "" →
  let s' := (handle_meeting_response args s).2 in
  (args !! "meeting_date" = None → args !! "meeting_time" = Some (VStr given) →
   state s' !! "meeting_time" = Some (VStr given)
   ∧ state s' !! "meeting_day_time" = Some (VStr "To be confirmed"))
  ∧ (args !! "meeting_date" = Some (VStr given) → args !! "meeting_time" = None →
     state s' !! "meeting_day_time" = Some (VStr given)).
Proof.
  intros Hacc Hgiven s'. subst s'.
  assert (Hne : String.eqb given "" = false)
    by (destruct (String.eqb_spec given ""); [contradiction | reflexivity]).
  rewrite handle_meeting_response_accepts
    by (unfold Py.get; rewrite Hacc; reflexivity).
  split; intros Hdate Htime; unfold Py.get; rewrite Hdate, Htime;
    simpl; rewrite Hne; simpl; repeat split; read_key.
Qed.

Lemma meeting_accepted_partial_date_time_witness :
  let s := initialize_whipsmart_flow (VStr "c-1") in
  (state (handle_meeting_response
            {[ "accepts_meeting" := VBool true; "meeting_time" := VStr "10am" ]} s).2
     !! "meeting_time" = Some (VStr "10am")
   ∧ state (handle_meeting_response
              {[ "accepts_meeting" := VBool true; "meeting_time" := VStr "10am" ]} s).2
       !! "meeting_day_time" = Some (VStr "To be confirmed"))
  ∧ state (handle_meeting_response
             {[ "accepts_meeting" := VBool true; "meeting_date" := VStr "10am" ]} s).2
      !! "meeting_day_time" = Some (VStr "10am").
Proof.
  intros s. split.
  - exact (proj1 (meeting_accepted_partial_date_time
                    {[ "accepts_meeting" := VBool true; "meeting_time" := VStr "10am" ]}
                    s "10am" eq_refl ltac:(discriminate))
             eq_refl eq_refl).
  - exact (proj2 (meeting_accepted_partial_date_time
                    {[ "accepts_meeting" := VBool true; "meeting_date" := VStr "10am" ]}
                    s "10am" eq_refl ltac:(discriminate))
             eq_refl eq_refl).
Defined.

(** The remaining recording handlers, as session transformers. *)
Lemma capture_manager_details_run (args : dict) (s : Session) :
  ∃ ack, capture_manager_details args s =
  (Ok (ack, Some create_ask_provider_node),
   {| state := <["company_name" := Py.get args "company_name" (VStr "Not provided")]>
                 (<["manager_name" := Py.get args "manager_name" (VStr "Not provided")]>
                    (state s));
      current_context := current_context s;
      trace := trace s |}).
Proof. eexists. reflexivity. Qed.

Lemma capture_provider_name_run (args : dict) (s : Session) :
  ∃ ack, capture_provider_name args s =
  (Ok (ack, Some create_scenario_a_pitch_node),
   {| state := <["current_provider" := Py.get args "provider_name" (VStr "Not specified")]>
                 (state s);
      current_context := current_context s;
      trace := trace s |}).
Proof. eexists. reflexivity. Qed.

Lemma capture_email_address_run (args : dict) (s : Session) :
  ∃ ack, capture_email_address args s =
  (Ok (ack, Some create_end_call_node),
   {| state := <["email_address" := Py.get args "email" (VStr "Not provided")]> (state s);
      current_context := current_context s;
      trace := trace s |}).
Proof. eexists. reflexivity. Qed.

Lemma handle_email_summary_response_run (args : dict) (s : Session) :
  handle_email_summary_response args s =
  if truthy (Py.get args "wants_summary" (VBool false)) then
    (Ok ("Ripper!", Some (create_collect_email_node false)),
     {| state := <["send_summary_email" := VBool true]> (state s);
        current_context := current_context s;
        trace := trace s |})
  else
    (Ok ("Fair enough, I completely understand.", Some create_end_call_node),
     {| state := <["interested_in_novated_leasing" := VBool false]>
                   (<["send_summary_email" := VBool false]> (state s));
        current_context := current_context s;
        trace := trace s |}).
Proof.
  unfold handle_email_summary_response.
  destruct (truthy _); reflexivity.
Qed.

(** ** The knowledge-base side channel *)

Section SideChannel.

Context (env : Collaborators).

(** One query: an answer (the generated text or the fallback), no next node,
    and a session that differs only by what was sent and logged. *)
Lemma query_knowledge_base_run (args : dict) (s : Session) :
  ∃ text new,
    query_knowledge_base env args s =
    (Ok (text, None),
     {| state := state s;
        current_context := current_context s;
        trace := trace s ++ new |}).
Proof.
  unfold query_knowledge_base, generate. run_flow.
  destruct (generate_content env _ _) as [text | e]; simpl.
  - eexists _, [_]. reflexivity.
  - eexists _, [_; _]. rewrite <- app_assoc. reflexivity.
Qed.

(** The fallback is what the caller gets when the generation call raises. *)
Lemma query_knowledge_base_fallback (args : dict) (s : Session) (e : exn) :
  (∀ p, generate_content env (trace s) p = Raise e) →
  (query_knowledge_base env args s).1 = Ok (fallback_response, None).
Proof.
  intros Hfail. unfold query_knowledge_base, generate. run_flow.
  rewrite Hfail. reflexivity.
Qed.

Lemma ask_repeatedly_run (n : NodeConfig) (questions : list (list message * dict))
    (s : Session) :
  ∃ ctx new,
    ask_repeatedly env n questions s =
    (Ok n, {| state := state s; current_context := ctx; trace := trace s ++ new |}).
Proof.
  revert s. induction questions as [| [ctx args] rest IH]; intros s.
  - exists (current_context s), []. rewrite app_nil_r. destruct s; reflexivity.
  - cbn [ask_repeatedly]. unfold bind at 1. cbn [transport_turn].
    unfold bind at 1.
    destruct (query_knowledge_base_run args
                {| state := state s; current_context := ctx; trace := trace s |})
      as (text & new & ->).
    cbn [install snd default state current_context trace] in *.
    destruct (IH {| state := state s; current_context := ctx; trace := trace s ++ new |})
      as (ctx' & new' & ->).
    exists ctx', (new ++ new')%list. cbn [state trace]. rewrite app_assoc. reflexivity.
Qed.

(** C8. Asking the knowledge base, once or any number of times in a row and
    from any node, returns an answer with no next node, so the current node
    stays, and leaves every entry of the session state as it was. *)
Theorem query_knowledge_base_stays (n : NodeConfig) :
  (∀ args s, ∃ text,
      (query_knowledge_base env args s).1 = Ok (text, None)
      ∧ install n (text, None) = n
      ∧ state (query_knowledge_base env args s).2 = state s)
  ∧ (∀ questions s,
       (ask_repeatedly env n questions s).1 = Ok n
       ∧ state (ask_repeatedly env n questions s).2 = state s).
Proof.
  split.
  - intros args s. destruct (query_knowledge_base_run args s) as (text & new & ->).
    exists text. repeat split.
  - intros questions s.
    destruct (ask_repeatedly_run n questions s) as (ctx & new & ->).
    split; reflexivity.
Qed.

End SideChannel.

(** ** Session end: the two CRM syncs *)

Section Teardown.

Context (env : Collaborators).

Ltac crm_cases :=
  repeat match goal with
    | |- context [hubspot env ?tr ?c] => destruct (hubspot env tr c); simpl
    end.

(** [finalize_and_update_crm] always returns its acknowledgment and no next
    node; the session changes by the events of [finalize_events] only. *)
Lemma finalize_and_update_crm_run (args : dict) (s : Session) :
  finalize_and_update_crm env args s =
  (Ok ("Cheers for your time!", None),
   {| state := state s;
      current_context := current_context s;
      trace := trace s ++ finalize_events env s |}).
Proof.
  unfold finalize_and_update_crm, finalize_events, guarded_sync, sync_calls,
    import_service, crm, interested, finalize_notes.
  run_flow.
  destruct (truthy (Py.get (state s) "contact_id" VNone)); simpl.
  2: { rewrite app_nil_r. destruct s; reflexivity. }
  destruct (import_hubspot_service env (trace s)); simpl; [reflexivity|].
  destruct (truthy (Py.get (state s) "interested_in_novated_leasing" VNone)); simpl;
    crm_cases; rewrite <- ?app_assoc; reflexivity.
Qed.

(** [on_client_disconnected] never raises; the session changes by the events
    of [disconnect_events] only. *)
Lemma on_client_disconnected_run (contactId : value) (s : Session) :
  on_client_disconnected env contactId s =
  (Ok tt,
   {| state := state s;
      current_context := current_context s;
      trace := trace s ++ disconnect_events env contactId s |}).
Proof.
  unfold on_client_disconnected, disconnect_events, guarded_sync, sync_calls,
    crm, interested, disconnect_notes.
  run_flow.
  destruct (truthy (Py.get (state s) "interested_in_novated_leasing" VNone)); simpl;
    crm_cases; rewrite <- ?app_assoc; reflexivity.
Qed.

(** The shape of a sequence of calls: all of them answered, or a prefix
    answered and the next one raising. *)
Lemma attempt_shape (calls : list crm_call) (tr : list event) :
  match attempt env tr calls with
  | (evs, None) => evs = (λ c, EvCrm c None) <$> calls
  | (evs, Some e) =>
      ∃ done c rest,
        calls = (done ++ c :: rest)%list
        ∧ evs = (((λ c, EvCrm c None) <$> done) ++ [EvCrm c (Some e)])%list
  end.
Proof.
  revert tr. induction calls as [| c rest IH]; intros tr; simpl; [reflexivity|].
  destruct (hubspot env tr c) as [e|].
  - exists [], c, rest. split; reflexivity.
  - specialize (IH (tr ++ [EvCrm c None])%list).
    destruct (attempt env (tr ++ [EvCrm c None])%list rest) as [evs [e|]].
    + destruct IH as (done & c' & rest' & -> & ->).
      exists (c :: done), c', rest'. split; reflexivity.
    + rewrite IH. reflexivity.
Qed.

Lemma attempt_answers (calls : list crm_call) (tr : list event) :
  (∀ tr c, hubspot env tr c = None) →
  attempt env tr calls = ((λ c, EvCrm c None) <$> calls, None).
Proof.
  intros Hok. revert tr. induction calls as [| c rest IH]; intros tr; simpl.
  - reflexivity.
  - rewrite Hok, IH. reflexivity.
Qed.

(** A call that raised is followed by the error line, which ends the sync. *)
Lemma guarded_sync_failure_logged (tr : list event) (error_prefix : string)
    (calls : list crm_call) (c : crm_call) (e : exn) :
  EvCrm c (Some e) ∈ guarded_sync env tr error_prefix calls →
  last (guarded_sync env tr error_prefix calls) = Some (EvLogError (error_prefix ++ e)).
Proof.
  unfold guarded_sync. pose proof (attempt_shape calls tr) as Hshape.
  destruct (attempt env tr calls) as [evs [e'|]].
  - destruct Hshape as (done & c' & rest & -> & ->). intros Hin.
    rewrite last_snoc. do 2 f_equal.
    rewrite !elem_of_app, !list_elem_of_singleton, list_elem_of_fmap in Hin.
    destruct Hin as [[(x & Hx & _) | Hx] | Hx]; congruence.
  - subst evs. rewrite app_nil_r, list_elem_of_fmap.
    intros (x & Hx & _). discriminate.
Qed.

(** The notes are pushed exactly once by a sync, whatever the CRM does. *)
Lemma guarded_sync_note_syncs (tr : list event) (error_prefix : string)
    (cid : value) (notes : list (string * value)) (st : dict) :
  note_syncs (guarded_sync env tr error_prefix (sync_calls cid notes st)) = [(cid, notes)].
Proof.
  unfold guarded_sync, sync_calls. simpl.
  destruct (interested st); simpl; crm_cases; reflexivity.
Qed.

(** The status a sync sends is the one chosen from the interest flag, and a
    deal is requested only for an interested lead. *)
Lemma guarded_sync_status (tr : list event) (error_prefix : string)
    (cid : value) (notes : list (string * value)) (st : dict) :
  let new := guarded_sync env tr error_prefix (sync_calls cid notes st) in
  Forall (λ status, status = if interested st then OPEN_DEAL else CONNECTED)
         (status_updates new)
  ∧ (deal_requests new ≠ [] → interested st = true).
Proof.
  unfold guarded_sync, sync_calls. simpl.
  destruct (interested st); simpl; crm_cases;
    (split; [repeat constructor | first [reflexivity | intros H; contradiction]]).
Qed.

(** With a CRM that answers, the sync is its three (or two) calls. *)
Lemma guarded_sync_answers (tr : list event) (error_prefix : string)
    (cid : value) (notes : list (string * value)) (st : dict) :
  (∀ tr c, hubspot env tr c = None) →
  guarded_sync env tr error_prefix (sync_calls cid notes st) =
  (λ c, EvCrm c None) <$> sync_calls cid notes st.
Proof.
  intros Hok. unfold guarded_sync. rewrite attempt_answers by assumption.
  apply app_nil_r.
Qed.

Lemma events_of_run {A} (m : M A) (s : Session) (r : result A) (s' : Session)
    (new : list event) :
  m s = (r, s') → trace s' = (trace s ++ new)%list → events_of m s = new.
Proof.
  intros Hrun Htrace. unfold events_of. rewrite Hrun. simpl.
  rewrite Htrace. apply drop_app_length.
Qed.

Lemma session_end_run (contactId : value) (p : teardown_path) (s : Session) :
  session_end env contactId p s =
  (Ok tt,
   {| state := state s;
      current_context := current_context s;
      trace := trace s ++ session_end_events env contactId p s |}).
Proof.
  destruct p; simpl.
  - apply on_client_disconnected_run.
  - unfold bind. rewrite finalize_and_update_crm_run. reflexivity.
Qed.

Lemma events_of_session_end (contactId : value) (p : teardown_path) (s : Session) :
  events_of (session_end env contactId p) s = session_end_events env contactId p s.
Proof.
  eapply events_of_run; [apply session_end_run | reflexivity].
Qed.

(** C9. Whatever the CRM does, [finalize_and_update_crm] returns its usual
    acknowledgment with no next node and leaves the session state as it was;
    a CRM call that raised is followed by the error line of the handler,
    and nothing is raised to the caller. *)
Theorem finalize_swallows_crm_failures (args : dict) (s : Session) :
  ∃ new,
    finalize_and_update_crm env args s =
    (Ok ("Cheers for your time!", None),
     {| state := state s;
        current_context := current_context s;
        trace := trace s ++ new |})
    ∧ ∀ c e, EvCrm c (Some e) ∈ new →
             last new = Some (EvLogError ("Error updating CRM: " ++ e)).
Proof.
  exists (finalize_events env s). split; [apply finalize_and_update_crm_run|].
  intros c e. unfold finalize_events.
  destruct (truthy _); [|intros Hin; inversion Hin].
  destruct (import_hubspot_service env (trace s)).
  - rewrite list_elem_of_singleton. discriminate.
  - apply guarded_sync_failure_logged.
Qed.

(** C5. At teardown, on either path, the lead status sent to the CRM is
    [OPEN_DEAL] for an interested lead and [CONNECTED] otherwise, and a deal
    is requested only for an interested lead. With a CRM that answers (and
    the session's contact id set), exactly that status is sent, and a deal is
    requested exactly when the lead is interested; two sessions that agree on
    the interest flag get the same status and deal requests, whatever their
    meeting and email entries. *)
Theorem teardown_lead_status (contactId : value) (p : teardown_path) (s : Session) :
  let new := events_of (session_end env contactId p) s in
  let chosen := if interested (state s) then OPEN_DEAL else CONNECTED in
  Forall (λ status, status = chosen) (status_updates new)
  ∧ (deal_requests new ≠ [] → interested (state s) = true)
  ∧ (crm_answers env →
     Py.get (state s) "contact_id" VNone = contactId →
     truthy contactId = true →
     status_updates new = [chosen]
     ∧ deal_requests new = (if interested (state s) then [contactId] else [])
     ∧ ∀ s2,
         Py.get (state s2) "contact_id" VNone = contactId →
         interested (state s2) = interested (state s) →
         status_updates (events_of (session_end env contactId p) s2) = status_updates new
         ∧ deal_requests (events_of (session_end env contactId p) s2) = deal_requests new).
Proof.
  intros new chosen. subst new chosen.
  assert (Hanswers : ∀ s0, crm_answers env →
            Py.get (state s0) "contact_id" VNone = contactId →
            truthy contactId = true →
            status_updates (session_end_events env contactId p s0)
              = [if interested (state s0) then OPEN_DEAL else CONNECTED]
            ∧ deal_requests (session_end_events env contactId p s0)
              = if interested (state s0) then [contactId] else []).
  { intros s0 [Himport Hok] Hcid Htruthy.
    destruct p; simpl; unfold disconnect_events, finalize_events.
    - rewrite guarded_sync_answers by assumption. unfold sync_calls.
      destruct (interested (state s0)); split; reflexivity.
    - rewrite Hcid, Htruthy, Himport, guarded_sync_answers by assumption.
      unfold sync_calls. destruct (interested (state s0)); split; reflexivity. }
  rewrite events_of_session_end.
  split; [|split].
  - destruct p; simpl; unfold disconnect_events, finalize_events.
    + unfold status_updates. rewrite omap_app. simpl. rewrite app_nil_r.
      apply guarded_sync_status.
    + destruct (truthy (Py.get (state s) "contact_id" VNone)); [|constructor].
      destruct (import_hubspot_service env (trace s)); [constructor|].
      apply guarded_sync_status.
  - destruct p; simpl; unfold disconnect_events, finalize_events.
    + unfold deal_requests. rewrite omap_app. simpl. rewrite app_nil_r.
      apply guarded_sync_status.
    + destruct (truthy (Py.get (state s) "contact_id" VNone)); [|intros H; contradiction].
      destruct (import_hubspot_service env (trace s)); [intros H; contradiction|].
      apply guarded_sync_status.
  - intros Hcrm Hcid Htruthy.
    destruct (Hanswers s Hcrm Hcid Htruthy) as [Hst Hdeal].
    split; [exact Hst|]. split; [exact Hdeal|].
    intros s2 Hcid2 Hsame. rewrite events_of_session_end.
    destruct (Hanswers s2 Hcrm Hcid2 Htruthy) as [Hst2 Hdeal2].
    rewrite Hst, Hdeal, Hst2, Hdeal2, Hsame. split; reflexivity.
Qed.

(** C1, as the code has it. Neither path is guarded: with a contact id set
    and the CRM module importable, ending the session twice, in any
    combination of the two paths, pushes the call notes twice, once per
    invocation, whatever the CRM answers. *)
Theorem session_end_twice_syncs_twice (contactId : value) (p1 p2 : teardown_path)
    (s : Session) :
  Py.get (state s) "contact_id" VNone = contactId →
  truthy contactId = true →
  (∀ tr, import_hubspot_service env tr = None) →
  let s1 := (session_end env contactId p1 s).2 in
  length (note_syncs (events_of (session_end env contactId p1) s)) = 1
  ∧ length (note_syncs (events_of (session_end env contactId p2) s1)) = 1
  ∧ length (note_syncs
              (events_of (session_end env contactId p1 >> session_end env contactId p2) s))
    = 2.
Proof.
  intros Hcid Htruthy Himport s1.
  assert (Hone : ∀ p s0, Py.get (state s0) "contact_id" VNone = contactId →
            length (note_syncs (session_end_events env contactId p s0)) = 1).
  { intros p s0 Hcid0. destruct p; simpl; unfold disconnect_events, finalize_events.
    - unfold note_syncs. rewrite omap_app. simpl. rewrite app_nil_r.
      fold (note_syncs (guarded_sync env (trace s0)
              "Error processing lead data on disconnect: "
              (sync_calls contactId (disconnect_notes (state s0)) (state s0)))).
      rewrite guarded_sync_note_syncs. reflexivity.
    - rewrite Hcid0, Htruthy, Himport, guarded_sync_note_syncs. reflexivity. }
  assert (Hs1 : state s1 = state s)
    by (subst s1; rewrite session_end_run; reflexivity).
  split; [|split].
  - rewrite events_of_session_end. apply Hone, Hcid.
  - rewrite events_of_session_end. apply Hone. rewrite Hs1. exact Hcid.
  - erewrite events_of_run with
      (new := (session_end_events env contactId p1 s
               ++ session_end_events env contactId p2 s1)%list).
    + unfold note_syncs. rewrite omap_app, length_app.
      fold (note_syncs (session_end_events env contactId p1 s)).
      fold (note_syncs (session_end_events env contactId p2 s1)).
      rewrite !Hone; [reflexivity | rewrite Hs1; exact Hcid | exact Hcid].
    + unfold bind. rewrite session_end_run.
      fold s1. rewrite session_end_run. reflexivity.
    + subst s1. rewrite session_end_run. simpl. rewrite app_assoc. reflexivity.
Qed.

End Teardown.

(** ** Reachable sessions *)

Section Reachable.

Context (env : Collaborators) (contactId : value).

Lemma create_node_offer_email_summary (k : node_kind) :
  create_node k = create_node OfferEmailSummary → k = OfferEmailSummary.
Proof.
  intros Heq. apply (f_equal node_name) in Heq.
  rewrite !create_node_name in Heq.
  destruct k; first [reflexivity | discriminate].
Qed.

Ltac flow_inv_solve :=
  match goal with
  | Hinv : flow_inv _ _ _ |- flow_inv _ _ _ =>
      destruct Hinv as (Hcid & Hmeet & Hoffer);
      unfold flow_inv, meeting_implies_interested, Py.get in *; simpl;
      repeat split;
      repeat first
        [ rewrite lookup_insert_eq
        | rewrite lookup_insert_ne by (intros ?; discriminate) ];
      simpl;
      first [ assumption | reflexivity | discriminate
            | intros; discriminate | intros ?; apply Hoffer; assumption
            | idtac ]
  end.

(** One graph-respecting call keeps the invariant, and always returns. *)
Lemma dispatch_step (k : node_kind) (f : FlowsFunctionSchema) (args : dict) (s : Session) :
  f ∈ functions (create_node k) →
  flow_inv contactId k (state s) →
  ∃ k' s',
    dispatch env (create_node k) f args s = (Ok (create_node k'), s')
    ∧ flow_inv contactId k' (state s').
Proof.
  intros Hf Hinv.
  assert (Hh : fn_handler f ∈ fn_handler <$> functions (create_node k))
    by (apply list_elem_of_fmap_2; exact Hf).
  rewrite create_node_handlers in Hh.
  assert (Hquery :
    fn_handler f = h_query_knowledge_base →
    ∃ k' s', dispatch env (create_node k) f args s = (Ok (create_node k'), s')
             ∧ flow_inv contactId k' (state s')).
  { intros Hq. unfold dispatch, bind. rewrite Hq. simpl run_handler.
    destruct (query_knowledge_base_run env args s) as (text & new & ->).
    exists k. eexists. split; [reflexivity | exact Hinv]. }
  unfold dispatch, bind.
  destruct k; simpl in Hh;
    repeat (apply elem_of_cons in Hh as [Hh | Hh]);
    try (inversion Hh; fail);
    try (apply Hquery; exact Hh);
    rewrite Hh; simpl run_handler.
  - destruct (capture_manager_details_run args s) as [ack ->].
    exists AskProvider. eexists. split; [reflexivity | flow_inv_solve].
  - rewrite handle_has_provider_response_run.
    destruct (truthy _).
    + exists AskProviderName. eexists. split; [reflexivity | flow_inv_solve].
    + exists ScenarioBPitch. eexists. split; [reflexivity | flow_inv_solve].
  - destruct (capture_provider_name_run args s) as [ack ->].
    exists ScenarioAPitch. eexists. split; [reflexivity | flow_inv_solve].
  - destruct (truthy (Py.get args "accepts_meeting" (VBool false))) eqn:Hacc.
    + rewrite handle_meeting_response_accepts by exact Hacc.
      exists (CollectEmail true). eexists. split; [reflexivity | flow_inv_solve].
    + rewrite handle_meeting_response_declines by exact Hacc.
      exists OfferEmailSummary. eexists. split; [reflexivity | flow_inv_solve].
  - destruct (truthy (Py.get args "accepts_meeting" (VBool false))) eqn:Hacc.
    + rewrite handle_meeting_response_accepts by exact Hacc.
      exists (CollectEmail true). eexists. split; [reflexivity | flow_inv_solve].
    + rewrite handle_meeting_response_declines by exact Hacc.
      exists OfferEmailSummary. eexists. split; [reflexivity | flow_inv_solve].
  - rewrite handle_email_summary_response_run.
    destruct (truthy _).
    + exists (CollectEmail false). eexists. split; [reflexivity | flow_inv_solve].
    + exists EndCall. eexists. split; [reflexivity|].
      destruct Hinv as (Hcid & Hmeet & Hoffer).
      destruct (Hoffer eq_refl) as [Hdeclined _].
      unfold flow_inv, meeting_implies_interested, Py.get. simpl.
      repeat split.
      * rewrite !lookup_insert_ne by (intros ?; discriminate). exact Hcid.
      * rewrite !lookup_insert_ne by (intros ?; discriminate).
        rewrite Hdeclined. discriminate.
      * discriminate.
      * discriminate.
  - destruct (capture_email_address_run args s) as [ack ->].
    exists EndCall. eexists. split; [reflexivity | flow_inv_solve].
  - rewrite finalize_and_update_crm_run.
    exists EndCall. eexists. split; [reflexivity | exact Hinv].
Qed.

(** Every reachable session is at one of the eight nodes and satisfies the
    invariant of that node. *)
Lemma reachable_inv (n : NodeConfig) (s : Session) :
  reachable env contactId n s →
  ∃ k, n = create_node k ∧ flow_inv contactId k (state s).
Proof.
  induction 1 as [| n s ctx s' _ IH Hturn | n s f args n' s' _ IH Hf Hcall].
  - exists InitialGreeting. split; [reflexivity|].
    unfold flow_inv, meeting_implies_interested.
    repeat split; first [discriminate | reflexivity].
  - destruct IH as (k & -> & Hinv). exists k. split; [reflexivity|].
    inversion Hturn; subst. exact Hinv.
  - destruct IH as (k & -> & Hinv).
    destruct (dispatch_step k f args s Hf Hinv) as (k' & s'' & Hrun & Hinv').
    rewrite Hrun in Hcall. inversion Hcall; subst.
    exists k'. split; [reflexivity | exact Hinv'].
Qed.

End Reachable.

Section ReachableClaims.

Context (env : Collaborators) (contactId : value).

Lemma reachable_call_nth (i : nat) (args : dict) (n n' : NodeConfig) (s s' : Session) :
  reachable env contactId n s →
  call_nth env i args n s = (Ok n', s') →
  reachable env contactId n' s'.
Proof.
  intros Hreach. unfold call_nth.
  destruct (functions n !! i) as [f|] eqn:Hf.
  - intros Hcall. eapply reach_call; [exact Hreach | | exact Hcall].
    eapply list_elem_of_lookup_2. exact Hf.
  - intros Hret. inversion Hret; subst. exact Hreach.
Qed.

Lemma reachable_run_script (calls : list (nat * dict)) (n n' : NodeConfig)
    (s : Session) :
  reachable env contactId n s →
  (run_script env calls n s).1 = Ok n' →
  reachable env contactId n' (run_script env calls n s).2.
Proof.
  revert n s. induction calls as [| [i args] rest IH]; intros n s Hreach; simpl.
  - intros Hret. inversion Hret; subst. exact Hreach.
  - unfold bind.
    destruct (call_nth env i args n s) as [[n1 | e] s1] eqn:Hcall.
    + apply IH. eapply reachable_call_nth; [exact Hreach | exact Hcall].
    + discriminate.
Qed.

(** C6. In every session reachable by graph-respecting calls, a meeting
    status of "Interested - To Be Scheduled" comes with the interest flag
    set; and whichever function of the current node is called next, on any
    arguments, the call returns and the session it leaves is reachable and
    satisfies the same implication. *)
Theorem meeting_interest_invariant (n : NodeConfig) (s : Session) :
  reachable env contactId n s →
  meeting_implies_interested (state s)
  ∧ ∀ f args, f ∈ functions n →
      ∃ n' s',
        dispatch env n f args s = (Ok n', s')
        ∧ reachable env contactId n' s'
        ∧ meeting_implies_interested (state s').
Proof.
  intros Hreach.
  destruct (reachable_inv env contactId n s Hreach) as (k & -> & Hinv).
  split; [apply Hinv|].
  intros f args Hf.
  destruct (dispatch_step env contactId k f args s Hf Hinv) as (k' & s' & Hrun & Hinv').
  exists (create_node k'), s'. split; [exact Hrun|]. split; [|apply Hinv'].
  eapply reach_call; [exact Hreach | exact Hf | exact Hrun].
Qed.

(** C7. In a session reachable at the email-summary offer, declining the
    summary leaves the interest flag at the value the meeting branch gave it
    (false, the meeting having been declined), records that no summary is
    wanted and moves to the end-call node. *)
Theorem summary_declined_keeps_interest (s : Session) (args : dict) :
  reachable env contactId (create_node OfferEmailSummary) s →
  args !! "wants_summary" = Some (VBool false) →
  let r := handle_email_summary_response args s in
  Py.get (state r.2) "interested_in_novated_leasing" VNone
    = Py.get (state s) "interested_in_novated_leasing" VNone
  ∧ Py.get (state s) "interested_in_novated_leasing" VNone = VBool false
  ∧ Py.get (state s) "meeting_status" VNone = VStr "Declined"
  ∧ state r.2 !! "send_summary_email" = Some (VBool false)
  ∧ ∃ ack, r.1 = Ok (ack, Some (create_node EndCall)).
Proof.
  intros Hreach Hargs r. subst r.
  destruct (reachable_inv env contactId _ s Hreach) as (k & Hk & Hinv).
  symmetry in Hk. apply create_node_offer_email_summary in Hk. subst k.
  destruct Hinv as (_ & _ & Hoffer). destruct (Hoffer eq_refl) as [Hdeclined Hflag].
  rewrite handle_email_summary_response_run.
  unfold Py.get. rewrite Hargs, Hflag, Hdeclined. simpl.
  repeat split; try read_key. eauto.
Qed.

End ReachableClaims.

(** ** The claims on concrete sessions *)

Lemma env_ok_answers : crm_answers env_ok.
Proof. split; reflexivity. Qed.

Lemma offer_script_reachable :
  reachable env_ok (VStr "c-1") (create_node OfferEmailSummary)
    (run_script env_ok offer_script create_initial_greeting_node
       (initialize_whipsmart_flow (VStr "c-1"))).2.
Proof.
  apply reachable_run_script; [apply reach_connected|].
  vm_compute. reflexivity.
Qed.

Lemma accepted_script_reachable :
  reachable env_ok (VStr "c-1") (create_node (CollectEmail true))
    (run_script env_ok accepted_script create_initial_greeting_node
       (initialize_whipsmart_flow (VStr "c-1"))).2.
Proof.
  apply reachable_run_script; [apply reach_connected|].
  vm_compute. reflexivity.
Qed.

(** C1, as stated, fails: after a declined call, the finalize action and
    then the disconnect hook each push the notes and the lead status; the
    CRM sees two syncs, and the second invocation is not a no-op. *)
Lemma double_teardown_pushes_twice :
  let s := (decline_path (initialize_whipsmart_flow (VStr "c-1"))).2 in
  let first := session_end env_ok (VStr "c-1") ViaFinalize in
  let second := session_end env_ok (VStr "c-1") ViaDisconnect in
  length (note_syncs (events_of (first >> second) s)) = 2
  ∧ length (note_syncs (events_of (first >> second) s)) ≠ 1
  ∧ crm_events (events_of second (first s).2) =
    [EvCrm (add_call_notes (VStr "c-1")
              [("Manager Name", VStr "Sam");
               ("Company Name", VStr "Acme");
               ("Current Provider", VStr "None");
               ("Meeting Status", VStr "Declined");
               ("Meeting Day/Time", VNone);
               ("Email Address", VNone);
               ("Interested", VBool false);
               ("Has Existing Provider", VBool false)]) None;
     EvCrm (update_contact_lead_status (VStr "c-1") CONNECTED) None].
Proof.
  vm_compute. split; [reflexivity|]. split; [discriminate | reflexivity].
Qed.

Lemma session_end_twice_syncs_twice_witness :
  let s := (decline_path (initialize_whipsmart_flow (VStr "c-1"))).2 in
  let first := session_end env_ok (VStr "c-1") ViaFinalize in
  let second := session_end env_ok (VStr "c-1") ViaDisconnect in
  length (note_syncs (events_of first s)) = 1
  ∧ length (note_syncs (events_of second (first s).2)) = 1
  ∧ length (note_syncs (events_of (first >> second) s)) = 2.
Proof.
  intros s first second.
  exact (session_end_twice_syncs_twice env_ok (VStr "c-1") ViaFinalize ViaDisconnect s
           eq_refl eq_refl (λ _, eq_refl)).
Defined.

Lemma teardown_lead_status_witness :
  let s := (booked_path (initialize_whipsmart_flow (VStr "c-1"))).2 in
  let new := events_of (session_end env_ok (VStr "c-1") ViaDisconnect) s in
  status_updates new = [OPEN_DEAL] ∧ deal_requests new = [VStr "c-1"].
Proof.
  intros s new.
  destruct (teardown_lead_status env_ok (VStr "c-1") ViaDisconnect s)
    as (_ & _ & Hanswers).
  destruct (Hanswers env_ok_answers eq_refl eq_refl) as (Hstatus & Hdeal & _).
  split; [exact Hstatus | exact Hdeal].
Defined.

Lemma meeting_interest_invariant_witness :
  let s := (run_script env_ok accepted_script create_initial_greeting_node
              (initialize_whipsmart_flow (VStr "c-1"))).2 in
  Py.get (state s) "meeting_status" VNone = VStr "Interested - To Be Scheduled"
  ∧ meeting_implies_interested (state s).
Proof.
  intros s. split; [reflexivity|].
  exact (proj1 (meeting_interest_invariant env_ok (VStr "c-1") _ s
                  accepted_script_reachable)).
Defined.

Lemma summary_declined_keeps_interest_witness :
  let s := (run_script env_ok offer_script create_initial_greeting_node
              (initialize_whipsmart_flow (VStr "c-1"))).2 in
  let r := handle_email_summary_response {[ "wants_summary" := VBool false ]} s in
  Py.get (state r.2) "interested_in_novated_leasing" VNone
    = Py.get (state s) "interested_in_novated_leasing" VNone
  ∧ state r.2 !! "send_summary_email" = Some (VBool false).
Proof.
  intros s r.
  assert (Hargs : ({[ "wants_summary" := VBool false ]} : dict) !! "wants_summary"
                  = Some (VBool false)) by reflexivity.
  destruct (summary_declined_keeps_interest env_ok (VStr "c-1") s
              {[ "wants_summary" := VBool false ]} offer_script_reachable Hargs)
    as (Hkept & _ & _ & Hsummary & _).
  split; [exact Hkept | exact Hsummary].
Defined.

(** Outside the graph the implication of C6 is not kept by the handler
    alone: called on a state where a meeting was accepted, which no
    graph-respecting call sequence produces at the email-summary offer,
    [handle_email_summary_response] clears the interest flag and leaves the
    meeting status. The invariant rests on the graph. *)
Remark summary_decline_needs_the_graph :
  let s := (run_script env_ok accepted_script create_initial_greeting_node
              (initialize_whipsmart_flow (VStr "c-1"))).2 in
  let s' := (handle_email_summary_response {[ "wants_summary" := VBool false ]} s).2 in
  meeting_implies_interested (state s) ∧ ¬ meeting_implies_interested (state s').
Proof.
  split.
  - intros _. reflexivity.
  - intros H. specialize (H eq_refl). vm_compute in H. discriminate.
Qed.

(** ** Frames, idempotence and the direction of the graph *)

Lemma append_at_nonempty (a b : string) : String.eqb (a ++ " at " ++ b) "" = false.
Proof. destruct a; reflexivity. Qed.

Lemma Py_get_present (st : dict) (k : string) (d1 d2 : value) :
  is_Some (st !! k) → Py.get st k d1 = Py.get st k d2.
Proof. intros [v Hv]. unfold Py.get. rewrite Hv. reflexivity. Qed.

Section HandlerFrames.

Context (env : Collaborators).

(** Every handler, as a session transformer: it returns, and its state is
    the old one with some assignments on top. *)
Ltac handler_cases h args s :=
  destruct h; simpl run_handler;
  [ destruct (capture_manager_details_run args s) as [? ->]
  | rewrite handle_has_provider_response_run; destruct (truthy _)
  | destruct (capture_provider_name_run args s) as [? ->]
  | destruct (query_knowledge_base_run env args s) as (? & ? & ->)
  | destruct (truthy (Py.get args "accepts_meeting" (VBool false))) eqn:?;
    [ rewrite handle_meeting_response_accepts by assumption
    | rewrite handle_meeting_response_declines by assumption ]
  | rewrite handle_email_summary_response_run; destruct (truthy _)
  | destruct (capture_email_address_run args s) as [? ->]
  | rewrite finalize_and_update_crm_run ].

(** X1. No handler raises; a handler changes no entry of the session state
    other than the keys it assigns ([written_keys]), and it never removes an
    entry. In particular no handler touches the contact id. *)
Theorem handlers_write_only_their_keys (h : handler_id) (args : dict) (s : Session) :
  let r := run_handler env h args s in
  (∃ ack next, r.1 = Ok (ack, next))
  ∧ (∀ key, key ∉ written_keys h → state r.2 !! key = state s !! key)
  ∧ (∀ key, is_Some (state s !! key) → is_Some (state r.2 !! key)).
Proof.
  intros r. subst r.
  handler_cases h args s; simpl;
    (split; [eauto|]); (split; [intros key Hkey | intros key Hkey]);
    repeat (rewrite lookup_insert_ne by (intros <-; apply Hkey; set_solver));
    try reflexivity;
    repeat (apply lookup_insert_is_Some'; right); exact Hkey.
Qed.


Ltac same_map :=
  apply map_eq; intros key; simpl;
  repeat (rewrite lookup_insert; case_decide);
  first [reflexivity | congruence].

(** X2. Calling a handler a second time with the same arguments leaves the
    session state as the first call left it: what a handler stores depends
    on its arguments only. *)
Theorem handlers_idempotent_on_state (h : handler_id) (args : dict) (s : Session) :
  state ((run_handler env h args >> run_handler env h args) s).2
  = state (run_handler env h args s).2.
Proof.
  unfold bind. destruct h; simpl run_handler.
  - destruct (capture_manager_details_run args s) as [? ->].
    match goal with |- context [capture_manager_details args ?s1] =>
      destruct (capture_manager_details_run args s1) as [? ->] end.
    same_map.
  - rewrite handle_has_provider_response_run.
    destruct (truthy _) eqn:Hhas; simpl;
      rewrite handle_has_provider_response_run, Hhas; same_map.
  - destruct (capture_provider_name_run args s) as [? ->].
    match goal with |- context [capture_provider_name args ?s1] =>
      destruct (capture_provider_name_run args s1) as [? ->] end.
    same_map.
  - destruct (query_knowledge_base_run env args s) as (? & ? & ->).
    match goal with |- context [query_knowledge_base env args ?s1] =>
      destruct (query_knowledge_base_run env args s1) as (? & ? & ->) end.
    reflexivity.
  - destruct (truthy (Py.get args "accepts_meeting" (VBool false))) eqn:Hacc.
    + rewrite handle_meeting_response_accepts by assumption. simpl.
      rewrite handle_meeting_response_accepts by assumption. same_map.
    + rewrite handle_meeting_response_declines by assumption. simpl.
      rewrite handle_meeting_response_declines by assumption. same_map.
  - rewrite handle_email_summary_response_run.
    destruct (truthy _) eqn:Hwants; simpl;
      rewrite handle_email_summary_response_run, Hwants; same_map.
  - destruct (capture_email_address_run args s) as [? ->].
    match goal with |- context [capture_email_address args ?s1] =>
      destruct (capture_email_address_run args s1) as [? ->] end.
    same_map.
  - rewrite finalize_and_update_crm_run. simpl.
    rewrite finalize_and_update_crm_run. reflexivity.
Qed.

End HandlerFrames.

Section Direction.

Context (env : Collaborators).

(** One call from node [k]: the knowledge-base and finalize actions stay,
    every other action moves to a deeper node. *)
Lemma dispatch_advances (k : node_kind) (f : FlowsFunctionSchema) (args : dict)
    (s : Session) :
  f ∈ functions (create_node k) →
  ∃ k' s',
    dispatch env (create_node k) f args s = (Ok (create_node k'), s')
    ∧ if bool_decide (fn_handler f ∈ [h_query_knowledge_base; h_finalize_and_update_crm])
      then k' = k else (rank k < rank k')%nat.
Proof.
  intros Hf.
  assert (Hh : fn_handler f ∈ fn_handler <$> functions (create_node k))
    by (apply list_elem_of_fmap_2; exact Hf).
  rewrite create_node_handlers in Hh.
  unfold dispatch, bind.
  destruct k; simpl in Hh;
    repeat (apply elem_of_cons in Hh as [Hh | Hh]);
    try (inversion Hh; fail);
    rewrite Hh; simpl run_handler;
    try (destruct (query_knowledge_base_run env args s) as (text & new & ->);
         eexists _, _; split; [reflexivity | reflexivity]).
  - destruct (capture_manager_details_run args s) as [ack ->].
    exists AskProvider. eexists. split; [reflexivity | simpl; lia].
  - rewrite handle_has_provider_response_run. destruct (truthy _).
    + exists AskProviderName. eexists. split; [reflexivity | simpl; lia].
    + exists ScenarioBPitch. eexists. split; [reflexivity | simpl; lia].
  - destruct (capture_provider_name_run args s) as [ack ->].
    exists ScenarioAPitch. eexists. split; [reflexivity | simpl; lia].
  - destruct (truthy (Py.get args "accepts_meeting" (VBool false))) eqn:Hacc.
    + rewrite handle_meeting_response_accepts by exact Hacc.
      exists (CollectEmail true). eexists. split; [reflexivity | simpl; lia].
    + rewrite handle_meeting_response_declines by exact Hacc.
      exists OfferEmailSummary. eexists. split; [reflexivity | simpl; lia].
  - destruct (truthy (Py.get args "accepts_meeting" (VBool false))) eqn:Hacc.
    + rewrite handle_meeting_response_accepts by exact Hacc.
      exists (CollectEmail true). eexists. split; [reflexivity | simpl; lia].
    + rewrite handle_meeting_response_declines by exact Hacc.
      exists OfferEmailSummary. eexists. split; [reflexivity | simpl; lia].
  - rewrite handle_email_summary_response_run. destruct (truthy _).
    + exists (CollectEmail false). eexists. split; [reflexivity | simpl; lia].
    + exists EndCall. eexists. split; [reflexivity | simpl; lia].
  - destruct (capture_email_address_run args s) as [ack ->].
    exists EndCall. eexists. split; [reflexivity | simpl; lia].
  - rewrite finalize_and_update_crm_run.
    exists EndCall. eexists. split; [reflexivity | reflexivity].
Qed.

Lemma call_nth_advances (k : node_kind) (i : nat) (args : dict) (s : Session) :
  ∃ k' s',
    call_nth env i args (create_node k) s = (Ok (create_node k'), s')
    ∧ (rank k ≤ rank k')%nat.
Proof.
  unfold call_nth. destruct (functions (create_node k) !! i) as [f|] eqn:Hf.
  - destruct (dispatch_advances k f args s) as (k' & s' & -> & Hrank).
    { eapply list_elem_of_lookup_2. exact Hf. }
    exists k', s'. split; [reflexivity|].
    destruct (bool_decide _); [subst k'; lia | lia].
  - exists k, s. split; [reflexivity | lia].
Qed.

Lemma run_script_advances (calls : list (nat * dict)) (k : node_kind) (s : Session) :
  ∃ k' s',
    run_script env calls (create_node k) s = (Ok (create_node k'), s')
    ∧ (rank k ≤ rank k')%nat.
Proof.
  revert k s. induction calls as [| [i args] rest IH]; intros k s.
  - exists k, s. split; [reflexivity | lia].
  - simpl. unfold bind.
    destruct (call_nth_advances k i args s) as (k1 & s1 & -> & Hrank1).
    destruct (IH k1 s1) as (k' & s' & -> & Hrank).
    exists k', s'. split; [reflexivity | lia].
Qed.

(** X3. The flow only moves forward. A call of a function of the current
    node returns and either stays (the knowledge-base and finalize actions)
    or moves to a strictly deeper node; so along any sequence of calls the
    depth never decreases, no node is entered again once left, and the
    end-call node is never left. *)
Theorem flow_is_one_directional (k : node_kind) (s : Session) :
  (∀ f args, f ∈ functions (create_node k) →
     ∃ k' s',
       dispatch env (create_node k) f args s = (Ok (create_node k'), s')
       ∧ if bool_decide (fn_handler f ∈ [h_query_knowledge_base;
                                          h_finalize_and_update_crm])
         then k' = k else (rank k < rank k')%nat)
  ∧ (∀ calls,
       ∃ k' s',
         run_script env calls (create_node k) s = (Ok (create_node k'), s')
         ∧ (rank k ≤ rank k')%nat
         ∧ (k = EndCall → k' = EndCall)).
Proof.
  split.
  - intros f args Hf. apply dispatch_advances. exact Hf.
  - intros calls.
    destruct (run_script_advances calls k s) as (k' & s' & Hrun & Hrank).
    exists k', s'. split; [exact Hrun|]. split; [exact Hrank|].
    intros ->. destruct k'; simpl in Hrank; first [reflexivity | lia].
Qed.

End Direction.

Section Facts.

Context (env : Collaborators) (contactId : value).

Lemma create_node_inj (k k' : node_kind) : create_node k = create_node k' → k = k'.
Proof.
  intros Heq.
  assert (Hname := f_equal node_name Heq).
  assert (Hmsg := f_equal task_messages Heq).
  rewrite !create_node_name in Hname.
  destruct k as [| | | | | | [] |], k' as [| | | | | | [] |];
    first [reflexivity | discriminate Hname | vm_compute in Hmsg; discriminate Hmsg].
Qed.

Ltac keep_keys Hpres :=
  let key := fresh "key" in
  let Hkey := fresh "Hkey" in
  intros key Hkey; simpl;
  repeat (apply lookup_insert_is_Some'; right);
  apply Hpres; exact Hkey.

Ltac keep_contact Hcid :=
  simpl; rewrite ?lookup_insert_ne by (intros ?; discriminate); exact Hcid.

Ltac look :=
  unfold not_discussed, meeting_declined, meeting_accepted, Py.get in *; simpl;
  repeat first
    [ rewrite lookup_insert_eq
    | rewrite lookup_insert_ne by (intros ?; discriminate) ];
  simpl.

Lemma dispatch_facts (k : node_kind) (f : FlowsFunctionSchema) (args : dict) (s : Session) :
  f ∈ functions (create_node k) →
  flow_facts contactId k (state s) →
  ∃ k' s',
    dispatch env (create_node k) f args s = (Ok (create_node k'), s')
    ∧ flow_facts contactId k' (state s').
Proof.
  intros Hf (Hpres & Hcid & Hnode).
  assert (Hh : fn_handler f ∈ fn_handler <$> functions (create_node k))
    by (apply list_elem_of_fmap_2; exact Hf).
  rewrite create_node_handlers in Hh.
  unfold dispatch, bind.
  destruct k as [| | | | | | for_meeting |]; simpl in Hh;
    repeat (apply elem_of_cons in Hh as [Hh | Hh]);
    try (inversion Hh; fail);
    rewrite Hh; simpl run_handler;
    try (destruct (query_knowledge_base_run env args s) as (text & new & ->);
         eexists _, _; split; [reflexivity | exact (conj Hpres (conj Hcid Hnode))]).
  - destruct (capture_manager_details_run args s) as [ack ->].
    exists AskProvider. eexists. split; [reflexivity|].
    split; [keep_keys Hpres|]. split; [keep_contact Hcid|].
    destruct Hnode. split; look; assumption.
  - rewrite handle_has_provider_response_run.
    destruct (truthy _) eqn:Hhas.
    + exists AskProviderName. eexists. split; [reflexivity|].
      split; [keep_keys Hpres|]. split; [keep_contact Hcid|].
      destruct Hnode. simpl. repeat split; look; assumption.
    + exists ScenarioBPitch. eexists. split; [reflexivity|].
      split; [keep_keys Hpres|]. split; [keep_contact Hcid|].
      destruct Hnode. simpl. repeat split; look; first [assumption | reflexivity].
  - destruct (capture_provider_name_run args s) as [ack ->].
    exists ScenarioAPitch. eexists. split; [reflexivity|].
    split; [keep_keys Hpres|]. split; [keep_contact Hcid|].
    destruct Hnode as [[] ?]. simpl. repeat split; look; assumption.
  - destruct (truthy (Py.get args "accepts_meeting" (VBool false))) eqn:Hacc.
    + rewrite handle_meeting_response_accepts by exact Hacc.
      exists (CollectEmail true). eexists. split; [reflexivity|].
      split; [keep_keys Hpres|]. split; [keep_contact Hcid|].
      simpl. repeat split; look; try reflexivity;
        destruct (truthy (default VNone (args !! "meeting_date"))) eqn:Hd,
                 (truthy (default VNone (args !! "meeting_time"))) eqn:Ht;
        simpl; rewrite ?append_at_nonempty; first [reflexivity | assumption].
    + rewrite handle_meeting_response_declines by exact Hacc.
      exists OfferEmailSummary. eexists. split; [reflexivity|].
      split; [keep_keys Hpres|]. split; [keep_contact Hcid|].
      simpl. split; look; reflexivity.
  - destruct (truthy (Py.get args "accepts_meeting" (VBool false))) eqn:Hacc.
    + rewrite handle_meeting_response_accepts by exact Hacc.
      exists (CollectEmail true). eexists. split; [reflexivity|].
      split; [keep_keys Hpres|]. split; [keep_contact Hcid|].
      simpl. repeat split; look; try reflexivity;
        destruct (truthy (default VNone (args !! "meeting_date"))) eqn:Hd,
                 (truthy (default VNone (args !! "meeting_time"))) eqn:Ht;
        simpl; rewrite ?append_at_nonempty; first [reflexivity | assumption].
    + rewrite handle_meeting_response_declines by exact Hacc.
      exists OfferEmailSummary. eexists. split; [reflexivity|].
      split; [keep_keys Hpres|]. split; [keep_contact Hcid|].
      simpl. split; look; reflexivity.
  - rewrite handle_email_summary_response_run.
    destruct (truthy _).
    + exists (CollectEmail false). eexists. split; [reflexivity|].
      split; [keep_keys Hpres|]. split; [keep_contact Hcid|].
      destruct Hnode. simpl. repeat split; look; first [assumption | reflexivity].
    + exists EndCall. eexists. split; [reflexivity|].
      split; [keep_keys Hpres|]. split; [keep_contact Hcid|].
      destruct Hnode. simpl. right. split; [split; look; first [assumption | reflexivity]|].
      exists false. look. reflexivity.
  - destruct (capture_email_address_run args s) as [ack ->].
    exists EndCall. eexists. split; [reflexivity|].
    split; [keep_keys Hpres|]. split; [keep_contact Hcid|].
    destruct for_meeting; simpl in *.
    + left. destruct Hnode as (? & ? & ? & ? & ?). repeat split; look; assumption.
    + right. destruct Hnode as [[] ?]. split; [split; look; assumption|].
      exists true. look. assumption.
  - rewrite finalize_and_update_crm_run.
    exists EndCall. eexists. split; [reflexivity | exact (conj Hpres (conj Hcid Hnode))].
Qed.

Lemma reachable_facts (n : NodeConfig) (s : Session) :
  reachable env contactId n s →
  ∃ k, n = create_node k ∧ flow_facts contactId k (state s).
Proof.
  induction 1 as [| n s ctx s' _ IH Hturn | n s f args n' s' _ IH Hf Hcall].
  - exists InitialGreeting. split; [reflexivity|].
    split; [|split; [reflexivity | split; reflexivity]].
    intros key Hkey. unfold state_keys in Hkey.
    repeat (apply elem_of_cons in Hkey as [-> | Hkey]); try (eexists; reflexivity).
    inversion Hkey.
  - destruct IH as (k & -> & Hfacts). exists k. split; [reflexivity|].
    inversion Hturn; subst. exact Hfacts.
  - destruct IH as (k & -> & Hfacts).
    destruct (dispatch_facts k f args s Hf Hfacts) as (k' & s'' & Hrun & Hfacts').
    rewrite Hrun in Hcall. inversion Hcall; subst.
    exists k'. split; [reflexivity | exact Hfacts'].
Qed.

Lemma reachable_node_facts (k : node_kind) (s : Session) :
  reachable env contactId (create_node k) s → flow_facts contactId k (state s).
Proof.
  intros Hreach.
  destruct (reachable_facts _ s Hreach) as (k' & Hk & Hfacts).
  apply create_node_inj in Hk. subst k'. exact Hfacts.
Qed.

End Facts.

Section FactsClaims.

Context (env : Collaborators) (contactId : value).

(** X4. The pitch matches the provider answer. In a session reachable at
    the scenario B pitch the provider flag is false and the current provider
    is the string ["None"]; at the ask-provider-name node and at the scenario
    A pitch the flag is true; and up to the pitch the meeting status is still
    "Not Discussed" with the interest flag false. *)
Theorem pitch_matches_provider_answer (k : node_kind) (s : Session) :
  reachable env contactId (create_node k) s →
  (k = ScenarioBPitch →
   truthy (Py.get (state s) "has_existing_provider" VNone) = false
   ∧ state s !! "current_provider" = Some (VStr "None"))
  ∧ (k = AskProviderName ∨ k = ScenarioAPitch →
     truthy (Py.get (state s) "has_existing_provider" VNone) = true)
  ∧ (rank k ≤ 3 → not_discussed (state s))%nat.
Proof.
  intros Hreach.
  destruct (reachable_node_facts env contactId k s Hreach) as (_ & _ & Hnode).
  split; [|split].
  - intros ->. destruct Hnode as (_ & ? & ?). split; assumption.
  - intros [-> | ->]; apply Hnode.
  - intros Hrank. destruct k as [| | | | | | [] |]; simpl in *; try lia; apply Hnode.
Qed.

Lemma interest_of_facts (k : node_kind) (st : dict) :
  node_facts k st →
  ∃ b, st !! "interested_in_novated_leasing" = Some (VBool b)
       ∧ (b = true ↔ st !! "meeting_status" = Some (VStr "Interested - To Be Scheduled")).
Proof.
  assert (Hnd : ∀ st, not_discussed st → ∃ b,
            st !! "interested_in_novated_leasing" = Some (VBool b)
            ∧ (b = true ↔ st !! "meeting_status"
                          = Some (VStr "Interested - To Be Scheduled"))).
  { intros st0 [Hst Hflag]. exists false. split; [exact Hflag|].
    rewrite Hst. split; discriminate. }
  assert (Hde : ∀ st, meeting_declined st → ∃ b,
            st !! "interested_in_novated_leasing" = Some (VBool b)
            ∧ (b = true ↔ st !! "meeting_status"
                          = Some (VStr "Interested - To Be Scheduled"))).
  { intros st0 [Hst Hflag]. exists false. split; [exact Hflag|].
    rewrite Hst. split; discriminate. }
  assert (Hac : ∀ st, meeting_accepted st → ∃ b,
            st !! "interested_in_novated_leasing" = Some (VBool b)
            ∧ (b = true ↔ st !! "meeting_status"
                          = Some (VStr "Interested - To Be Scheduled"))).
  { intros st0 (Hst & Hflag & _). exists true. split; [exact Hflag|].
    rewrite Hst. split; reflexivity. }
  destruct k as [| | | | | | [] |]; simpl; intros Hnode;
    first [ apply Hnd, Hnode | apply Hde, Hnode | apply Hac, Hnode | idtac ].
  destruct Hnode as [Hnode | [Hnode _]]; [apply Hac, Hnode | apply Hde, Hnode].
Qed.

(** X5. In every reachable session the interest flag is a boolean, true
    exactly when the meeting status is "Interested - To Be Scheduled". So,
    with a CRM that answers, a disconnect at any point of the call sends
    [OPEN_DEAL] and a deal request exactly for a lead that accepted the
    meeting, and [CONNECTED] with no deal otherwise. *)
Theorem lead_status_follows_meeting_status (n : NodeConfig) (s : Session) :
  reachable env contactId n s →
  let accepted :=
    bool_decide (state s !! "meeting_status"
                 = Some (VStr "Interested - To Be Scheduled")) in
  state s !! "interested_in_novated_leasing" = Some (VBool accepted)
  ∧ (crm_answers env →
     status_updates (events_of (on_client_disconnected env contactId) s)
     = [if accepted then OPEN_DEAL else CONNECTED]
     ∧ deal_requests (events_of (on_client_disconnected env contactId) s)
       = if accepted then [contactId] else []).
Proof.
  intros Hreach accepted.
  destruct (reachable_facts env contactId n s Hreach) as (k & _ & _ & _ & Hnode).
  destruct (interest_of_facts k _ Hnode) as (b & Hflag & Hiff).
  assert (Hb : b = accepted).
  { subst accepted. destruct b.
    - symmetry. apply bool_decide_eq_true. apply Hiff. reflexivity.
    - symmetry. apply bool_decide_eq_false. intros H. apply Hiff in H. discriminate. }
  subst b. split; [exact Hflag|].
  intros [_ Hok].
  change (on_client_disconnected env contactId)
    with (session_end env contactId ViaDisconnect).
  rewrite events_of_session_end. simpl. unfold disconnect_events.
  rewrite guarded_sync_answers by exact Hok.
  unfold sync_calls, interested, Py.get. rewrite Hflag. simpl.
  destruct accepted; split; reflexivity.
Qed.

(** X6. A session reaches the end-call node only with the meeting question
    answered: either the meeting was accepted (interest flag true, date, time
    and combined field all non-empty), or it was declined (interest flag
    false) and the summary flag is a boolean. *)
Theorem end_call_outcomes (s : Session) :
  reachable env contactId (create_node EndCall) s →
  meeting_accepted (state s)
  ∨ (meeting_declined (state s)
     ∧ ∃ b, state s !! "send_summary_email" = Some (VBool b)).
Proof.
  intros Hreach.
  destruct (reachable_node_facts env contactId EndCall s Hreach) as (_ & _ & Hnode).
  exact Hnode.
Qed.

(** X7. In every reachable session each key of the initial state is still
    present, so the defaults of [log_lead_data] are never used: the lead data
    it returns are the state's own entries (an unset name is [None], not the
    string ["None"]), and the session is left as it was. *)
Theorem log_lead_data_defaults_unused (n : NodeConfig) (s : Session) :
  reachable env contactId n s →
  (∀ key, key ∈ state_keys → is_Some (state s !! key))
  ∧ log_lead_data s =
    (Ok [("manager_name", Py.get (state s) "manager_name" VNone);
         ("company_name", Py.get (state s) "company_name" VNone);
         ("current_provider", Py.get (state s) "current_provider" VNone);
         ("meeting_status", Py.get (state s) "meeting_status" VNone);
         ("meeting_date", Py.get (state s) "meeting_date" VNone);
         ("meeting_time", Py.get (state s) "meeting_time" VNone);
         ("meeting_day_time", Py.get (state s) "meeting_day_time" VNone);
         ("email_address", Py.get (state s) "email_address" VNone);
         ("interested_in_novated_leasing",
          Py.get (state s) "interested_in_novated_leasing" VNone);
         ("send_summary_email", Py.get (state s) "send_summary_email" VNone)],
     s).
Proof.
  intros Hreach.
  destruct (reachable_facts env contactId n s Hreach) as (k & _ & Hpres & _ & _).
  split; [exact Hpres|].
  unfold log_lead_data, bind, read_state, ret.
  repeat match goal with
    | |- context [Py.get (state s) ?key (VStr ?d)] =>
        rewrite (Py_get_present (state s) key (VStr d) VNone)
          by (apply Hpres; unfold state_keys; set_solver)
    | |- context [Py.get (state s) ?key (VBool ?d)] =>
        rewrite (Py_get_present (state s) key (VBool d) VNone)
          by (apply Hpres; unfold state_keys; set_solver)
    end.
  reflexivity.
Qed.

(** X8. In every reachable session the contact id is the one the call
    started with, and every CRM call of the finalize action is about that
    contact, whatever the CRM answers. *)
Theorem finalize_targets_the_call_contact (n : NodeConfig) (s : Session) (args : dict) :
  reachable env contactId n s →
  state s !! "contact_id" = Some contactId
  ∧ Forall (λ ev, ∀ c r, ev = EvCrm c r → crm_contact c = contactId)
           (events_of (finalize_and_update_crm env args) s).
Proof.
  intros Hreach.
  destruct (reachable_facts env contactId n s Hreach) as (k & _ & _ & Hcid & _).
  split; [exact Hcid|].
  erewrite events_of_run; [| apply finalize_and_update_crm_run | reflexivity].
  unfold finalize_events, Py.get. rewrite Hcid. simpl.
  destruct (truthy contactId); [|constructor].
  destruct (import_hubspot_service env (trace s)).
  { repeat constructor. intros c r Hev. discriminate. }
  unfold guarded_sync.
  pose proof (attempt_shape env
                (sync_calls contactId (finalize_notes (state s)) (state s)) (trace s))
    as Hshape.
  assert (Hcalls : Forall (λ c, crm_contact c = contactId)
                     (sync_calls contactId (finalize_notes (state s)) (state s))).
  { unfold sync_calls. destruct (interested (state s)); repeat constructor. }
  destruct (attempt env (trace s) _) as [evs [e|]].
  - destruct Hshape as (done & c0 & rest & Hsplit & ->).
    rewrite Hsplit in Hcalls. apply Forall_app in Hcalls as [Hdone Hrest].
    apply Forall_inv in Hrest. rename Hrest into Hc0.
    rewrite !Forall_app. split; [split|].
    + apply Forall_fmap. eapply Forall_impl; [exact Hdone|].
      intros c Hc c' r Hev. simpl in Hev. injection Hev as <- _. exact Hc.
    + repeat constructor. intros c' r Hev. injection Hev as <- _. exact Hc0.
    + repeat constructor. intros c' r Hev. discriminate.
  - subst evs. rewrite app_nil_r. apply Forall_fmap.
    eapply Forall_impl; [exact Hcalls|].
    intros c Hc c' r Hev. simpl in Hev. injection Hev as <- _. exact Hc.
Qed.

End FactsClaims.

(** X9. After an accepted meeting the date, the time and the combined field
    of the state are never empty ([None], [False], [0] or [""]), whatever
    the arguments were. *)
Theorem accepted_meeting_fields_never_empty (args : dict) (s : Session) :
  truthy (Py.get args "accepts_meeting" (VBool false)) = true →
  let st' := state (handle_meeting_response args s).2 in
  truthy (Py.get st' "meeting_date" VNone) = true
  ∧ truthy (Py.get st' "meeting_time" VNone) = true
  ∧ truthy (Py.get st' "meeting_day_time" VNone) = true.
Proof.
  intros Hacc st'. subst st'.
  rewrite handle_meeting_response_accepts by exact Hacc.
  unfold Py.get. simpl.
  repeat split;
    repeat first
      [ rewrite lookup_insert_eq
      | rewrite lookup_insert_ne by (intros ?; discriminate) ];
    simpl;
    destruct (truthy (default VNone (args !! "meeting_date"))) eqn:Hd,
             (truthy (default VNone (args !! "meeting_time"))) eqn:Ht;
    simpl; rewrite ?append_at_nonempty; first [reflexivity | assumption].
Qed.

Section TeardownEdges.

Context (env : Collaborators).

Ltac crm_cases :=
  repeat match goal with
    | |- context [hubspot env ?tr ?c] => destruct (hubspot env tr c); simpl
    end.

Ltac not_in_list H :=
  repeat (apply elem_of_cons in H as [H | H]; [try discriminate H|]);
  try (inversion H; fail).

Ltac nothing_sent :=
  repeat split; intros;
  match goal with
  | H : _ ∈ _ |- _ => not_in_list H
  | H : _ ≠ _ |- _ => exfalso; apply H; reflexivity
  end.

(** X10. With an empty contact id ([None], the default of
    [initialize_whipsmart_flow], or [""]) the finalize action changes nothing
    and sends nothing, while the disconnect hook still pushes its notes for
    that contact id. *)
Theorem finalize_skips_without_contact_id (contactId : value) (args : dict) (s : Session) :
  Py.get (state s) "contact_id" VNone = contactId →
  truthy contactId = false →
  finalize_and_update_crm env args s = (Ok ("Cheers for your time!", None), s)
  ∧ note_syncs (events_of (on_client_disconnected env contactId) s)
    = [(contactId, disconnect_notes (state s))].
Proof.
  intros Hcid Hfalsy. split.
  - rewrite finalize_and_update_crm_run. unfold finalize_events.
    rewrite Hcid, Hfalsy, app_nil_r. destruct s; reflexivity.
  - erewrite events_of_run; [| apply on_client_disconnected_run | reflexivity].
    unfold disconnect_events, note_syncs. rewrite omap_app. simpl. rewrite app_nil_r.
    apply guarded_sync_note_syncs.
Qed.

(** X11. If the import of the CRM module raises, the finalize action logs
    the error, sends nothing to the CRM and still returns its
    acknowledgment. *)
Theorem finalize_import_failure (args : dict) (s : Session) (e : exn) :
  truthy (Py.get (state s) "contact_id" VNone) = true →
  import_hubspot_service env (trace s) = Some e →
  finalize_and_update_crm env args s =
  (Ok ("Cheers for your time!", None),
   {| state := state s;
      current_context := current_context s;
      trace := trace s ++ [EvLogError ("Error updating CRM: " ++ e)] |}).
Proof.
  intros Hcid Himport. rewrite finalize_and_update_crm_run.
  unfold finalize_events. rewrite Hcid, Himport. reflexivity.
Qed.

Lemma guarded_sync_order (tr : list event) (error_prefix : string)
    (cid : value) (notes : list (string * value)) (st : dict) :
  let new := guarded_sync env tr error_prefix (sync_calls cid notes st) in
  (∀ c n e, EvCrm (add_call_notes c n) (Some e) ∈ new →
            status_updates new = [] ∧ deal_requests new = [])
  ∧ (∀ c status e, EvCrm (update_contact_lead_status c status) (Some e) ∈ new →
                   deal_requests new = [])
  ∧ (status_updates new ≠ [] → EvCrm (add_call_notes cid notes) None ∈ new)
  ∧ (deal_requests new ≠ [] →
     EvCrm (update_contact_lead_status cid OPEN_DEAL) None ∈ new).
Proof.
  unfold guarded_sync, sync_calls. simpl.
  destruct (interested st); simpl; crm_cases;
    (split; [intros c n e0 Hin; first [split; reflexivity | not_in_list Hin]|]);
    (split; [intros c status e0 Hin; first [reflexivity | not_in_list Hin]|]);
    (split; [intros Hne; first [contradiction | set_solver]|]);
    intros Hne; first [contradiction | set_solver].
Qed.

(** X12. On both teardown paths the CRM calls are ordered and stop at the
    first failure: if the notes call raises, no lead status and no deal is
    sent; if the status call raises, no deal is requested; a status is sent
    only after the notes call returned, and a deal only after the status
    [OPEN_DEAL] was accepted. *)
Theorem sync_stops_at_first_failure (contactId : value) (p : teardown_path) (s : Session) :
  let new := events_of (session_end env contactId p) s in
  (∀ c n e, EvCrm (add_call_notes c n) (Some e) ∈ new →
            status_updates new = [] ∧ deal_requests new = [])
  ∧ (∀ c status e, EvCrm (update_contact_lead_status c status) (Some e) ∈ new →
                   deal_requests new = [])
  ∧ (status_updates new ≠ [] → ∃ c n, EvCrm (add_call_notes c n) None ∈ new)
  ∧ (deal_requests new ≠ [] →
     ∃ c, EvCrm (update_contact_lead_status c OPEN_DEAL) None ∈ new).
Proof.
  intros new. subst new. rewrite events_of_session_end.
  destruct p; simpl; unfold disconnect_events, finalize_events.
  - match goal with |- context [guarded_sync env ?tr ?p (sync_calls ?c ?n ?st)] =>
      destruct (guarded_sync_order tr p c n st) as (H1 & H2 & H3 & H4);
      set (sync := guarded_sync env tr p (sync_calls c n st)) in *
    end.
    assert (Hst : status_updates (sync ++ [EvTaskCancel]) = status_updates sync)
      by (unfold status_updates; rewrite omap_app; apply app_nil_r).
    assert (Hde : deal_requests (sync ++ [EvTaskCancel]) = deal_requests sync)
      by (unfold deal_requests; rewrite omap_app; apply app_nil_r).
    rewrite Hst, Hde.
    split; [|split; [|split]].
    + intros c n e Hin. apply (H1 c n e).
      apply elem_of_app in Hin as [Hin | Hin]; [exact Hin | not_in_list Hin].
    + intros c status e Hin. apply (H2 c status e).
      apply elem_of_app in Hin as [Hin | Hin]; [exact Hin | not_in_list Hin].
    + intros Hne. eexists _, _. apply elem_of_app. left. exact (H3 Hne).
    + intros Hne. eexists. apply elem_of_app. left. exact (H4 Hne).
  - destruct (truthy (Py.get (state s) "contact_id" VNone)).
    2: { nothing_sent. }
    destruct (import_hubspot_service env (trace s)).
    { nothing_sent. }
    match goal with |- context [guarded_sync env ?tr ?p (sync_calls ?c ?n ?st)] =>
      destruct (guarded_sync_order tr p c n st) as (H1 & H2 & H3 & H4)
    end.
    split; [exact H1|]. split; [exact H2|]. split; [eauto | eauto].
Qed.

Lemma guarded_sync_no_cancel (tr : list event) (error_prefix : string)
    (calls : list crm_call) :
  EvTaskCancel ∉ guarded_sync env tr error_prefix calls.
Proof.
  unfold guarded_sync. pose proof (attempt_shape env calls tr) as Hshape.
  destruct (attempt env tr calls) as [evs [e|]].
  - destruct Hshape as (done & c & rest & _ & ->).
    rewrite !elem_of_app, list_elem_of_fmap, !list_elem_of_singleton.
    intros [[(x & Hx & _) | Hx] | Hx]; discriminate.
  - subst evs. rewrite app_nil_r, list_elem_of_fmap.
    intros (x & Hx & _). discriminate.
Qed.

(** X13. The disconnect hook never raises and leaves the session state as
    it was; whatever the CRM does, it cancels the pipeline task exactly once,
    as its last action. *)
Theorem disconnect_always_cancels_the_task (contactId : value) (s : Session) :
  ∃ sync,
    on_client_disconnected env contactId s =
    (Ok tt,
     {| state := state s;
        current_context := current_context s;
        trace := trace s ++ sync ++ [EvTaskCancel] |})
    ∧ EvTaskCancel ∉ sync.
Proof.
  eexists. split; [apply on_client_disconnected_run|].
  apply guarded_sync_no_cancel.
Qed.

(** X14. The notes pushed by the disconnect hook are those pushed by the
    finalize action for the same state without the "Meeting Date" and
    "Meeting Time" lines, in the same order. *)
Theorem disconnect_notes_omit_date_and_time (contactId : value) (s : Session) :
  Py.get (state s) "contact_id" VNone = contactId →
  truthy contactId = true →
  import_hubspot_service env (trace s) = None →
  ∃ notes,
    note_syncs (events_of (session_end env contactId ViaFinalize) s) = [(contactId, notes)]
    ∧ notes.*1 =
      ["Manager Name"; "Company Name"; "Current Provider"; "Meeting Status";
       "Meeting Date"; "Meeting Time"; "Meeting Day/Time"; "Email Address";
       "Interested"; "Has Existing Provider"]
    ∧ note_syncs (events_of (session_end env contactId ViaDisconnect) s)
      = [(contactId,
          List.filter
            (λ entry, negb (bool_decide (entry.1 ∈ ["Meeting Date"; "Meeting Time"])))
            notes)].
Proof.
  intros Hcid Htruthy Himport.
  exists (finalize_notes (state s)).
  rewrite !events_of_session_end. simpl. unfold finalize_events, disconnect_events.
  rewrite Hcid, Htruthy, Himport.
  split; [apply guarded_sync_note_syncs|]. split; [reflexivity|].
  unfold note_syncs at 1. rewrite omap_app. simpl. rewrite app_nil_r.
  fold (note_syncs (guarded_sync env (trace s)
          "Error processing lead data on disconnect: "
          (sync_calls contactId (disconnect_notes (state s)) (state s)))).
  rewrite guarded_sync_note_syncs. reflexivity.
Qed.

End TeardownEdges.

(** ** The websocket entry point *)

Lemma bot_run_inv (parsed : result CallData) (run_bot : value → option exn)
    (stream_sid call_sid c : value) :
  BotRunBot stream_sid call_sid c ∈ (bot parsed run_bot).2 →
  truthy c = true
  ∧ ∃ call_data body,
      parsed = Ok call_data
      ∧ cd_body call_data = Some body
      ∧ body !! "contactId" = Some c
      ∧ cd_stream_id call_data = Some stream_sid
      ∧ cd_call_id call_data = Some call_sid.
Proof.
  unfold bot. destruct parsed as [call_data | e]; simpl.
  2: { intros Hin. apply list_elem_of_singleton in Hin. discriminate. }
  destruct call_data as [[body|] stream call]; simpl.
  2: { intros Hin. apply list_elem_of_singleton in Hin. discriminate. }
  destruct (bool_decide (body = ∅)); simpl.
  { intros Hin. apply list_elem_of_singleton in Hin. discriminate. }
  destruct (truthy (Py.get body "contactId" VNone)) eqn:Htruthy; simpl.
  2: { intros Hin. apply list_elem_of_singleton in Hin. discriminate. }
  destruct stream as [stream|]; simpl.
  2: { intros Hin. apply list_elem_of_singleton in Hin. discriminate. }
  destruct call as [call|]; simpl.
  2: { intros Hin. apply list_elem_of_singleton in Hin. discriminate. }
  assert (Hget : body !! "contactId" = Some (Py.get body "contactId" VNone)).
  { unfold Py.get in *. destruct (body !! "contactId"); [reflexivity | discriminate]. }
  destruct (run_bot _); simpl; intros Hin.
  - apply elem_of_cons in Hin as [Hin | Hin].
    + injection Hin as -> -> ->. split; [exact Htruthy|]. eauto 10.
    + apply list_elem_of_singleton in Hin. discriminate.
  - apply list_elem_of_singleton in Hin.
    injection Hin as -> -> ->. split; [exact Htruthy|]. eauto 10.
Qed.

(** X15. [bot] starts the pipeline only for a non-empty contact id, the one
    under ["contactId"] in the body of the call data; with no body, an empty
    body or an empty contact id it returns after one error line, without
    raising and without starting anything. *)
Theorem bot_runs_only_with_contact_id (parsed : result CallData)
    (run_bot : value → option exn) :
  (∀ stream_sid call_sid c,
     BotRunBot stream_sid call_sid c ∈ (bot parsed run_bot).2 →
     truthy c = true
     ∧ ∃ call_data body,
         parsed = Ok call_data ∧ cd_body call_data = Some body
         ∧ body !! "contactId" = Some c)
  ∧ (∀ call_data,
       parsed = Ok call_data →
       truthy (Py.get (default ∅ (cd_body call_data)) "contactId" VNone) = false →
       (bot parsed run_bot).1 = Ok tt
       ∧ ∃ msg, (bot parsed run_bot).2 = [BotLogError msg]).
Proof.
  split.
  - intros stream_sid call_sid c Hin.
    destruct (bot_run_inv parsed run_bot stream_sid call_sid c Hin)
      as (Htruthy & call_data & body & -> & Hbody & Hc & _).
    split; [exact Htruthy | eauto].
  - intros call_data -> Hfalsy. unfold bot.
    destruct (bool_decide _); simpl; [eauto|].
    rewrite Hfalsy. simpl. eauto.
Qed.


(** ** Acknowledgements *)

Lemma random_choice_acknowledgement (r : nat) :
  ∃ message,
    random_choice r ACKNOWLEDGEMENTS_CONTEXTUAL = Ok message
    ∧ message ∈ ACKNOWLEDGEMENTS_CONTEXTUAL.
Proof.
  unfold random_choice.
  destruct (ACKNOWLEDGEMENTS_CONTEXTUAL !! (r mod length ACKNOWLEDGEMENTS_CONTEXTUAL))
    as [message|] eqn:Hlookup.
  - exists message. split; [reflexivity|].
    eapply list_elem_of_lookup_2. exact Hlookup.
  - apply lookup_ge_None in Hlookup.
    pose proof (Nat.mod_upper_bound r (length ACKNOWLEDGEMENTS_CONTEXTUAL)) as Hlt.
    change (length ACKNOWLEDGEMENTS_CONTEXTUAL) with 10%nat in *. lia.
Qed.

(** X17. [on_function_calls_started] speaks one acknowledgement per
    knowledge-base call among the function calls, none for any other
    function, and each one is taken from the fixed list. *)
Theorem function_call_acknowledgements (draws : list nat) (function_calls : list string) :
  ∃ frames,
    on_function_calls_started draws function_calls = Ok frames
    ∧ length frames
      = length (List.filter (λ name, String.eqb name "query_knowledge_base")
                            function_calls)
    ∧ Forall (λ message, message ∈ ACKNOWLEDGEMENTS_CONTEXTUAL) frames.
Proof.
  revert draws. induction function_calls as [| name rest IH]; intros draws; simpl.
  - exists []. repeat split. constructor.
  - destruct (String.eqb name "query_knowledge_base").
    + destruct (random_choice_acknowledgement (default 0%nat (head draws)))
        as (message & -> & Hin).
      destruct (IH (tail draws)) as (frames & -> & Hlen & Hall).
      exists (message :: frames). simpl. repeat split; [lia | constructor; assumption].
    + apply IH.
Qed.

(** X18. Every session [bot] starts has a non-empty contact id, and no
    handler changes it: in any session reachable in a call that [bot]
    started, the finalize action pushes the notes for that contact exactly
    once, provided the CRM module can be imported. *)
Theorem bot_sessions_always_sync (parsed : result CallData) (run_bot : value → option exn)
    (stream_sid call_sid contactId : value) (env : Collaborators)
    (n : NodeConfig) (s : Session) (args : dict) :
  BotRunBot stream_sid call_sid contactId ∈ (bot parsed run_bot).2 →
  reachable env contactId n s →
  import_hubspot_service env (trace s) = None →
  note_syncs (events_of (finalize_and_update_crm env args) s)
  = [(contactId, finalize_notes (state s))].
Proof.
  intros Hrun Hreach Himport.
  destruct (bot_run_inv parsed run_bot stream_sid call_sid contactId Hrun)
    as (Htruthy & _).
  destruct (reachable_facts env contactId n s Hreach) as (k & _ & _ & Hcid & _).
  erewrite events_of_run; [| apply finalize_and_update_crm_run | reflexivity].
  unfold finalize_events, Py.get. rewrite Hcid. simpl.
  rewrite Htruthy, Himport. apply guarded_sync_note_syncs.
Qed.

(** ** The further properties on concrete sessions *)

Lemma pitch_b_script_reachable :
  reachable env_ok (VStr "c-1") (create_node ScenarioBPitch)
    (run_script env_ok pitch_b_script create_initial_greeting_node
       (initialize_whipsmart_flow (VStr "c-1"))).2.
Proof.
  apply reachable_run_script; [apply reach_connected|].
  vm_compute. reflexivity.
Qed.

Lemma declined_script_reachable :
  reachable env_ok (VStr "c-1") (create_node EndCall)
    (run_script env_ok declined_script create_initial_greeting_node
       (initialize_whipsmart_flow (VStr "c-1"))).2.
Proof.
  apply reachable_run_script; [apply reach_connected|].
  vm_compute. reflexivity.
Qed.

Lemma pitch_matches_provider_answer_witness :
  let s := (run_script env_ok pitch_b_script create_initial_greeting_node
              (initialize_whipsmart_flow (VStr "c-1"))).2 in
  truthy (Py.get (state s) "has_existing_provider" VNone) = false
  ∧ state s !! "current_provider" = Some (VStr "None").
Proof.
  intros s.
  exact (proj1 (pitch_matches_provider_answer env_ok (VStr "c-1") ScenarioBPitch s
                  pitch_b_script_reachable) eq_refl).
Defined.

Lemma lead_status_follows_meeting_status_witness :
  let s := (run_script env_ok accepted_script create_initial_greeting_node
              (initialize_whipsmart_flow (VStr "c-1"))).2 in
  state s !! "interested_in_novated_leasing" = Some (VBool true)
  ∧ status_updates (events_of (on_client_disconnected env_ok (VStr "c-1")) s)
    = [OPEN_DEAL].
Proof.
  intros s.
  destruct (lead_status_follows_meeting_status env_ok (VStr "c-1") _ s
              accepted_script_reachable) as [Hflag Hsync].
  split; [exact Hflag | exact (proj1 (Hsync env_ok_answers))].
Defined.

Lemma end_call_outcomes_witness :
  let s := (run_script env_ok declined_script create_initial_greeting_node
              (initialize_whipsmart_flow (VStr "c-1"))).2 in
  meeting_accepted (state s)
  ∨ (meeting_declined (state s)
     ∧ ∃ b, state s !! "send_summary_email" = Some (VBool b)).
Proof.
  exact (end_call_outcomes env_ok (VStr "c-1") _ declined_script_reachable).
Defined.

Lemma log_lead_data_defaults_unused_witness :
  (log_lead_data (initialize_whipsmart_flow (VStr "c-1"))).1 =
  Ok [("manager_name", VNone);
      ("company_name", VNone);
      ("current_provider", VNone);
      ("meeting_status", VStr "Not Discussed");
      ("meeting_date", VNone);
      ("meeting_time", VNone);
      ("meeting_day_time", VNone);
      ("email_address", VNone);
      ("interested_in_novated_leasing", VBool false);
      ("send_summary_email", VBool false)].
Proof.
  rewrite (proj2 (log_lead_data_defaults_unused env_ok (VStr "c-1") _ _
                    (reach_connected env_ok (VStr "c-1")))).
  reflexivity.
Defined.

Lemma finalize_targets_the_call_contact_witness :
  let s := (run_script env_ok declined_script create_initial_greeting_node
              (initialize_whipsmart_flow (VStr "c-1"))).2 in
  state s !! "contact_id" = Some (VStr "c-1")
  ∧ Forall (λ ev, ∀ c r, ev = EvCrm c r → crm_contact c = VStr "c-1")
           (events_of (finalize_and_update_crm env_ok ∅) s).
Proof.
  exact (finalize_targets_the_call_contact env_ok (VStr "c-1") _ _ ∅
           declined_script_reachable).
Defined.

Lemma accepted_meeting_fields_never_empty_witness :
  let st' := state (handle_meeting_response
                      {[ "accepts_meeting" := VBool true; "meeting_date" := VStr "" ]}
                      (initialize_whipsmart_flow (VStr "c-1"))).2 in
  truthy (Py.get st' "meeting_date" VNone) = true
  ∧ truthy (Py.get st' "meeting_time" VNone) = true
  ∧ truthy (Py.get st' "meeting_day_time" VNone) = true.
Proof.
  exact (accepted_meeting_fields_never_empty
           {[ "accepts_meeting" := VBool true; "meeting_date" := VStr "" ]}
           (initialize_whipsmart_flow (VStr "c-1")) eq_refl).
Defined.

Lemma finalize_skips_without_contact_id_witness :
  let s := initialize_whipsmart_flow VNone in
  finalize_and_update_crm env_ok ∅ s = (Ok ("Cheers for your time!", None), s)
  ∧ note_syncs (events_of (on_client_disconnected env_ok VNone) s)
    = [(VNone, disconnect_notes (state s))].
Proof.
  exact (finalize_skips_without_contact_id env_ok VNone ∅
           (initialize_whipsmart_flow VNone) eq_refl eq_refl).
Defined.

Lemma finalize_import_failure_witness :
  let s := initialize_whipsmart_flow (VStr "c-1") in
  finalize_and_update_crm env_no_module ∅ s =
  (Ok ("Cheers for your time!", None),
   {| state := state s;
      current_context := current_context s;
      trace := trace s
               ++ [EvLogError ("Error updating CRM: "
                               ++ "No module named 'service.hubspot_service'")] |}).
Proof.
  exact (finalize_import_failure env_no_module ∅
           (initialize_whipsmart_flow (VStr "c-1")) _ eq_refl eq_refl).
Defined.

Lemma disconnect_notes_omit_date_and_time_witness :
  let s := (run_script env_ok accepted_script create_initial_greeting_node
              (initialize_whipsmart_flow (VStr "c-1"))).2 in
  ∃ notes,
    note_syncs (events_of (session_end env_ok (VStr "c-1") ViaFinalize) s)
      = [(VStr "c-1", notes)]
    ∧ notes.*1 =
      ["Manager Name"; "Company Name"; "Current Provider"; "Meeting Status";
       "Meeting Date"; "Meeting Time"; "Meeting Day/Time"; "Email Address";
       "Interested"; "Has Existing Provider"]
    ∧ note_syncs (events_of (session_end env_ok (VStr "c-1") ViaDisconnect) s)
      = [(VStr "c-1",
          List.filter
            (λ entry, negb (bool_decide (entry.1 ∈ ["Meeting Date"; "Meeting Time"])))
            notes)].
Proof.
  intros s.
  exact (disconnect_notes_omit_date_and_time env_ok (VStr "c-1") s
           eq_refl eq_refl eq_refl).
Defined.

Lemma call_data_c1_runs :
  BotRunBot (VStr "MZ1") (VStr "CA1") (VStr "c-1")
    ∈ (bot (Ok call_data_c1) (λ _, None)).2.
Proof. vm_compute. apply list_elem_of_singleton. reflexivity. Qed.


Lemma bot_sessions_always_sync_witness :
  let s := (run_script env_ok declined_script create_initial_greeting_node
              (initialize_whipsmart_flow (VStr "c-1"))).2 in
  note_syncs (events_of (finalize_and_update_crm env_ok ∅) s)
  = [(VStr "c-1", finalize_notes (state s))].
Proof.
  exact (bot_sessions_always_sync (Ok call_data_c1) (λ _, None)
           (VStr "MZ1") (VStr "CA1") (VStr "c-1") env_ok _ _ ∅
           call_data_c1_runs declined_script_reachable eq_refl).
Defined.

(** ** The campaign server *)

Section ServerProps.

Context (senv : ServerEnv).

Lemma sent_by_run {A} (m : SM A) (sv : Server) (r : result A) (sv' : Server)
    (new : list server_event) :
  m sv = (r, sv') → outbox sv' = (outbox sv ++ new)%list → sent_by m sv = new.
Proof.
  intros Hrun Hout. unfold sent_by. rewrite Hrun. simpl.
  rewrite Hout. apply drop_app_length.
Qed.

(** One call of the batch: a result for this call, whatever Twilio does. *)
Lemma batch_step (twimlurl : string) (call : CallSpec) (results : list CallResult)
    (sv : Server) :
  ∃ r new,
    stry
      (do! callsid := make_twilio_call senv (phone_number call)
                        (env_value (environ senv !! "TWILIO_PHONE_NUMBER")) twimlurl in
       sret (results ++ [call_initiated (phone_number call) callsid (body call)])%list)
      (λ e, sret (results ++ [call_failed (phone_number call) e])%list) sv
    = (Ok (results ++ [r])%list,
       {| call_body_data := call_body_data sv;
          call_results := call_results sv;
          outbox := outbox sv ++ new |})
    ∧ match r with
      | call_initiated p _ b => p = phone_number call ∧ b = body call
      | call_failed p _ => p = phone_number call
      end
    ∧ (length new ≤ 1)%nat
    ∧ Forall (λ ev, ∃ request outcome,
                ev = SvTwilio request outcome
                ∧ tw_to request = phone_number call
                ∧ tw_url request = twimlurl
                ∧ tw_status_callback request
                  = default "localhost:7860" (environ senv !! "API_BASE_URL")
                    ++ "/call_status") new
    ∧ (env_truthy (environ senv !! "TWILIO_ACCOUNT_SID")
       && env_truthy (environ senv !! "TWILIO_AUTH_TOKEN") = false →
       r = call_failed (phone_number call) "Missing Twilio credentials" ∧ new = [])
    ∧ (env_truthy (environ senv !! "TWILIO_ACCOUNT_SID")
       && env_truthy (environ senv !! "TWILIO_AUTH_TOKEN") = true →
       twilio_requests new
       = [{| tw_to := phone_number call;
             tw_from := env_value (environ senv !! "TWILIO_PHONE_NUMBER");
             tw_url := twimlurl;
             tw_status_callback :=
               default "localhost:7860" (environ senv !! "API_BASE_URL")
               ++ "/call_status" |}]).
Proof.
  unfold stry, sbind, make_twilio_call, sret, sraise, twilio_calls_create.
  destruct (env_truthy (environ senv !! "TWILIO_ACCOUNT_SID")),
           (env_truthy (environ senv !! "TWILIO_AUTH_TOKEN")); simpl;
    try (eexists (call_failed _ _), []; rewrite app_nil_r; destruct sv; simpl;
         repeat split; first [discriminate | eauto]; fail).
  destruct (calls_create senv (outbox sv) _) as [sid | e]; simpl.
  - eexists (call_initiated _ _ _), [_].
    repeat split; simpl; first [lia | discriminate | idtac].
    repeat constructor. eexists _, _. repeat split.
  - eexists (call_failed _ _), [_].
    repeat split; simpl; first [lia | discriminate | idtac].
    repeat constructor. eexists _, _. repeat split.
Qed.

Lemma batch_loop (twimlurl : string) (calls : list CallSpec) (acc : list CallResult)
    (sv : Server) :
  ∃ rs new,
    sfor calls acc
      (λ call results,
       stry
         (do! callsid := make_twilio_call senv (phone_number call)
                           (env_value (environ senv !! "TWILIO_PHONE_NUMBER"))
                           twimlurl in
          sret (results ++ [call_initiated (phone_number call) callsid (body call)])%list)
         (λ e, sret (results ++ [call_failed (phone_number call) e])%list)) sv
    = (Ok (acc ++ rs)%list,
       {| call_body_data := call_body_data sv;
          call_results := call_results sv;
          outbox := outbox sv ++ new |})
    ∧ Forall2 (λ call r,
               match r with
               | call_initiated p _ b => p = phone_number call ∧ b = body call
               | call_failed p _ => p = phone_number call
               end) calls rs
    ∧ (length new ≤ length calls)%nat
    ∧ Forall (λ ev, ∃ request outcome,
                ev = SvTwilio request outcome
                ∧ tw_to request ∈ phone_number <$> calls
                ∧ tw_url request = twimlurl
                ∧ tw_status_callback request
                  = default "localhost:7860" (environ senv !! "API_BASE_URL")
                    ++ "/call_status") new
    ∧ (env_truthy (environ senv !! "TWILIO_ACCOUNT_SID")
       && env_truthy (environ senv !! "TWILIO_AUTH_TOKEN") = false →
       rs = (λ call, call_failed (phone_number call) "Missing Twilio credentials") <$> calls
       ∧ new = [])
    ∧ (env_truthy (environ senv !! "TWILIO_ACCOUNT_SID")
       && env_truthy (environ senv !! "TWILIO_AUTH_TOKEN") = true →
       twilio_requests new
       = (λ call,
          {| tw_to := phone_number call;
             tw_from := env_value (environ senv !! "TWILIO_PHONE_NUMBER");
             tw_url := twimlurl;
             tw_status_callback :=
               default "localhost:7860" (environ senv !! "API_BASE_URL")
               ++ "/call_status" |}) <$> calls).
Proof.
  revert acc sv. induction calls as [| call rest IH]; intros acc sv.
  - exists [], []. rewrite !app_nil_r. destruct sv. simpl.
    repeat split; first [constructor | lia | reflexivity].
  - cbn [sfor]. unfold sbind at 1.
    destruct (batch_step twimlurl call acc sv)
      as (r & new & -> & Hr & Hlen & Hreq & Hcred & Hsent).
    destruct (IH (acc ++ [r])%list
                {| call_body_data := call_body_data sv;
                   call_results := call_results sv;
                   outbox := outbox sv ++ new |})
      as (rs & new' & -> & Hrs & Hlen' & Hreq' & Hcred' & Hsent').
    exists (r :: rs), (new ++ new')%list. simpl.
    rewrite <- !app_assoc. simpl.
    split; [reflexivity|]. split; [constructor; assumption|].
    split; [rewrite length_app; lia|].
    split.
    { apply Forall_app. split.
      - eapply Forall_impl; [exact Hreq|].
        intros ev (request & outcome & -> & Hto & Hurl & Hcb).
        exists request, outcome. rewrite Hto.
        repeat split; [apply elem_of_cons; left; reflexivity | assumption | assumption].
      - eapply Forall_impl; [exact Hreq'|].
        intros ev (request & outcome & -> & Hto & Hurl & Hcb).
        exists request, outcome.
        repeat split; [apply elem_of_cons; right; exact Hto | assumption | assumption]. }
    split.
    { intros Hno. destruct (Hcred Hno) as [-> ->]. destruct (Hcred' Hno) as [-> ->].
      split; reflexivity. }
    intros Hyes. unfold twilio_requests in *. rewrite omap_app.
    rewrite (Hsent Hyes), (Hsent' Hyes). reflexivity.
Qed.

(** X19. With [API_BASE_URL] set, [batch_outbound_call] never raises,
    whatever Twilio answers: it returns one result per call of its list, in
    order and for the same phone number, an initiated one with the body of
    its call. It contacts Twilio at most once per call, each time for a
    number of the list and with the TwiML and status URLs under
    [API_BASE_URL], and leaves the two dictionaries of the server alone. *)
Theorem batch_outbound_call_one_result_per_call (calls : list CallSpec) (sv : Server)
    (host : string) :
  environ senv !! "API_BASE_URL" = Some host →
  host ≠ "" →
  ∃ results new,
    batch_outbound_call senv calls sv =
    (Ok results,
     {| call_body_data := call_body_data sv;
        call_results := call_results sv;
        outbox := outbox sv ++ new |})
    ∧ Forall2 (λ call r,
               match r with
               | call_initiated p _ b => p = phone_number call ∧ b = body call
               | call_failed p _ => p = phone_number call
               end) calls results
    ∧ length results = length calls
    ∧ (length new ≤ length calls)%nat
    ∧ Forall (λ ev, ∃ request outcome,
                ev = SvTwilio request outcome
                ∧ tw_to request ∈ phone_number <$> calls
                ∧ tw_url request = host ++ "/twiml"
                ∧ tw_status_callback request = host ++ "/call_status") new.
Proof.
  intros Hhost Hne. unfold batch_outbound_call. rewrite Hhost.
  assert (Htruthy : env_truthy (Some host) = true).
  { simpl. destruct (String.eqb_spec host ""); [contradiction | reflexivity]. }
  rewrite Htruthy. cbv zeta.
  destruct (batch_loop (host ++ "/twiml") calls [] sv)
    as (rs & new & Hrun & Hrs & Hlen & Hreq & _ & _).
  rewrite Hhost in Hreq.
  exists rs, new. split; [exact Hrun|]. split; [exact Hrs|].
  split; [symmetry; eapply Forall2_length; exact Hrs|]. split; [exact Hlen | exact Hreq].
Qed.

(** X20. Without [TWILIO_ACCOUNT_SID] or [TWILIO_AUTH_TOKEN] the batch
    contacts Twilio for no call: every result is the failure
    [Missing Twilio credentials], and the server is left as it was. *)
Theorem batch_without_credentials_places_no_call (calls : list CallSpec) (sv : Server)
    (host : string) :
  environ senv !! "API_BASE_URL" = Some host →
  host ≠ "" →
  env_truthy (environ senv !! "TWILIO_ACCOUNT_SID")
  && env_truthy (environ senv !! "TWILIO_AUTH_TOKEN") = false →
  batch_outbound_call senv calls sv =
  (Ok ((λ call, call_failed (phone_number call) "Missing Twilio credentials") <$> calls),
   sv).
Proof.
  intros Hhost Hne Hcred. unfold batch_outbound_call. rewrite Hhost.
  assert (Htruthy : env_truthy (Some host) = true).
  { simpl. destruct (String.eqb_spec host ""); [contradiction | reflexivity]. }
  rewrite Htruthy. cbv zeta.
  destruct (batch_loop (host ++ "/twiml") calls [] sv)
    as (rs & new & Hrun & _ & _ & _ & Hno & _).
  destruct (Hno Hcred) as [-> ->]. rewrite Hrun, app_nil_r.
  destruct sv; reflexivity.
Qed.

Lemma collect_calls_spec (m : option Z) (contacts : list Contact)
    (calls_payload : list CallSpec) (contacts_data : list odict) :
  let with_phone := List.filter has_phone contacts in
  let chosen :=
    match m with
    | Some m =>
        if (m =? 0)%Z then with_phone
        else take (Z.to_nat (Z.max 1 (m - Z.of_nat (length calls_payload)))) with_phone
    | None => with_phone
    end in
  collect_calls m contacts calls_payload contacts_data
  = ((calls_payload ++ (call_of <$> chosen))%list,
     (contacts_data ++ (contact_data_of <$> chosen))%list).
Proof.
  revert calls_payload contacts_data.
  induction contacts as [| contact rest IH]; intros calls_payload contacts_data.
  - simpl. destruct m as [m|]; [destruct (m =? 0)%Z|]; simpl;
      rewrite ?take_nil, !app_nil_r; reflexivity.
  - cbv zeta in *. cbn [collect_calls List.filter].
    change (has_phone contact)
      with (truthy (Py.get (c_properties contact) "phone" VNone)).
    destruct (truthy (Py.get (c_properties contact) "phone" VNone)) eqn:Hphone.
    2: { apply IH. }
    destruct m as [m|].
    2: { rewrite IH. simpl. rewrite <- !app_assoc. reflexivity. }
    destruct (m =? 0)%Z eqn:Hzero; simpl.
    { rewrite IH. rewrite <- !app_assoc. reflexivity. }
    rewrite length_app. simpl length.
    destruct (m <=? Z.of_nat (length calls_payload + 1))%Z eqn:Hle.
    + apply Z.leb_le in Hle.
      replace (Z.to_nat (Z.max 1 (m - Z.of_nat (length calls_payload)))) with 1%nat by lia.
      reflexivity.
    + apply Z.leb_gt in Hle.
      rewrite IH. rewrite length_app. simpl length.
      replace (Z.to_nat (Z.max 1 (m - Z.of_nat (length calls_payload))))
        with (S (Z.to_nat (Z.max 1 (m - Z.of_nat (length calls_payload + 1))))) by lia.
      simpl. rewrite <- !app_assoc. reflexivity.
Qed.

Lemma collect_calls_called (m : option Z) (contacts : list Contact) :
  collect_calls m contacts [] []
  = (call_of <$> called_contacts m contacts,
     contact_data_of <$> called_contacts m contacts).
Proof.
  rewrite collect_calls_spec. unfold called_contacts. simpl.
  destruct m as [m|]; [|reflexivity].
  rewrite Z.sub_0_r. reflexivity.
Qed.

Lemma store_and_count_loop (results : list CallResult) (counts : nat * nat) (sv : Server) :
  sfor results counts
    (λ result counts,
     let '(calls_initiated, calls_failed) := counts in
     match result with
     | call_initiated _ call_sid body =>
         do! _ :=
           (if negb (String.eqb call_sid "") && odict_truthy (default [] body) then
              λ sv, (Ok tt,
                     {| call_body_data :=
                          <[call_sid := default [] body]> (call_body_data sv);
                        call_results := call_results sv;
                        outbox := outbox sv |})
            else sret tt) in
         sret (calls_initiated + 1, calls_failed)
     | call_failed _ _ => sret (calls_initiated, calls_failed + 1)
     end) sv
  = (Ok (counts.1 + length (List.filter is_initiated results),
         counts.2 + length (List.filter (λ r, negb (is_initiated r)) results))%nat,
     {| call_body_data := store_bodies results (call_body_data sv);
        call_results := call_results sv;
        outbox := outbox sv |}).
Proof.
  revert counts sv. induction results as [| result rest IH]; intros [i f] sv.
  - simpl. rewrite !Nat.add_0_r. destruct sv; reflexivity.
  - cbn [sfor]. unfold sbind at 1.
    destruct result as [p sid b | p e]; simpl.
    + unfold sbind at 1.
      destruct (negb (String.eqb sid "") && odict_truthy (default [] b)) eqn:Hstore;
        simpl; rewrite IH; simpl; rewrite ?Hstore;
        (apply (f_equal2 pair); [|reflexivity]);
        apply f_equal; apply (f_equal2 pair); lia.
    + rewrite IH. simpl.
      apply (f_equal2 pair); [|reflexivity].
      apply f_equal. apply (f_equal2 pair); lia.
Qed.

Lemma sret_run {A} (a : A) (sv : Server) : sret a sv = (Ok a, sv).
Proof. reflexivity. Qed.

Lemma update_step (contact_id : value) (updated_count : nat) (sv : Server) :
  ∃ n raised,
    stry
      (do! _ := server_crm senv (update_contact_lead_status contact_id ATTEMPTED_TO_CONTACT) in
       sret (updated_count + 1))
      (λ e, sret updated_count) sv
    = (Ok n,
       {| call_body_data := call_body_data sv;
          call_results := call_results sv;
          outbox := outbox sv
                    ++ [SvCrm (update_contact_lead_status contact_id ATTEMPTED_TO_CONTACT)
                              raised] |}).
Proof.
  unfold stry, sbind, server_crm, sret.
  destruct (crm_function senv (outbox sv) _) as [e|]; simpl; eauto.
Qed.

Lemma update_statuses_loop (results : list CallResult) (updated_count : nat) (sv : Server) :
  Forall (λ result, ∀ p sid, result ≠ call_initiated p sid None) results →
  ∃ n new,
    sfor results updated_count
      (λ result updated_count,
       match result with
       | call_initiated _ _ body =>
           match body with
           | None => sraise "'NoneType' object has no attribute 'get'"
           | Some body =>
               if truthy (Odict.get body "contactId" VNone) then
                 stry
                   (do! _ := server_crm senv
                               (update_contact_lead_status
                                  (Odict.get body "contactId" VNone)
                                  ATTEMPTED_TO_CONTACT) in
                    sret (updated_count + 1))
                   (λ e, sret updated_count)
               else sret updated_count
           end
       | call_failed _ _ => sret updated_count
       end) sv
    = (Ok n,
       {| call_body_data := call_body_data sv;
          call_results := call_results sv;
          outbox := outbox sv ++ new |})
    ∧ server_crm_calls new = status_updates_for results
    ∧ twilio_requests new = [].
Proof.
  revert updated_count sv. induction results as [| result rest IH];
    intros updated_count sv Hbodies.
  - exists updated_count, []. rewrite app_nil_r. destruct sv. repeat split.
  - apply Forall_cons_1 in Hbodies as [Hbody Hrest].
    cbn [sfor]. unfold sbind at 1.
    destruct result as [p sid [b|] | p e]; simpl.
    + destruct (truthy (Odict.get b "contactId" VNone)) eqn:Hcid; simpl.
      * destruct (update_step (Odict.get b "contactId" VNone) updated_count sv)
          as (n & raised & ->).
        match goal with |- context [sfor rest n _ ?sv1] =>
          destruct (IH n sv1 Hrest) as (n' & new & -> & Hcrm & Htw) end.
        simpl. eexists n', (_ :: new). rewrite <- app_assoc. simpl.
        split; [reflexivity|]. rewrite Hcrm, Htw. split; reflexivity.
      * destruct (IH updated_count sv Hrest) as (n' & new & Heq & Hcrm & Htw).
        exists n', new. split; [exact Heq|]. split; [|exact Htw].
        rewrite Hcrm. reflexivity.
    + exfalso. exact (Hbody p sid eq_refl).
    + destruct (IH updated_count sv Hrest) as (n' & new & Heq & Hcrm & Htw).
      exists n', new. split; [exact Heq|]. split; [exact Hcrm | exact Htw].
Qed.

Lemma batch_run (calls : list CallSpec) (sv : Server) (host : string) :
  environ senv !! "API_BASE_URL" = Some host →
  host ≠ "" →
  ∃ results new,
    batch_outbound_call senv calls sv =
    (Ok results,
     {| call_body_data := call_body_data sv;
        call_results := call_results sv;
        outbox := outbox sv ++ new |})
    ∧ Forall2 (λ call r,
               match r with
               | call_initiated p _ b => p = phone_number call ∧ b = body call
               | call_failed p _ => p = phone_number call
               end) calls results
    ∧ (length new ≤ length calls)%nat
    ∧ Forall (λ ev, ∃ request outcome,
                ev = SvTwilio request outcome
                ∧ tw_to request ∈ phone_number <$> calls
                ∧ tw_url request = host ++ "/twiml"
                ∧ tw_status_callback request = host ++ "/call_status") new
    ∧ (env_truthy (environ senv !! "TWILIO_ACCOUNT_SID")
       && env_truthy (environ senv !! "TWILIO_AUTH_TOKEN") = true →
       twilio_requests new = request_for senv <$> calls).
Proof.
  intros Hhost Hne. unfold batch_outbound_call. rewrite Hhost.
  assert (Htruthy : env_truthy (Some host) = true).
  { simpl. destruct (String.eqb_spec host ""); [contradiction | reflexivity]. }
  rewrite Htruthy. cbv zeta.
  destruct (batch_loop (host ++ "/twiml") calls [] sv)
    as (rs & new & Hrun & Hrs & Hlen & Hreq & _ & Hsent).
  rewrite Hhost in Hreq, Hsent.
  exists rs, new. split; [exact Hrun|]. split; [exact Hrs|].
  split; [exact Hlen|]. split; [exact Hreq|].
  intros Hcred. rewrite (Hsent Hcred). unfold request_for. rewrite Hhost. reflexivity.
Qed.

Lemma length_omap_le {A B} (f : A → option B) (l : list A) :
  (length (omap f l) ≤ length l)%nat.
Proof.
  induction l as [| x l IH]; simpl; [lia|].
  change (omap f l) with (list_omap A B f l) in IH.
  destruct (f x); simpl; lia.
Qed.

Lemma twilio_events_no_crm (new : list server_event) (P : TwilioRequest → Prop) :
  Forall (λ ev, ∃ request outcome, ev = SvTwilio request outcome ∧ P request) new →
  server_crm_calls new = [].
Proof.
  induction 1 as [| ev new (request & outcome & -> & _) _ IH]; [reflexivity|].
  simpl. exact IH.
Qed.

(** The successful run of [start_campaign]: the contacts are fetched, at
    least one has a phone number, and [API_BASE_URL] is set. *)
Lemma start_campaign_run (campaign_request : CampaignRequest) (sv : Server)
    (contacts : list Contact) (host : string) :
  fetch_contacts_by_lead_status senv (outbox sv) (lead_statuses campaign_request)
    = Ok contacts →
  called_contacts (max_contacts campaign_request) contacts ≠ [] →
  environ senv !! "API_BASE_URL" = Some host →
  host ≠ "" →
  let called := called_contacts (max_contacts campaign_request) contacts in
  ∃ results new_twilio new_crm,
    start_campaign senv campaign_request sv =
    (Ok (CampaignStarted (length contacts) (length called)
           (length (List.filter is_initiated results))
           (length (List.filter (λ r, negb (is_initiated r)) results))
           (update_status_after_call campaign_request)
           (contact_data_of <$> called) results),
     {| call_body_data := store_bodies results (call_body_data sv);
        call_results := call_results sv;
        outbox := outbox sv ++ new_twilio ++ new_crm |})
    ∧ Forall2 (λ contact r,
               match r with
               | call_initiated p _ b =>
                   p = phone_number (call_of contact) ∧ b = body (call_of contact)
               | call_failed p _ => p = phone_number (call_of contact)
               end) called results
    ∧ server_crm_calls new_twilio = []
    ∧ twilio_requests new_crm = []
    ∧ server_crm_calls new_crm
      = (if default false (update_status_after_call campaign_request)
         then status_updates_for results else [])
    ∧ (length (twilio_requests new_twilio) ≤ length called)%nat
    ∧ (env_truthy (environ senv !! "TWILIO_ACCOUNT_SID")
       && env_truthy (environ senv !! "TWILIO_AUTH_TOKEN") = true →
       twilio_requests new_twilio = request_for senv <$> (call_of <$> called)).
Proof.
  intros Hfetch Hcalled Hhost Hne called.
  assert (Hcontacts : contacts ≠ []).
  { intros ->. apply Hcalled. unfold called_contacts. simpl.
    destruct (max_contacts campaign_request) as [m|]; [destruct (m =? 0)%Z|];
      rewrite ?take_nil; reflexivity. }
  destruct (batch_run (call_of <$> called) sv host Hhost Hne)
    as (results & new_tw & Hbatch & Hresults & Hlen & Hreq & Hsent).
  assert (Hbodies : Forall (λ result, ∀ p sid, result ≠ call_initiated p sid None) results).
  { clear -Hresults. apply Forall2_fmap_l in Hresults.
    induction Hresults as [| contact r ? ? Hr _ IH]; constructor; [|exact IH].
    intros p sid ->. destruct Hr as [_ Hr]. discriminate. }
  unfold start_campaign, stry. unfold sbind at 1. rewrite Hfetch.
  destruct contacts as [| contact0 contacts0]; [contradiction|].
  rewrite collect_calls_called. fold called.
  assert (Hnil : called ≠ []) by exact Hcalled.
  clearbody called.
  assert (Hlencalled : length (call_of <$> called) = length called)
    by apply length_fmap.
  assert (Hreqlen : (length (twilio_requests new_tw) ≤ length called)%nat).
  { rewrite <- Hlencalled. etransitivity; [|exact Hlen].
    unfold twilio_requests. apply length_omap_le. }
  apply Forall2_fmap_l in Hresults.
  assert (Hnocrm : server_crm_calls new_tw = []).
  { eapply (twilio_events_no_crm new_tw
              (λ request, tw_to request ∈ phone_number <$> (call_of <$> called)
                          ∧ tw_url request = host ++ "/twiml"
                          ∧ tw_status_callback request = host ++ "/call_status")).
    exact Hreq. }
  destruct (call_of <$> called) as [| call0 calls0] eqn:Hpayload.
  { destruct called; [contradiction | discriminate]. }
  cbv beta iota.
  unfold sbind at 1. rewrite Hbatch.
  unfold sbind at 1. unfold store_and_count. rewrite store_and_count_loop.
  cbn [call_body_data call_results outbox fst snd Nat.add].
  rewrite Hlencalled.
  destruct (update_status_after_call campaign_request) as [[|]|];
    cbn [from_option id].
  - unfold sbind at 1. unfold sbind at 1. unfold update_statuses.
    match goal with |- context [sfor results 0%nat _ ?sv1] =>
      destruct (update_statuses_loop results 0 sv1 Hbodies) as (n & new_crm & Hupd & Hcrm & Htw)
    end.
    cbv zeta. rewrite Hupd. cbn [call_body_data call_results outbox].
    exists results, new_tw, new_crm. rewrite <- app_assoc.
    split; [reflexivity|]. repeat split; assumption.
  - exists results, new_tw, []. rewrite app_nil_r.
    split; [reflexivity|]. repeat split; first [assumption | reflexivity].
  - exists results, new_tw, []. rewrite app_nil_r.
    split; [reflexivity|]. repeat split; first [assumption | reflexivity].
Qed.

Lemma count_initiated_failed (results : list CallResult) :
  (length (List.filter is_initiated results)
   + length (List.filter (λ r, negb (is_initiated r)) results))%nat
  = length results.
Proof.
  induction results as [| r rest IH]; simpl; [reflexivity|].
  destruct (is_initiated r); simpl; lia.
Qed.

Lemma called_contacts_spec (m : option Z) (contacts : list Contact) :
  let called := called_contacts m contacts in
  Forall (λ contact, has_phone contact = true ∧ contact ∈ contacts) called
  ∧ (length called ≤ length contacts)%nat
  ∧ (∀ n, m = Some n → (1 ≤ n)%Z → (Z.of_nat (length called) ≤ n)%Z)
  ∧ (∀ n, m = Some n → (n ≤ -1)%Z → called = take 1 (List.filter has_phone contacts))
  ∧ (m = None ∨ m = Some 0%Z → called = List.filter has_phone contacts).
Proof.
  intros called. subst called. unfold called_contacts.
  assert (Hfilter : Forall (λ contact, has_phone contact = true ∧ contact ∈ contacts)
                      (List.filter has_phone contacts)).
  { apply Forall_forall. intros contact Hin. apply list_elem_of_In in Hin.
    apply filter_In in Hin as [Hin Hphone]. split; [exact Hphone|].
    apply list_elem_of_In. exact Hin. }
  assert (Hlen : (length (List.filter has_phone contacts) ≤ length contacts)%nat).
  { clear. induction contacts as [| c cs IH]; simpl; [lia|].
    destruct (has_phone c); simpl; lia. }
  split; [|split; [|split; [|split]]].
  - destruct m as [m|]; [destruct (m =? 0)%Z|]; try exact Hfilter.
    apply Forall_take. exact Hfilter.
  - destruct m as [m|]; [destruct (m =? 0)%Z|]; try exact Hlen.
    rewrite length_take. lia.
  - intros n -> Hn. destruct (n =? 0)%Z eqn:Hz; [lia|].
    rewrite length_take. lia.
  - intros n -> Hn. destruct (n =? 0)%Z eqn:Hz; [lia|].
    replace (Z.to_nat (Z.max 1 n)) with 1%nat by lia. reflexivity.
  - intros [-> | ->]; reflexivity.
Qed.

(** X21. Without [API_BASE_URL] (unset or empty) [batch_outbound_call]
    raises before its loop, for any list of calls: [host] is read without
    having been bound. A campaign with a contact to call then ends in the
    500 [Campaign failed: ...], with nothing sent and nothing stored. *)
Theorem campaign_fails_without_api_base_url (campaign_request : CampaignRequest)
    (sv : Server) (contacts : list Contact) :
  env_truthy (environ senv !! "API_BASE_URL") = false →
  fetch_contacts_by_lead_status senv (outbox sv) (lead_statuses campaign_request)
    = Ok contacts →
  called_contacts (max_contacts campaign_request) contacts ≠ [] →
  (∀ calls, batch_outbound_call senv calls sv = (Raise unbound_host, sv))
  ∧ start_campaign senv campaign_request sv
    = (Raise ("Campaign failed: " ++ unbound_host), sv).
Proof.
  intros Hunset Hfetch Hcalled.
  assert (Hbatch : ∀ calls, batch_outbound_call senv calls sv = (Raise unbound_host, sv)).
  { intros calls. unfold batch_outbound_call. rewrite Hunset. reflexivity. }
  split; [exact Hbatch|].
  unfold start_campaign, stry. unfold sbind at 1. rewrite Hfetch.
  destruct contacts as [| contact0 contacts0].
  { exfalso. apply Hcalled. unfold called_contacts. simpl.
    destruct (max_contacts campaign_request) as [m|]; [destruct (m =? 0)%Z|];
      rewrite ?take_nil; reflexivity. }
  rewrite collect_calls_called.
  destruct (called_contacts (max_contacts campaign_request) (contact0 :: contacts0))
    as [| c cs]; [contradiction|].
  cbn [fmap list_fmap]. cbv beta iota.
  unfold sbind at 1. rewrite Hbatch. reflexivity.
Qed.

(** X22. A campaign whose fetch raises ends in the 500
    [Campaign failed: ...]; one that finds no contact, or no contact with
    a phone number, answers with its own message. In the three cases the
    server is left as it was: nothing is sent to Twilio or HubSpot and
    nothing is stored. *)
Theorem campaign_without_calls_touches_nothing (campaign_request : CampaignRequest)
    (sv : Server) :
  match fetch_contacts_by_lead_status senv (outbox sv) (lead_statuses campaign_request) with
  | Raise e => start_campaign senv campaign_request sv = (Raise ("Campaign failed: " ++ e), sv)
  | Ok contacts =>
      (contacts = [] → start_campaign senv campaign_request sv = (Ok NoContactsFound, sv))
      ∧ (contacts ≠ [] →
         List.filter has_phone contacts = [] →
         start_campaign senv campaign_request sv
         = (Ok (NoValidPhoneNumbers (length contacts)), sv))
  end.
Proof.
  destruct (fetch_contacts_by_lead_status senv (outbox sv) _) as [contacts | e]
    eqn:Hfetch.
  2: { unfold start_campaign, stry. unfold sbind at 1. rewrite Hfetch. reflexivity. }
  split.
  - intros ->. unfold start_campaign, stry. unfold sbind at 1. rewrite Hfetch.
    reflexivity.
  - intros Hne Hnophone. unfold start_campaign, stry. unfold sbind at 1.
    rewrite Hfetch.
    destruct contacts as [| contact0 contacts0]; [contradiction|].
    rewrite collect_calls_called. unfold called_contacts. rewrite Hnophone.
    destruct (max_contacts campaign_request) as [m|]; [destruct (m =? 0)%Z|];
      rewrite ?take_nil; reflexivity.
Qed.

(** X23. With the credentials and [API_BASE_URL] set, the Twilio calls of a
    campaign are exactly those of the contacts it selects, in order, each
    to the contact's phone number and from [TWILIO_PHONE_NUMBER]. The
    selected contacts have a phone number and come from the fetch: all of
    them when [max_contacts] is [null] or 0, at most [max_contacts] when it
    is positive, and the first one alone when it is negative. *)
Theorem campaign_calls_the_selected_contacts (campaign_request : CampaignRequest)
    (sv : Server) (contacts : list Contact) (host : string) :
  fetch_contacts_by_lead_status senv (outbox sv) (lead_statuses campaign_request)
    = Ok contacts →
  called_contacts (max_contacts campaign_request) contacts ≠ [] →
  environ senv !! "API_BASE_URL" = Some host →
  host ≠ "" →
  env_truthy (environ senv !! "TWILIO_ACCOUNT_SID")
  && env_truthy (environ senv !! "TWILIO_AUTH_TOKEN") = true →
  let called := called_contacts (max_contacts campaign_request) contacts in
  twilio_requests (sent_by (start_campaign senv campaign_request) sv)
  = request_for senv <$> (call_of <$> called)
  ∧ Forall (λ contact, has_phone contact = true ∧ contact ∈ contacts) called
  ∧ (∀ n, max_contacts campaign_request = Some n → (1 ≤ n)%Z →
          (Z.of_nat (length called) ≤ n)%Z)
  ∧ (∀ n, max_contacts campaign_request = Some n → (n ≤ -1)%Z →
          called = take 1 (List.filter has_phone contacts))
  ∧ (max_contacts campaign_request = None ∨ max_contacts campaign_request = Some 0%Z →
     called = List.filter has_phone contacts).
Proof.
  intros Hfetch Hcalled Hhost Hne Hcred called.
  destruct (start_campaign_run campaign_request sv contacts host Hfetch Hcalled Hhost Hne)
    as (results & new_tw & new_crm & Hrun & _ & _ & Htw & _ & _ & Hsent).
  destruct (called_contacts_spec (max_contacts campaign_request) contacts)
    as (Hphones & _ & Hpos & Hneg & Hall).
  split; [|repeat split; assumption].
  erewrite sent_by_run; [| exact Hrun | reflexivity].
  unfold twilio_requests in *. rewrite omap_app, Htw, app_nil_r.
  exact (Hsent Hcred).
Qed.

(** X24. The answer of a campaign that reaches the calls adds up:
    [total_contacts_found] is the number of contacts fetched;
    [calls_initiated] and [calls_failed] sum to [contacts_with_phone],
    which is also the number of [call_results] and of [contacts_data] and
    lies between 1 and the total; and Twilio was contacted at most that
    many times. *)
Theorem campaign_accounting (campaign_request : CampaignRequest)
    (sv : Server) (contacts : list Contact) (host : string) :
  fetch_contacts_by_lead_status senv (outbox sv) (lead_statuses campaign_request)
    = Ok contacts →
  called_contacts (max_contacts campaign_request) contacts ≠ [] →
  environ senv !! "API_BASE_URL" = Some host →
  host ≠ "" →
  ∃ total with_phone initiated failed flag contacts_data results,
    (start_campaign senv campaign_request sv).1
    = Ok (CampaignStarted total with_phone initiated failed flag contacts_data results)
    ∧ total = length contacts
    ∧ (initiated + failed)%nat = with_phone
    ∧ length results = with_phone
    ∧ length contacts_data = with_phone
    ∧ (1 ≤ with_phone ≤ total)%nat
    ∧ initiated = length (List.filter is_initiated results)
    ∧ (length (twilio_requests (sent_by (start_campaign senv campaign_request) sv))
       ≤ with_phone)%nat.
Proof.
  intros Hfetch Hcalled Hhost Hne.
  destruct (start_campaign_run campaign_request sv contacts host Hfetch Hcalled Hhost Hne)
    as (results & new_tw & new_crm & Hrun & Hresults & _ & Htw & _ & Hlen & _).
  destruct (called_contacts_spec (max_contacts campaign_request) contacts)
    as (_ & Hle & _).
  apply Forall2_length in Hresults.
  eexists _, _, _, _, _, _, _. rewrite Hrun. split; [reflexivity|].
  split; [reflexivity|]. split; [rewrite count_initiated_failed; symmetry; exact Hresults|].
  split; [symmetry; exact Hresults|]. split; [apply length_fmap|].
  split.
  { split; [|exact Hle].
    destruct (called_contacts (max_contacts campaign_request) contacts);
      [contradiction | simpl; lia]. }
  split; [reflexivity|].
  erewrite sent_by_run; [| exact Hrun | reflexivity].
  unfold twilio_requests in *. rewrite omap_app, Htw, app_nil_r. exact Hlen.
Qed.

(** The webhook, case by case. *)
Lemma twilio_call_status_webhook_run (form_data : Form) (sv : Server) :
  let stored :=
    match f_CallSid form_data with
    | Some sid => default [] (call_body_data sv !! sid)
    | None => []
    end in
  let contact_id := Odict.get stored "contactId" VNone in
  let entry :=
    default {| r_contact_id := contact_id;
               r_body_data := stored;
               r_twilio_status := VNone;
               r_call_duration := VNone |}
            (call_results sv !! f_CallSid form_data) in
  ∃ response new,
    twilio_call_status_webhook senv (Ok form_data) sv =
    (Ok response,
     {| call_body_data := call_body_data sv;
        call_results :=
          <[f_CallSid form_data :=
              {| r_contact_id := r_contact_id entry;
                 r_body_data := r_body_data entry;
                 r_twilio_status := env_value (f_CallStatus form_data);
                 r_call_duration := VStr (default "0" (f_CallDuration form_data)) |}]>
            (call_results sv);
        outbox := outbox sv ++ new |})
    ∧ twilio_requests new = []
    ∧ (response = Http200 "received" ∨ ∃ e, response = HttpError 500 e)
    ∧ (server_crm_calls new = []
       ∨ (truthy contact_id = true
          ∧ f_CallStatus form_data ∈ [Some "no-answer"; Some "busy"; Some "failed"]
          ∧ ∃ rest, server_crm_calls new
                    = update_contact_lead_status contact_id ATTEMPTED_TO_CONTACT :: rest)).
Proof.
  intros stored contact_id entry.
  unfold twilio_call_status_webhook, stry, sbind, sret, server_crm. simpl.
  fold stored. fold contact_id. fold entry.
  destruct (truthy contact_id) eqn:Hcid; simpl.
  2: { eexists _, []. rewrite app_nil_r. repeat split; eauto. }
  destruct (bool_decide (f_CallStatus form_data = Some "completed")); simpl.
  { eexists _, []. rewrite app_nil_r. repeat split; eauto. }
  destruct (bool_decide (f_CallStatus form_data
                         ∈ [Some "no-answer"; Some "busy"; Some "failed"])) eqn:Hfailed;
    simpl.
  2: { eexists _, []. rewrite app_nil_r. repeat split; eauto. }
  apply bool_decide_eq_true in Hfailed.
  destruct (crm_function senv (outbox sv) _) as [e|]; simpl.
  { eexists _, [_]. repeat split; eauto; right; repeat split; eauto. }
  destruct (crm_function senv _ _) as [e|]; simpl;
    eexists _, [_; _]; rewrite <- app_assoc;
    (repeat split; eauto); right; repeat split; eauto.
Qed.

(** X26. [POST /call_status] never raises: it answers 200 [received] or a
    500, never contacts Twilio and never changes [call_body_data]. It calls
    HubSpot only when the body stored for the sid has a contact id and the
    status is [no-answer], [busy] or [failed], and its first call is then
    the update of that contact to [ATTEMPTED_TO_CONTACT]. The record of the
    sid gets the status and the duration of the form (["0"] by default) and
    keeps the contact id of an earlier record. *)
Theorem webhook_updates_crm_only_for_failed_calls (form : result Form) (sv : Server) :
  let r := twilio_call_status_webhook senv form sv in
  let new := sent_by (twilio_call_status_webhook senv form) sv in
  (r.1 = Ok (Http200 "received") ∨ ∃ e, r.1 = Ok (HttpError 500 e))
  ∧ call_body_data r.2 = call_body_data sv
  ∧ twilio_requests new = []
  ∧ ∀ form_data, form = Ok form_data →
      let stored :=
        match f_CallSid form_data with
        | Some sid => default [] (call_body_data sv !! sid)
        | None => []
        end in
      let contact_id := Odict.get stored "contactId" VNone in
      (server_crm_calls new ≠ [] →
       truthy contact_id = true
       ∧ f_CallStatus form_data ∈ [Some "no-answer"; Some "busy"; Some "failed"]
       ∧ head (server_crm_calls new)
         = Some (update_contact_lead_status contact_id ATTEMPTED_TO_CONTACT))
      ∧ ∃ record,
          call_results r.2 !! f_CallSid form_data = Some record
          ∧ r_twilio_status record = env_value (f_CallStatus form_data)
          ∧ r_call_duration record = VStr (default "0" (f_CallDuration form_data))
          ∧ r_contact_id record
            = match call_results sv !! f_CallSid form_data with
              | Some old => r_contact_id old
              | None => contact_id
              end.
Proof.
  intros r new. subst r new. destruct form as [form_data | e].
  2: { unfold sent_by. simpl. rewrite drop_all.
       split; [right; eauto|]. split; [reflexivity|]. split; [reflexivity|].
       discriminate. }
  destruct (twilio_call_status_webhook_run form_data sv)
    as (response & new & Hrun & Htw & Hresp & Hcrm).
  rewrite (sent_by_run _ _ _ _ new Hrun eq_refl). rewrite Hrun. simpl.
  split.
  { destruct Hresp as [-> | [e ->]]; [left | right]; eauto. }
  split; [reflexivity|]. split; [exact Htw|].
  intros form_data' [= <-]. split.
  - intros Hne. destruct Hcrm as [Hnil | (Hcid & Hstatus & rest & Hcalls)];
      [contradiction|].
    rewrite Hcalls. repeat split; assumption.
  - eexists. rewrite lookup_insert_eq. split; [reflexivity|]. simpl.
    repeat split.
    destruct (call_results sv !! f_CallSid form_data); reflexivity.
Qed.

Lemma odict_mem_false_keys (k : string) (d : odict) :
  k ∉ d.*1 →
  Odict.mem k d = false
  ∧ List.filter (λ entry, negb (String.eqb entry.1 k)) d = d.
Proof.
  unfold Odict.mem.
  induction d as [| [k' v] rest IH]; intros Hnotin; [split; reflexivity|].
  simpl in *. apply not_elem_of_cons in Hnotin as [Hne Hrest].
  destruct (IH Hrest) as [Hmem Hfilter].
  destruct (String.eqb_spec k' k) as [-> | _]; [contradiction|].
  simpl. rewrite Hmem, Hfilter. split; reflexivity.
Qed.

Lemma twiml_parameters_permutation (d : odict) :
  NoDup d.*1 →
  (if odict_truthy d && Odict.mem "CallSid" d
   then [("CallSid", Odict.get d "CallSid" VNone)] else [])
  ++ (if odict_truthy d
      then List.filter (λ entry, negb (String.eqb entry.1 "CallSid")) d else [])
  ≡ₚ d.
Proof.
  destruct d as [| entry0 rest0]; [reflexivity|].
  cbn [odict_truthy andb]. generalize (entry0 :: rest0). clear.
  intros d. induction d as [| [k v] rest IH]; intros Hnodup; [reflexivity|].
  simpl in *. apply NoDup_cons in Hnodup as [Hnotin Hnodup].
  unfold Odict.mem in *. simpl.
  destruct (String.eqb_spec k "CallSid") as [-> | Hne]; simpl.
  - destruct (odict_mem_false_keys "CallSid" rest Hnotin) as [_ ->]. reflexivity.
  - specialize (IH Hnodup).
    destruct (existsb (λ entry, String.eqb entry.1 "CallSid") rest); simpl in *.
    + etransitivity; [apply Permutation_swap|].
      apply Permutation_skip. exact IH.
    + apply Permutation_skip. exact IH.
Qed.

(** X27. [POST /twiml] for a sid with no stored body answers 500 with the
    detail ['contactId']: [generate_twiml] raises when the body is [None]
    or has no [contactId]. When it returns, the stream goes to the
    websocket URL with [?contactId=] and the contact id; its parameters
    are the entries of the body, each once, with [CallSid] first when the
    body has one. *)
Theorem twiml_needs_the_contact_id (host : string) (body_data : option odict) :
  (∀ sv form_data,
     call_body_data sv !! default "" (f_CallSid form_data) = None →
     get_twiml senv (Ok form_data) sv = HttpError 500 "'contactId'")
  ∧ match generate_twiml senv host body_data with
    | Raise e => body_data = None ∨ ∃ d, body_data = Some d ∧ "contactId" ∉ d.*1
    | Ok twiml =>
        ∃ d, body_data = Some d
             ∧ "contactId" ∈ d.*1
             ∧ stream_url twiml
               = get_websocket_url senv host ++ "?contactId="
                 ++ to_str (Odict.get d "contactId" VNone)
             ∧ (NoDup d.*1 → stream_parameters twiml ≡ₚ d)
             ∧ (Odict.mem "CallSid" d = true →
                head (stream_parameters twiml)
                = Some ("CallSid", Odict.get d "CallSid" VNone))
    end.
Proof.
  assert (Hmem : ∀ k (d : odict), Odict.mem k d = true ↔ k ∈ d.*1).
  { intros k d. unfold Odict.mem. induction d as [| [k' v] rest IH]; simpl.
    - split; [discriminate | intros H; inversion H].
    - rewrite elem_of_cons, orb_true_iff, IH.
      destruct (String.eqb_spec k' k); split; intros [H | H]; eauto; discriminate. }
  split.
  - intros sv form_data Hunknown. unfold get_twiml. rewrite Hunknown. reflexivity.
  - unfold generate_twiml. destruct body_data as [d|]; [|left; reflexivity].
    destruct (Odict.mem "contactId" d) eqn:Hcontact; simpl.
    + exists d. split; [reflexivity|]. split; [apply Hmem; exact Hcontact|].
      split; [reflexivity|]. split; [apply twiml_parameters_permutation|].
      intros Hsid. rewrite Hsid.
      destruct d; [discriminate | reflexivity].
    + right. exists d. split; [reflexivity|].
      intros Hin. apply Hmem in Hin. congruence.
Qed.

Lemma status_updates_for_called (called : list Contact) (results : list CallResult) :
  Forall2 (λ contact r,
           match r with
           | call_initiated p _ b =>
               p = phone_number (call_of contact) ∧ b = body (call_of contact)
           | call_failed p _ => p = phone_number (call_of contact)
           end) called results →
  status_updates_for results = updates_of called results.
Proof.
  induction 1 as [| contact r called results Hr _ IH]; [reflexivity|].
  unfold status_updates_for, updates_of in *.
  cbn [zip zip_with omap list_omap fst snd].
  destruct r as [p sid b | p e]; cbn [is_initiated andb].
  - destruct Hr as [_ ->]. cbn [call_of body Odict.get String.eqb Ascii.eqb Bool.eqb truthy].
    destruct (String.eqb (c_id contact) ""); cbn [negb]; rewrite IH; reflexivity.
  - exact IH.
Qed.

(** X25. With [update_status_after_call] set, a campaign that reaches the
    calls sends HubSpot one update to [ATTEMPTED_TO_CONTACT] for each
    contact whose call Twilio accepted (and whose id is not empty), in the
    order of the calls, and none for a call that failed; with the flag
    [false] or [null] it sends none. Whether HubSpot accepts the updates
    does not change the answer. *)
Theorem campaign_updates_initiated_contacts (campaign_request : CampaignRequest)
    (sv : Server) (contacts : list Contact) (host : string) :
  fetch_contacts_by_lead_status senv (outbox sv) (lead_statuses campaign_request)
    = Ok contacts →
  called_contacts (max_contacts campaign_request) contacts ≠ [] →
  environ senv !! "API_BASE_URL" = Some host →
  host ≠ "" →
  let called := called_contacts (max_contacts campaign_request) contacts in
  ∃ response,
    (start_campaign senv campaign_request sv).1 = Ok response
    ∧ length (results_of response) = length called
    ∧ server_crm_calls (sent_by (start_campaign senv campaign_request) sv)
      = (if default false (update_status_after_call campaign_request)
         then updates_of called (results_of response) else []).
Proof.
  intros Hfetch Hcalled Hhost Hne called.
  destruct (start_campaign_run campaign_request sv contacts host Hfetch Hcalled Hhost Hne)
    as (results & new_tw & new_crm & Hrun & Hresults & Hnocrm & _ & Hcrm & _).
  eexists. rewrite Hrun. split; [reflexivity|]. cbn [results_of].
  split; [symmetry; eapply Forall2_length; exact Hresults|].
  erewrite sent_by_run; [| exact Hrun | reflexivity].
  unfold server_crm_calls in *. rewrite omap_app, Hnocrm, Hcrm. cbn [app].
  destruct (default false (update_status_after_call campaign_request)); [|reflexivity].
  apply status_updates_for_called. exact Hresults.
Qed.

Lemma store_bodies_cons (r : CallResult) (rest : list CallResult)
    (stored : gmap string odict) :
  store_bodies (r :: rest) stored
  = store_bodies rest
      match r with
      | call_initiated _ call_sid body =>
          if negb (String.eqb call_sid "") && odict_truthy (default [] body)
          then <[call_sid := default [] body]> stored else stored
      | call_failed _ _ => stored
      end.
Proof. reflexivity. Qed.

Lemma store_bodies_untouched (results : list CallResult) (stored : gmap string odict)
    (sid : string) :
  (∀ j p b, results !! j ≠ Some (call_initiated p sid b)) →
  store_bodies results stored !! sid = stored !! sid.
Proof.
  revert stored. induction results as [| r rest IH]; intros stored Hother;
    [reflexivity|].
  rewrite store_bodies_cons.
  rewrite IH by (intros j p b; exact (Hother (S j) p b)).
  destruct r as [p sid' b | p e]; [|reflexivity].
  destruct (negb (String.eqb sid' "") && odict_truthy (default [] b)); [|reflexivity].
  apply lookup_insert_ne. intros ->. exact (Hother 0%nat p b eq_refl).
Qed.

Lemma store_bodies_lookup_last (results : list CallResult) (stored : gmap string odict)
    (i : nat) (p : value) (sid : string) (b : option odict) :
  results !! i = Some (call_initiated p sid b) →
  sid ≠ "" →
  odict_truthy (default [] b) = true →
  (∀ j p' b', (i < j)%nat → results !! j ≠ Some (call_initiated p' sid b')) →
  store_bodies results stored !! sid = Some (default [] b).
Proof.
  revert stored i. induction results as [| r rest IH]; intros stored i Hi Hsid Hbody Hlast;
    [discriminate|].
  rewrite store_bodies_cons. destruct i as [| i].
  - injection Hi as ->.
    destruct (String.eqb_spec sid ""); [contradiction|]. rewrite Hbody. cbn [negb andb].
    rewrite store_bodies_untouched
      by (intros j p' b'; apply (Hlast (S j) p' b'); lia).
    apply lookup_insert_eq.
  - apply (IH _ i); try assumption.
    intros j p' b' Hlt. apply (Hlast (S j) p' b'). lia.
Qed.

(** X28. After a campaign, [POST /twiml] for the sid of an initiated call
    answers 200 with a stream to the websocket whose [contactId] is the id
    of the contact that call was placed for, and whose parameters are the
    five fields of that contact's body, in their order, provided no later
    call of the campaign was given the same sid (the later body would
    replace this one). *)
Theorem twiml_after_campaign (campaign_request : CampaignRequest)
    (sv : Server) (contacts : list Contact) (host : string) :
  fetch_contacts_by_lead_status senv (outbox sv) (lead_statuses campaign_request)
    = Ok contacts →
  called_contacts (max_contacts campaign_request) contacts ≠ [] →
  environ senv !! "API_BASE_URL" = Some host →
  host ≠ "" →
  let called := called_contacts (max_contacts campaign_request) contacts in
  ∃ response,
    (start_campaign senv campaign_request sv).1 = Ok response
    ∧ ∀ i contact p sid b form_data,
        called !! i = Some contact →
        results_of response !! i = Some (call_initiated p sid b) →
        sid ≠ "" →
        (∀ j p' b', (i < j)%nat →
                    results_of response !! j ≠ Some (call_initiated p' sid b')) →
        f_CallSid form_data = Some sid →
        get_twiml senv (Ok form_data) (start_campaign senv campaign_request sv).2
        = Http200
            {| stream_url :=
                 get_websocket_url senv "zvjk3c9x-7860.inc1.devtunnels.ms"
                 ++ "?contactId=" ++ c_id contact;
               stream_parameters :=
                 [("contactId", VStr (c_id contact));
                  ("leadStatus", Py.get (c_properties contact) "hs_lead_status" VNone);
                  ("firstname", Py.get (c_properties contact) "firstname" (VStr ""));
                  ("lastname", Py.get (c_properties contact) "lastname" (VStr ""));
                  ("email", Py.get (c_properties contact) "email" (VStr ""))];
               pause_length := 20 |}.
Proof.
  intros Hfetch Hcalled Hhost Hne called.
  destruct (start_campaign_run campaign_request sv contacts host Hfetch Hcalled Hhost Hne)
    as (results & new_tw & new_crm & Hrun & Hresults & _).
  eexists. rewrite Hrun. split; [reflexivity|]. cbn [results_of snd].
  intros i contact p sid b form_data Hcontact Hresult Hsid Hlast Hform.
  assert (Hb : b = body (call_of contact)).
  { pose proof (Forall2_lookup_lr _ _ _ _ _ _ Hresults Hcontact Hresult) as Hr.
    exact (proj2 Hr). }
  subst b.
  unfold get_twiml. rewrite Hform. cbn [from_option id call_body_data].
  rewrite (store_bodies_lookup_last results _ i p sid _ Hresult Hsid eq_refl Hlast).
  reflexivity.
Qed.

(** X29. The campaign script has no limit and no error handling of its
    own: it calls every contact with a phone number, in order, with a body
    of two fields. Like the server's batch it needs [API_BASE_URL] in the
    environment (the constant of the same name in the module is never
    read): without it the script raises as soon as one contact has a
    phone number. It sends HubSpot nothing and stores no body. *)
Theorem campaign_script_calls_every_contact_with_phone (sv : Server)
    (contacts : list Contact) :
  fetch_contacts_by_lead_status senv (outbox sv) ["NEW"; "OPEN"; "ATTEMPTED_TO_CONTACT"]
    = Ok contacts →
  List.filter has_phone contacts ≠ [] →
  let with_phone := List.filter has_phone contacts in
  let run := CampaignManager.start_campaign senv in
  if env_truthy (environ senv !! "API_BASE_URL") then
    ∃ results,
      (run sv).1 = Ok (CampaignManager.Results results)
      ∧ Forall2 (λ contact r,
                 match r with
                 | call_initiated p _ b =>
                     p = Py.get (c_properties contact) "phone" VNone
                     ∧ b = body (CampaignManager.call_of contact)
                 | call_failed p _ => p = Py.get (c_properties contact) "phone" VNone
                 end) with_phone results
      ∧ call_body_data (run sv).2 = call_body_data sv
      ∧ server_crm_calls (sent_by run sv) = []
      ∧ (env_truthy (environ senv !! "TWILIO_ACCOUNT_SID")
         && env_truthy (environ senv !! "TWILIO_AUTH_TOKEN") = true →
         twilio_requests (sent_by run sv)
         = request_for senv <$> (CampaignManager.call_of <$> with_phone))
  else run sv = (Raise unbound_host, sv).
Proof.
  intros Hfetch Hphone with_phone run. subst run.
  assert (Hcollect : ∀ cs acc,
            CampaignManager.collect_calls cs acc
            = (acc ++ (CampaignManager.call_of <$> List.filter has_phone cs))%list).
  { induction cs as [| c cs IH]; intros acc; [symmetry; apply app_nil_r|].
    cbn [CampaignManager.collect_calls List.filter]. unfold has_phone at 1.
    destruct (truthy (Py.get (c_properties c) "phone" VNone));
      rewrite IH; [rewrite <- app_assoc|]; reflexivity. }
  assert (Hstart : CampaignManager.start_campaign senv sv
                   = (do! response := batch_outbound_call senv
                                        (CampaignManager.call_of <$> with_phone) in
                      sret (CampaignManager.Results response)) sv).
  { unfold CampaignManager.start_campaign. unfold sbind at 1. rewrite Hfetch.
    rewrite Hcollect. cbn [app]. fold with_phone.
    assert (Hne : with_phone ≠ []) by exact Hphone. clearbody with_phone.
    destruct with_phone as [| c cs]; [contradiction | reflexivity]. }
  clearbody with_phone.
  destruct (env_truthy (environ senv !! "API_BASE_URL")) eqn:Hbase.
  - destruct (environ senv !! "API_BASE_URL") as [host|] eqn:Hhost; [|discriminate].
    assert (Hhostne : host ≠ "") by (intros ->; discriminate).
    destruct (batch_run (CampaignManager.call_of <$> with_phone) sv host Hhost Hhostne)
      as (results & new & Hbatch & Hresults & _ & Hreq & Hsent).
    assert (Hnocrm : server_crm_calls new = []).
    { eapply (twilio_events_no_crm new
                (λ request,
                 tw_to request
                   ∈ phone_number <$> (CampaignManager.call_of <$> with_phone)
                 ∧ tw_url request = host ++ "/twiml"
                 ∧ tw_status_callback request = host ++ "/call_status")).
      exact Hreq. }
    assert (Hrun : CampaignManager.start_campaign senv sv
                   = (Ok (CampaignManager.Results results),
                      {| call_body_data := call_body_data sv;
                         call_results := call_results sv;
                         outbox := outbox sv ++ new |})).
    { rewrite Hstart. unfold sbind. rewrite Hbatch. reflexivity. }
    exists results. rewrite (sent_by_run _ _ _ _ new Hrun eq_refl). rewrite Hrun.
    split; [reflexivity|]. split.
    { apply Forall2_fmap_l in Hresults. exact Hresults. }
    split; [reflexivity|]. split; [exact Hnocrm | exact Hsent].
  - rewrite Hstart. unfold sbind, batch_outbound_call. rewrite Hbase. reflexivity.
Qed.

End ServerProps.

Lemma batch_outbound_call_one_result_per_call_witness :
  ∃ results,
    (batch_outbound_call senv_ok [call_of contact_a; call_of contact_c] server0).1
    = Ok results
    ∧ length results = 2%nat.
Proof.
  destruct (batch_outbound_call_one_result_per_call senv_ok
              [call_of contact_a; call_of contact_c] server0
              "https://campaign.example" eq_refl ltac:(discriminate))
    as (results & new & Hrun & _ & Hlen & _).
  exists results. rewrite Hrun. split; [reflexivity | exact Hlen].
Defined.

Lemma batch_without_credentials_places_no_call_witness :
  batch_outbound_call senv_no_credentials
    [call_of contact_a; call_of contact_c] server0
  = (Ok [call_failed (VStr "+61400000001") "Missing Twilio credentials";
         call_failed (VStr "+61400000003") "Missing Twilio credentials"],
     server0).
Proof.
  exact (batch_without_credentials_places_no_call senv_no_credentials
           [call_of contact_a; call_of contact_c] server0
           "https://campaign.example" eq_refl ltac:(discriminate) eq_refl).
Defined.

Lemma campaign_fails_without_api_base_url_witness :
  start_campaign senv_no_base_url request_default server0
  = (Raise ("Campaign failed: " ++ unbound_host), server0).
Proof.
  exact (proj2 (campaign_fails_without_api_base_url senv_no_base_url
                  request_default server0 [contact_a; contact_b; contact_c]
                  eq_refl eq_refl ltac:(vm_compute; discriminate))).
Defined.

Lemma campaign_calls_the_selected_contacts_witness :
  twilio_requests (sent_by (start_campaign senv_ok request_default) server0)
  = request_for senv_ok <$> [call_of contact_a; call_of contact_c].
Proof.
  exact (proj1 (campaign_calls_the_selected_contacts senv_ok request_default
                  server0 [contact_a; contact_b; contact_c]
                  "https://campaign.example" eq_refl
                  ltac:(vm_compute; discriminate) eq_refl ltac:(discriminate)
                  eq_refl)).
Defined.

Lemma campaign_accounting_witness :
  ∃ total with_phone initiated failed flag contacts_data results,
    (start_campaign senv_ok request_default server0).1
    = Ok (CampaignStarted total with_phone initiated failed flag contacts_data results)
    ∧ total = 3%nat
    ∧ (initiated + failed)%nat = with_phone
    ∧ length results = with_phone
    ∧ length contacts_data = with_phone
    ∧ (1 ≤ with_phone ≤ total)%nat
    ∧ initiated = length (List.filter is_initiated results)
    ∧ (length (twilio_requests (sent_by (start_campaign senv_ok request_default) server0))
       ≤ with_phone)%nat.
Proof.
  exact (campaign_accounting senv_ok request_default server0
           [contact_a; contact_b; contact_c] "https://campaign.example"
           eq_refl ltac:(vm_compute; discriminate) eq_refl ltac:(discriminate)).
Defined.

Lemma campaign_updates_initiated_contacts_witness :
  ∃ response,
    (start_campaign senv_ok request_default server0).1 = Ok response
    ∧ length (results_of response) = 2%nat
    ∧ server_crm_calls (sent_by (start_campaign senv_ok request_default) server0)
      = updates_of [contact_a; contact_c] (results_of response).
Proof.
  exact (campaign_updates_initiated_contacts senv_ok request_default server0
           [contact_a; contact_b; contact_c] "https://campaign.example"
           eq_refl ltac:(vm_compute; discriminate) eq_refl ltac:(discriminate)).
Defined.

Lemma twiml_after_campaign_witness :
  ∃ response,
    (start_campaign senv_ok request_default server0).1 = Ok response
    ∧ ∀ i contact p sid b form_data,
        [contact_a; contact_c] !! i = Some contact →
        results_of response !! i = Some (call_initiated p sid b) →
        sid ≠ "" →
        (∀ j p' b', (i < j)%nat →
                    results_of response !! j ≠ Some (call_initiated p' sid b')) →
        f_CallSid form_data = Some sid →
        get_twiml senv_ok (Ok form_data)
          (start_campaign senv_ok request_default server0).2
        = Http200
            {| stream_url :=
                 "wss://zvjk3c9x-7860.inc1.devtunnels.ms/ws"
                 ++ "?contactId=" ++ c_id contact;
               stream_parameters :=
                 [("contactId", VStr (c_id contact));
                  ("leadStatus", Py.get (c_properties contact) "hs_lead_status" VNone);
                  ("firstname", Py.get (c_properties contact) "firstname" (VStr ""));
                  ("lastname", Py.get (c_properties contact) "lastname" (VStr ""));
                  ("email", Py.get (c_properties contact) "email" (VStr ""))];
               pause_length := 20 |}.
Proof.
  exact (twiml_after_campaign senv_ok request_default server0
           [contact_a; contact_b; contact_c] "https://campaign.example"
           eq_refl ltac:(vm_compute; discriminate) eq_refl ltac:(discriminate)).
Defined.

Lemma campaign_script_calls_every_contact_with_phone_witness :
  CampaignManager.start_campaign senv_no_base_url server0
  = (Raise unbound_host, server0)
  ∧ ∃ results,
      (CampaignManager.start_campaign senv_ok server0).1
      = Ok (CampaignManager.Results results)
      ∧ length results = 2%nat.
Proof.
  split.
  - exact (campaign_script_calls_every_contact_with_phone senv_no_base_url server0
             [contact_a; contact_b; contact_c] eq_refl ltac:(vm_compute; discriminate)).
  - destruct (campaign_script_calls_every_contact_with_phone senv_ok server0
                [contact_a; contact_b; contact_c] eq_refl
                ltac:(vm_compute; discriminate))
      as (results & Hrun & Hresults & _).
    exists results. split; [exact Hrun|].
    symmetry. exact (Forall2_length _ _ _ Hresults).
Defined.
